(** * AI_Agent: the security pipeline, the response cache, the agent and its metrics

    A shallow embedding of [src/ai_agent.py] (classes [SecurityContext],
    [CodeResponse], [SecurityManager], [CacheManager], [AIAgent]), of the
    metrics, the performance callback and the code validator of
    [agent/src/agent_core.py] and of the reply parser of [custom_llm.py],
    followed by the properties of the specification that were checked
    against them.

    Conventions of the embedding.
    - A Python [str] is a [string]: the bytes of its UTF-8 encoding.  A file
      holds bytes; text files are read and written in UTF-8, the encoding
      of the locale, on a POSIX system.
    - A [float] that the code only compares, adds small integers to or
      averages is a rational ([Q]); rounding is not modelled.
    - A [datetime] is a number of microseconds ([Z]).
    - The effects of the agent (files of the cache directory, calls to the
      model client, readings of the clock, raised exceptions) are threaded
      through a state-and-exception monad [M].
    - What the interpreter and its library decide ([compile], [json],
      [hashlib], the codec of text files) is modelled on CPython 3.11 with
      its default settings; the compiler, the clock and the model client
      are parameters. *)

From Stdlib Require Import ZArith QArith Qminmax Ascii String List Bool Lia.
From stdpp Require Import base gmap strings.

Local Open Scope Z_scope.
Set Warnings "-register-all".

(** ** Strings of the host language *)

Module Py.

(** [s.startswith(p)] *)
Fixpoint has_prefix (p s : string) {struct p} : bool :=
  match p with
  | EmptyString => true
  | String a p' =>
      match s with
      | EmptyString => false
      | String b s' => Ascii.eqb a b && has_prefix p' s'
      end
  end.

(** [p in s] on strings: [p] occurs at some position of [s]. *)
Fixpoint contains (p s : string) {struct s} : bool :=
  has_prefix p s ||
  match s with
  | EmptyString => false
  | String _ s' => contains p s'
  end.

(** The scan of [s.replace(old, new)] for a non-empty [old]: occurrences are
    taken from left to right and do not overlap, so after a match the
    remaining [skip] characters of the matched occurrence are passed over. *)
Fixpoint replace_scan (old new : string) (skip : nat) (s : string) {struct s} : string :=
  match s with
  | EmptyString => EmptyString
  | String c s' =>
      match skip with
      | S k => replace_scan old new k s'
      | O =>
          if has_prefix old s
          then new +:+ replace_scan old new (Nat.pred (String.length old)) s'
          else String c (replace_scan old new O s')
      end
  end.

(** [s.replace("", new)] puts [new] before every character and at the end. *)
Fixpoint replace_empty (new s : string) {struct s} : string :=
  new +:+ match s with
          | EmptyString => EmptyString
          | String c s' => String c (replace_empty new s')
          end.

(** [s.replace(old, new)] *)
Definition replace (s old new : string) : string :=
  match old with
  | EmptyString => replace_empty new s
  | String _ _ => replace_scan old new O s
  end.

(** [max(a, b)] on numbers: the first argument unless the second is larger. *)
Definition max (a b : Q) : Q := if Qle_bool b a then a else b.

End Py.

(** ** Configuration: [CONFIG] *)

Definition config_model : string := "llama2".
Definition config_cache_path : string := "cache/responses/".
Definition min_acceptable_score : Q := 80.
Definition dangerous_patterns : list string :=
  [ "os.system"; "eval("; "exec("; "__import__";
    "subprocess"; "open("; "write("; "chmod" ].

(** ** Exceptions and the monad of effects *)

Inductive exn : Type :=
| SecurityError (msg : string)
| CacheError (msg : string)
| TypeError (msg : string)
| AttributeError (msg : string)
| JSONDecodeError (msg : string)
| ValueError (msg : string)
| RecursionError (msg : string)
| UnicodeDecodeError (msg : string)
| UnicodeEncodeError (msg : string)
| FileNotFoundError (msg : string)
| ClientError (msg : string).

(** The messages of the exceptions of the interpreter and of its library
    are abridged: the embedding keeps which exception is raised and where.
    [JSONDecodeError] is a [ValueError] for the interpreter; no handler of
    the code catches [ValueError], so the two are kept apart. *)

Inductive result (A : Type) : Type :=
| Ok (a : A)
| Raise (e : exn).
Arguments Ok {A} a.
Arguments Raise {A} e.

(** A [datetime], in microseconds. *)
Definition datetime : Type := Z.
Definition seconds (n : Z) : Z := n * 1000000.

(** What the agent acts on: the files of the cache directory (path to
    bytes; regular files that can be read and written), the requests made
    to the model client so far (the model and the messages, each a role and
    a content), how many times the clock was read, and how many arrays and
    objects, one inside the other, [json.load] can enter before it reaches
    the recursion limit of the interpreter (the limit less the depth of
    the call stack). *)
Record World : Type := mkWorld {
  files : gmap string string;
  chat_calls : list (string * list (string * string));
  clock_reads : nat;
  recursion_room : nat
}.

Definition M (A : Type) : Type := World -> result A * World.

Definition ret {A} (a : A) : M A := fun w => (Ok a, w).
Definition raise {A} (e : exn) : M A := fun w => (Raise e, w).
Definition bind {A B} (m : M A) (k : A -> M B) : M B :=
  fun w => match m w with
           | (Ok a, w') => k a w'
           | (Raise e, w') => (Raise e, w')
           end.
Definition lift {A} (r : result A) : M A := fun w => (r, w).

#[export] Instance M_ret : MRet M := @ret.
#[export] Instance M_bind : MBind M := fun A B k m => bind m k.

(** ** [SecurityLevel], [SecurityContext] *)

Inductive SecurityLevel : Type := HIGH | MEDIUM | LOW.

Definition SecurityLevel_eqb (a b : SecurityLevel) : bool :=
  match a, b with
  | HIGH, HIGH | MEDIUM, MEDIUM | LOW, LOW => true
  | _, _ => false
  end.

Record SecurityContext : Type := mkSecurityContext {
  sanitized : bool;
  validated : bool;
  security_score : Q;
  vulnerabilities : list string;
  last_checked : datetime;
  security_level : SecurityLevel
}.

(** [x or []] for an optional list: [None] and the empty list are falsy. *)
Definition or_empty (x : option (list string)) : list string :=
  match x with
  | Some (v :: l) => v :: l
  | _ => []
  end.

(** The dataclass constructor followed by [__post_init__]; [now] is the
    reading of [datetime.now()] used when no [last_checked] is given. *)
Definition SecurityContext_init (now : datetime)
    (sanitized validated : bool) (security_score : Q)
    (vulnerabilities : option (list string)) (last_checked : option datetime)
    (security_level : SecurityLevel) : SecurityContext :=
  {| sanitized := sanitized;
     validated := validated;
     security_score := security_score;
     vulnerabilities := or_empty vulnerabilities;
     last_checked := default now last_checked;
     security_level := security_level |}.

(** [SecurityContext()]: every field at its default. *)
Definition SecurityContext_default (now : datetime) : SecurityContext :=
  SecurityContext_init now false false 0 None None LOW.

(** [SecurityContext.is_valid], at the instant [now]. *)
Definition is_valid (now : datetime) (c : SecurityContext) : bool :=
  validated c && (now - last_checked c <? seconds 86400).

Definition set_security_level (l : SecurityLevel) (c : SecurityContext) : SecurityContext :=
  {| sanitized := sanitized c; validated := validated c;
     security_score := security_score c; vulnerabilities := vulnerabilities c;
     last_checked := last_checked c; security_level := l |}.

(** [not l] on a list *)
Definition is_empty {A} (l : list A) : bool :=
  match l with [] => true | _ :: _ => false end.

(** [SecurityContext.update_security_level] *)
Definition update_security_level (c : SecurityContext) : SecurityContext :=
  if Qle_bool 90 (security_score c) && is_empty (vulnerabilities c)
  then set_security_level HIGH c
  else if Qle_bool 70 (security_score c)
  then set_security_level MEDIUM c
  else set_security_level LOW c.

(** ** [SecurityManager] *)

(** The redaction marker [f"# SECURITY REMOVED: {pattern}"]. *)
Definition marker_prefix : string := "# SECURITY REMOVED: ".
Definition marker (pattern : string) : string := marker_prefix +:+ pattern.

(** [SecurityManager.sanitize_code] *)
Definition sanitize_code (code : string) : string :=
  fold_left (fun code pattern => Py.replace code pattern (marker pattern))
            dangerous_patterns code.

(** [SecurityManager.calculate_security_score] *)
Definition calculate_security_score (code : string) : Q :=
  Py.max 0 (fold_left (fun score pattern =>
                         if Py.contains pattern code then (score - 20)%Q else score)
                      dangerous_patterns 100%Q).

(** ** Dictionaries with string keys *)

Module Dict.

(** [d.get(k)] on an insertion-ordered dictionary. *)
Fixpoint get {V} (k : string) (d : list (string * V)) : option V :=
  match d with
  | [] => None
  | (k', v) :: d' => if String.eqb k k' then Some v else get k d'
  end.

(** [d[k] = v]: an existing key keeps its position. *)
Fixpoint set {V} (k : string) (v : V) (d : list (string * V)) : list (string * V) :=
  match d with
  | [] => [(k, v)]
  | (k', v') :: d' =>
      if String.eqb k k' then (k, v) :: d' else (k', v') :: set k v d'
  end.

End Dict.

(** ** The [json] module of the standard library

    [json.load] and [json.dump] with their default arguments, on the
    interpreter's own settings (the limit on the digits of an integer is
    the default one).  A number is carried as its literal: the code never
    computes on a decoded number. *)

Module Json.

Inductive value : Type :=
| Null
| Bool (b : bool)
| Number (literal : string)
| Str (s : string)
| Array (items : list value)
| Object (members : list (string * value)).

Definition quote : ascii := "034"%char.
Definition backslash : ascii := "092"%char.

Definition code_of (c : ascii) : N := N_of_ascii c.
Definition char_of (n : N) : ascii := ascii_of_N n.

Definition is_digit (c : ascii) : bool :=
  ((48 <=? code_of c) && (code_of c <=? 57))%N.

Definition is_ws (c : ascii) : bool :=
  let n := code_of c in
  ((n =? 32) || (n =? 9) || (n =? 10) || (n =? 13))%N.

Fixpoint skip_ws (s : string) : string :=
  match s with
  | String c s' => if is_ws c then skip_ws s' else s
  | EmptyString => EmptyString
  end.

(** [s] without its prefix [p], when it has it. *)
Fixpoint strip_prefix (p s : string) {struct p} : option string :=
  match p with
  | EmptyString => Some s
  | String a p' =>
      match s with
      | String b s' => if Ascii.eqb a b then strip_prefix p' s' else None
      | EmptyString => None
      end
  end.

(** *** UTF-8 *)

Definition utf8_encode (cp : N) : string :=
  (if cp <? 128 then String (char_of cp) ""
   else if cp <? 2048 then
     String (char_of (192 + cp / 64))
       (String (char_of (128 + cp mod 64)) "")
   else if cp <? 65536 then
     String (char_of (224 + cp / 4096))
       (String (char_of (128 + (cp / 64) mod 64))
          (String (char_of (128 + cp mod 64)) ""))
   else
     String (char_of (240 + cp / 262144))
       (String (char_of (128 + (cp / 4096) mod 64))
          (String (char_of (128 + (cp / 64) mod 64))
             (String (char_of (128 + cp mod 64)) ""))))%N.

Definition is_cont (c : ascii) : bool :=
  ((128 <=? code_of c) && (code_of c <? 192))%N.

(** The code points of a string; a byte that starts no well-formed sequence
    (none occurs in the encoding of a [str]) stands for itself. *)
Fixpoint utf8_decode (s : string) : list N :=
  match s with
  | EmptyString => []
  | String b0 s1 =>
      let n0 := code_of b0 in
      let single := n0 :: utf8_decode s1 in
      if (n0 <? 192)%N then single
      else
        match s1 with
        | String b1 s2 =>
            if negb (is_cont b1) then single
            else if (n0 <? 224)%N then
              ((n0 - 192) * 64 + (code_of b1 - 128))%N :: utf8_decode s2
            else
              match s2 with
              | String b2 s3 =>
                  if negb (is_cont b2) then single
                  else if (n0 <? 240)%N then
                    ((n0 - 224) * 4096 + (code_of b1 - 128) * 64
                     + (code_of b2 - 128))%N :: utf8_decode s3
                  else
                    match s3 with
                    | String b3 s4 =>
                        if negb (is_cont b3) then single
                        else
                          ((n0 - 240) * 262144 + (code_of b1 - 128) * 4096
                           + (code_of b2 - 128) * 64
                           + (code_of b3 - 128))%N :: utf8_decode s4
                    | EmptyString => single
                    end
              | EmptyString => single
              end
        | EmptyString => single
        end
  end.

(** *** Decoding *)

Definition hex_value (c : ascii) : option N :=
  let n := code_of c in
  (if (48 <=? n) && (n <=? 57) then Some (n - 48)
   else if (97 <=? n) && (n <=? 102) then Some (n - 87)
   else if (65 <=? n) && (n <=? 70) then Some (n - 55)
   else None)%N.

Definition hex4 (a b c d : ascii) : option N :=
  match hex_value a, hex_value b, hex_value c, hex_value d with
  | Some x, Some y, Some z, Some t => Some (((x * 16 + y) * 16 + z) * 16 + t)%N
  | _, _, _, _ => None
  end.

(** The character an escape [\e] stands for, [\u] apart. *)
Definition unescape (e : ascii) : option ascii :=
  let n := code_of e in
  (if n =? 34 then Some quote
   else if n =? 92 then Some backslash
   else if n =? 47 then Some "/"%char
   else if n =? 98 then Some (char_of 8)
   else if n =? 102 then Some (char_of 12)
   else if n =? 110 then Some (char_of 10)
   else if n =? 114 then Some (char_of 13)
   else if n =? 116 then Some (char_of 9)
   else None)%N.

Definition is_high_surrogate (v : N) : bool := ((55296 <=? v) && (v <=? 56319))%N.
Definition is_low_surrogate (v : N) : bool := ((56320 <=? v) && (v <=? 57343))%N.

(** A pending high surrogate that found no partner is kept as it is. *)
Definition flush (hi : option N) : string :=
  match hi with
  | Some h => utf8_encode h
  | None => EmptyString
  end.

Definition prepend (pre : string) (r : option (string * string)) : option (string * string) :=
  match r with
  | Some (str, rest) => Some (pre +:+ str, rest)
  | None => None
  end.

(** The body of a string literal, after its opening quote: the decoded
    string and what follows the closing quote.  [hi] is a high surrogate
    read from a [\u] escape and waiting for its low surrogate. *)
Fixpoint scan_string (hi : option N) (s : string) {struct s} : option (string * string) :=
  match s with
  | EmptyString => None
  | String c s' =>
      if Ascii.eqb c quote then Some (flush hi, s')
      else if Ascii.eqb c backslash then
        match s' with
        | EmptyString => None
        | String e s'' =>
            if Ascii.eqb e "u"%char then
              match s'' with
              | String h1 (String h2 (String h3 (String h4 s3))) =>
                  match hex4 h1 h2 h3 h4 with
                  | None => None
                  | Some v =>
                      match hi with
                      | Some h =>
                          if is_low_surrogate v
                          then prepend
                                 (utf8_encode (65536 + (h - 55296) * 1024 + (v - 56320))%N)
                                 (scan_string None s3)
                          else if is_high_surrogate v
                          then prepend (utf8_encode h) (scan_string (Some v) s3)
                          else prepend (utf8_encode h +:+ utf8_encode v)
                                       (scan_string None s3)
                      | None =>
                          if is_high_surrogate v
                          then scan_string (Some v) s3
                          else prepend (utf8_encode v) (scan_string None s3)
                      end
                  end
              | _ => None
              end
            else
              match unescape e with
              | Some ch => prepend (flush hi +:+ String ch "") (scan_string None s'')
              | None => None
              end
        end
      else if (code_of c <? 32)%N then None
      else prepend (flush hi +:+ String c "") (scan_string None s')
  end.

Fixpoint span_digits (s : string) : string * string :=
  match s with
  | String c s' =>
      if is_digit c
      then let (d, r) := span_digits s' in (String c d, r)
      else (EmptyString, s)
  | EmptyString => (EmptyString, EmptyString)
  end.

(** The integer part of a number: an optional minus sign, then a single
    zero or a non-zero digit followed by digits. *)
Definition scan_int (s : string) : option (string * string) :=
  let (sign, s1) :=
    match s with
    | String c s' => if Ascii.eqb c "-"%char then ("-", s') else (EmptyString, s)
    | EmptyString => (EmptyString, s)
    end in
  match s1 with
  | String c s2 =>
      if Ascii.eqb c "0"%char then Some (sign +:+ "0", s2)
      else if is_digit c
      then let (d, r) := span_digits s2 in Some (sign +:+ String c d, r)
      else None
  | EmptyString => None
  end.

(** The optional fraction: a dot and at least one digit. *)
Definition scan_frac (s : string) : string * string :=
  match s with
  | String c s' =>
      if Ascii.eqb c "."%char
      then match span_digits s' with
           | (EmptyString, _) => (EmptyString, s)
           | (d, r) => (String c d, r)
           end
      else (EmptyString, s)
  | EmptyString => (EmptyString, s)
  end.

(** The optional exponent: e or E, an optional sign, at least one digit. *)
Definition scan_exp (s : string) : string * string :=
  match s with
  | String e s' =>
      if Ascii.eqb e "e"%char || Ascii.eqb e "E"%char
      then
        let (sign, s2) :=
          match s' with
          | String c s'' =>
              if Ascii.eqb c "+"%char || Ascii.eqb c "-"%char
              then (String c "", s'') else (EmptyString, s')
          | EmptyString => (EmptyString, s')
          end in
        match span_digits s2 with
        | (EmptyString, _) => (EmptyString, s)
        | (d, r) => (String e (sign +:+ d), r)
        end
      else (EmptyString, s)
  | EmptyString => (EmptyString, s)
  end.

(** [sys.get_int_max_str_digits()]: the longest integer literal that
    [int] converts. *)
Definition int_max_str_digits : nat := 4300.

(** The digits of an integer part, its sign apart. *)
Definition digits_of (i : string) : string :=
  match i with
  | String c d => if Ascii.eqb c "-"%char then d else i
  | EmptyString => i
  end.

(** The value of a literal: one with a fraction or an exponent goes to
    [float], which converts every literal; an integer goes to [int], which
    raises [ValueError] on more digits than the limit. *)
Definition number_of (i f e : string) : result value :=
  if String.eqb f EmptyString && String.eqb e EmptyString
     && Nat.ltb int_max_str_digits (String.length (digits_of i))
  then Raise (ValueError "Exceeds the limit (4300 digits) for integer string conversion")
  else Ok (Number (i +:+ f +:+ e)).

Definition scan_number (s : string) : option (result value * string) :=
  match scan_int s with
  | None => None
  | Some (i, r) =>
      let (f, r1) := scan_frac r in
      let (e, r2) := scan_exp r1 in
      Some (number_of i f e, r2)
  end.

(** The text is not JSON. *)
Definition malformed : exn := JSONDecodeError "Expecting value".

(** The nesting went past what the interpreter allows. *)
Definition too_deep : exn :=
  RecursionError "maximum recursion depth exceeded while decoding a JSON document".

(** The constants, tried in the order of the scanner; a number is converted
    as soon as it is read. *)
Definition scan_constant (s : string) : result (value * string) :=
  match strip_prefix "null" s with
  | Some r => Ok (Null, r)
  | None =>
  match strip_prefix "true" s with
  | Some r => Ok (Bool true, r)
  | None =>
  match strip_prefix "false" s with
  | Some r => Ok (Bool false, r)
  | None =>
  match scan_number s with
  | Some (Ok v, r) => Ok (v, r)
  | Some (Raise e, _) => Raise e
  | None =>
  match strip_prefix "NaN" s with
  | Some r => Ok (Number "NaN", r)
  | None =>
  match strip_prefix "Infinity" s with
  | Some r => Ok (Number "Infinity", r)
  | None =>
  match strip_prefix "-Infinity" s with
  | Some r => Ok (Number "-Infinity", r)
  | None => Raise malformed
  end end end end end end end.

(** The recursive descent of the decoder, from left to right: the first
    failure met ends it.  [room] is the number of arrays and objects, one
    inside the other, that can still be entered: the scanner asks the
    interpreter before it enters one, and [RecursionError] is the answer
    when none is left.  [fuel] bounds the number of steps. *)
Fixpoint parse_value (fuel room : nat) (s : string) {struct fuel}
  : result (value * string) :=
  match fuel with
  | O => Raise malformed
  | S fuel' =>
      match s with
      | EmptyString => Raise malformed
      | String c s' =>
          if Ascii.eqb c quote then
            match scan_string None s' with
            | Some (str, r) => Ok (Str str, r)
            | None => Raise malformed
            end
          else if Ascii.eqb c "{"%char then
            match room with
            | O => Raise too_deep
            | S room' =>
                match skip_ws s' with
                | String c1 r1 =>
                    if Ascii.eqb c1 "}"%char then Ok (Object [], r1)
                    else parse_members fuel' room' [] (String c1 r1)
                | EmptyString => Raise malformed
                end
            end
          else if Ascii.eqb c "["%char then
            match room with
            | O => Raise too_deep
            | S room' =>
                match skip_ws s' with
                | String c1 r1 =>
                    if Ascii.eqb c1 "]"%char then Ok (Array [], r1)
                    else parse_items fuel' room' [] (String c1 r1)
                | EmptyString => Raise malformed
                end
            end
          else scan_constant s
      end
  end
with parse_items (fuel room : nat) (acc : list value) (s : string) {struct fuel}
  : result (value * string) :=
  match fuel with
  | O => Raise malformed
  | S fuel' =>
      match parse_value fuel' room s with
      | Raise e => Raise e
      | Ok (v, r) =>
          match skip_ws r with
          | String c r' =>
              if Ascii.eqb c "]"%char then Ok (Array (acc ++ [v]), r')
              else if Ascii.eqb c ","%char
              then parse_items fuel' room (acc ++ [v]) (skip_ws r')
              else Raise malformed
          | EmptyString => Raise malformed
          end
      end
  end
with parse_members (fuel room : nat) (acc : list (string * value)) (s : string)
    {struct fuel} : result (value * string) :=
  match fuel with
  | O => Raise malformed
  | S fuel' =>
      match s with
      | EmptyString => Raise malformed
      | String c s' =>
          if negb (Ascii.eqb c quote) then Raise malformed
          else
            match scan_string None s' with
            | None => Raise malformed
            | Some (key, r) =>
                match skip_ws r with
                | EmptyString => Raise malformed
                | String c2 r2 =>
                    if negb (Ascii.eqb c2 ":"%char) then Raise malformed
                    else
                      match parse_value fuel' room (skip_ws r2) with
                      | Raise e => Raise e
                      | Ok (v, r3) =>
                          match skip_ws r3 with
                          | EmptyString => Raise malformed
                          | String c3 r4 =>
                              if Ascii.eqb c3 "}"%char
                              then Ok (Object (Dict.set key v acc), r4)
                              else if Ascii.eqb c3 ","%char
                              then parse_members fuel' room (Dict.set key v acc)
                                                 (skip_ws r4)
                              else Raise malformed
                          end
                      end
                end
            end
      end
  end.

(** [json.loads], with [room] arrays and objects, one inside the other,
    left to the interpreter: one value, white space around it, nothing
    else. *)
Definition loads (room : nat) (s : string) : result value :=
  match parse_value (2 * String.length s + 2) room (skip_ws s) with
  | Ok (v, r) =>
      match skip_ws r with
      | EmptyString => Ok v
      | String _ _ => Raise (JSONDecodeError "Extra data")
      end
  | Raise e => Raise e
  end.

(** *** Encoding *)

Definition hex_digit (n : N) : ascii :=
  (if n <? 10 then char_of (48 + n) else char_of (87 + n))%N.

(** [\uXXXX] *)
Definition escape_u (n : N) : string :=
  String backslash
    (String "u"%char
       (String (hex_digit ((n / 4096) mod 16))
          (String (hex_digit ((n / 256) mod 16))
             (String (hex_digit ((n / 16) mod 16))
                (String (hex_digit (n mod 16)) ""))))).

(** One code point under [ensure_ascii]: printable ASCII stands for itself,
    the quote and the backslash are escaped, the rest is written [\uXXXX]. *)
Definition escape (cp : N) : string :=
  (if cp =? 34 then String backslash (String quote "")
   else if cp =? 92 then String backslash (String backslash "")
   else if cp =? 10 then String backslash "n"
   else if cp =? 13 then String backslash "r"
   else if cp =? 9 then String backslash "t"
   else if cp =? 8 then String backslash "b"
   else if cp =? 12 then String backslash "f"
   else if (32 <=? cp) && (cp <=? 126) then String (char_of cp) ""
   else if cp <? 65536 then escape_u cp
   else escape_u (55296 + ((cp - 65536) / 1024) mod 1024)
        +:+ escape_u (56320 + (cp - 65536) mod 1024))%N.

Definition encode_string (s : string) : string :=
  String quote
    (fold_right (fun cp out => escape cp +:+ out) (String quote "") (utf8_decode s)).

(** The text [json.dumps] gives for a value. *)
Fixpoint encode (v : value) : string :=
  match v with
  | Null => "null"
  | Bool true => "true"
  | Bool false => "false"
  | Number literal => literal
  | Str s => encode_string s
  | Array items =>
      match items with
      | [] => "[]"
      | x :: l =>
          "[" +:+ encode x +:+
          (fix rest (l : list value) : string :=
             match l with
             | [] => "]"
             | y :: l' => ", " +:+ encode y +:+ rest l'
             end) l
      end
  | Object members =>
      match members with
      | [] => "{}"
      | (k, x) :: l =>
          "{" +:+ encode_string k +:+ ": " +:+ encode x +:+
          (fix rest (l : list (string * value)) : string :=
             match l with
             | [] => "}"
             | (k', y) :: l' => ", " +:+ encode_string k' +:+ ": " +:+ encode y +:+ rest l'
             end) l
      end
  end.

End Json.

(** ** [hashlib.sha256] (FIPS 180-4), on the bytes of a string *)

Module Sha256.

Definition w32 (x : Z) : Z := x mod 4294967296.
Definition add32 (x y : Z) : Z := w32 (x + y).
Definition not32 (x : Z) : Z := Z.lxor x 4294967295.
Definition rotr (n x : Z) : Z := Z.lor (Z.shiftr x n) (w32 (Z.shiftl x (32 - n))).

Definition ch (x y z : Z) : Z := Z.lxor (Z.land x y) (Z.land (not32 x) z).
Definition maj (x y z : Z) : Z :=
  Z.lxor (Z.lxor (Z.land x y) (Z.land x z)) (Z.land y z).
Definition big_sigma0 (x : Z) : Z := Z.lxor (Z.lxor (rotr 2 x) (rotr 13 x)) (rotr 22 x).
Definition big_sigma1 (x : Z) : Z := Z.lxor (Z.lxor (rotr 6 x) (rotr 11 x)) (rotr 25 x).
Definition small_sigma0 (x : Z) : Z := Z.lxor (Z.lxor (rotr 7 x) (rotr 18 x)) (Z.shiftr x 3).
Definition small_sigma1 (x : Z) : Z := Z.lxor (Z.lxor (rotr 17 x) (rotr 19 x)) (Z.shiftr x 10).

(** The round constants and the initial hash value. *)
Definition K : list Z :=
  [
    1116352408; 1899447441; 3049323471; 3921009573; 961987163; 1508970993;
    2453635748; 2870763221; 3624381080; 310598401; 607225278; 1426881987;
    1925078388; 2162078206; 2614888103; 3248222580; 3835390401; 4022224774;
    264347078; 604807628; 770255983; 1249150122; 1555081692; 1996064986;
    2554220882; 2821834349; 2952996808; 3210313671; 3336571891; 3584528711;
    113926993; 338241895; 666307205; 773529912; 1294757372; 1396182291;
    1695183700; 1986661051; 2177026350; 2456956037; 2730485921; 2820302411;
    3259730800; 3345764771; 3516065817; 3600352804; 4094571909; 275423344;
    430227734; 506948616; 659060556; 883997877; 958139571; 1322822218;
    1537002063; 1747873779; 1955562222; 2024104815; 2227730452; 2361852424;
    2428436474; 2756734187; 3204031479; 3329325298 ].

Definition H0 : list Z :=
  [
    1779033703; 3144134277; 1013904242; 2773480762;
    1359893119; 2600822924; 528734635; 1541459225 ].

Definition bytes_of (s : string) : list Z :=
  map (fun c => Z.of_N (N_of_ascii c)) (list_ascii_of_string s).

(** [n] as [k] bytes, most significant first. *)
Fixpoint be_bytes (k : nat) (n : Z) : list Z :=
  match k with
  | O => []
  | S k' => be_bytes k' (n / 256) ++ [n mod 256]
  end.

(** The message, a bit 1, zero bits up to 56 bytes modulo 64, the length in
    bits on 64 bits. *)
Definition pad (msg : list Z) : list Z :=
  let len := Z.of_nat (length msg) in
  let zeros := Z.to_nat ((55 - len) mod 64) in
  msg ++ [128] ++ repeat 0 zeros ++ be_bytes 8 (8 * len).

Fixpoint words (fuel : nat) (bytes : list Z) : list Z :=
  match fuel with
  | O => []
  | S fuel' =>
      match bytes with
      | a :: b :: c :: d :: rest =>
          (((a * 256 + b) * 256 + c) * 256 + d) :: words fuel' rest
      | _ => []
      end
  end.

Fixpoint blocks (fuel : nat) (ws : list Z) : list (list Z) :=
  match fuel with
  | O => []
  | S fuel' =>
      match ws with
      | [] => []
      | _ :: _ => firstn 16 ws :: blocks fuel' (skipn 16 ws)
      end
  end.

(** The working variables a..h. *)
Record regs : Type := mkRegs { ra : Z; rb : Z; rc : Z; rd : Z; re : Z; rf : Z; rg : Z; rh : Z }.

Definition round (r : regs) (k w : Z) : regs :=
  let t1 := add32 (add32 (add32 (add32 (rh r) (big_sigma1 (re r))) (ch (re r) (rf r) (rg r))) k) w in
  let t2 := add32 (big_sigma0 (ra r)) (maj (ra r) (rb r) (rc r)) in
  mkRegs (add32 t1 t2) (ra r) (rb r) (rc r) (add32 (rd r) t1) (re r) (rf r) (rg r).

(** The sixteen most recent words of the message schedule, oldest first:
    the head is the word of the current round. *)
Definition next_window (win : list Z) : list Z :=
  let w i := nth i win 0 in
  tl win ++ [add32 (add32 (add32 (small_sigma1 (w 14%nat)) (w 9%nat))
                          (small_sigma0 (w 1%nat))) (w 0%nat)].

Fixpoint rounds (ks : list Z) (win : list Z) (r : regs) : regs :=
  match ks with
  | [] => r
  | k :: ks' => rounds ks' (next_window win) (round r k (hd 0 win))
  end.

Definition compress (h : list Z) (block : list Z) : list Z :=
  let n i := nth i h 0 in
  let r := rounds K block
             (mkRegs (n 0%nat) (n 1%nat) (n 2%nat) (n 3%nat)
                     (n 4%nat) (n 5%nat) (n 6%nat) (n 7%nat)) in
  [ add32 (n 0%nat) (ra r); add32 (n 1%nat) (rb r); add32 (n 2%nat) (rc r);
    add32 (n 3%nat) (rd r); add32 (n 4%nat) (re r); add32 (n 5%nat) (rf r);
    add32 (n 6%nat) (rg r); add32 (n 7%nat) (rh r) ].

Definition digest_words (s : string) : list Z :=
  let bytes := pad (bytes_of s) in
  let ws := words (length bytes) bytes in
  fold_left compress (blocks (length ws) ws) H0.

Definition hex_digit (n : Z) : ascii :=
  ascii_of_N (Z.to_N (if n <? 10 then 48 + n else 87 + n)).

Fixpoint hex (k : nat) (n : Z) : string :=
  match k with
  | O => EmptyString
  | S k' => hex k' (n / 16) +:+ String (hex_digit (n mod 16)) EmptyString
  end.

(** [hashlib.sha256(s.encode()).hexdigest()] *)
Definition hexdigest (s : string) : string :=
  fold_right (fun w out => hex 8 w +:+ out) EmptyString (digest_words s).

End Sha256.

(** ** Text files: what [open(path, 'r')] followed by [read()] returns

    The bytes of the file are decoded by the codec of the locale, UTF-8,
    which raises [UnicodeDecodeError] on bytes that are no encoding of a
    text, and the line ends are translated: CR LF and CR become LF. *)

Module TextIO.

Definition in_range (c : ascii) (lo hi : nat) : bool :=
  Nat.leb lo (nat_of_ascii c) && Nat.leb (nat_of_ascii c) hi.

(** The bytes are the UTF-8 encoding of a sequence of code points, without
    overlong forms, surrogates or code points past U+10FFFF: what the codec
    accepts. *)
Fixpoint utf8_valid (s : string) : bool :=
  match s with
  | EmptyString => true
  | String b0 s1 =>
      if in_range b0 0 127 then utf8_valid s1
      else
        match s1 with
        | EmptyString => false
        | String b1 s2 =>
            if in_range b0 194 223 then in_range b1 128 191 && utf8_valid s2
            else
              match s2 with
              | EmptyString => false
              | String b2 s3 =>
                  if in_range b0 224 239 then
                    (if in_range b0 224 224 then in_range b1 160 191
                     else if in_range b0 237 237 then in_range b1 128 159
                     else in_range b1 128 191)
                    && in_range b2 128 191 && utf8_valid s3
                  else
                    match s3 with
                    | EmptyString => false
                    | String b3 s4 =>
                        in_range b0 240 244
                        && (if in_range b0 240 240 then in_range b1 144 191
                            else if in_range b0 244 244 then in_range b1 128 143
                            else in_range b1 128 191)
                        && in_range b2 128 191 && in_range b3 128 191
                        && utf8_valid s4
                    end
              end
        end
  end.

Definition CR : ascii := ascii_of_nat 13.
Definition LF : ascii := ascii_of_nat 10.

(** The translation of line ends on reading. *)
Fixpoint universal_newlines (s : string) : string :=
  match s with
  | EmptyString => EmptyString
  | String c s1 =>
      if Ascii.eqb c CR then
        match s1 with
        | String c1 s2 =>
            if Ascii.eqb c1 LF then String LF (universal_newlines s2)
            else String LF (universal_newlines s1)
        | EmptyString => String LF EmptyString
        end
      else String c (universal_newlines s1)
  end.

(** [f.read()] on a file opened for reading as text. *)
Definition read (content : string) : result string :=
  if utf8_valid content then Ok (universal_newlines content)
  else Raise (UnicodeDecodeError "'utf-8' codec can't decode byte: invalid start byte").

End TextIO.

(** ** Values at run time, [CodeResponse] *)

(** What a field of a [CodeResponse] can hold: plain data ([None], a bool, a
    number, a [str], a list or a dict of plain data: what [json] reads and
    writes), a [SecurityContext] instance, or a [datetime] instance. *)
Inductive pyval : Type :=
| Data (v : Json.value)
| SecurityContextObj (c : SecurityContext)
| DatetimeObj (t : datetime).

(** The dataclass annotates its fields, but nothing checks the annotations:
    [CodeResponse( **data)] stores whatever the keywords carry. *)
Record CodeResponse : Type := mkCodeResponse {
  code : pyval;
  explanation : pyval;
  security_context : pyval;
  metadata : pyval;
  timestamp : pyval
}.

(** [type(v).__name__] for plain data *)
Definition type_name (v : Json.value) : string :=
  match v with
  | Json.Null => "NoneType"
  | Json.Bool _ => "bool"
  | Json.Number literal =>
      if Py.contains "." literal || Py.contains "e" literal || Py.contains "E" literal
         || Py.contains "N" literal || Py.contains "I" literal
      then "float" else "int"
  | Json.Str _ => "str"
  | Json.Array _ => "list"
  | Json.Object _ => "dict"
  end.

Definition no_attribute (type attribute : string) : exn :=
  AttributeError ("'" +:+ type +:+ "' object has no attribute '" +:+ attribute +:+ "'").

(** The three conjuncts of [is_secure] on a security context. *)
Definition context_is_secure (c : SecurityContext) : bool :=
  Qle_bool min_acceptable_score (security_score c)
  && negb (SecurityLevel_eqb (security_level c) LOW)
  && is_empty (vulnerabilities c).

(** [CodeResponse.is_secure]: the attribute [security_score] is looked up
    first, on whatever [security_context] holds. *)
Definition is_secure (r : CodeResponse) : result bool :=
  match security_context r with
  | SecurityContextObj c => Ok (context_is_secure c)
  | Data v => Raise (no_attribute (type_name v) "security_score")
  | DatetimeObj _ => Raise (no_attribute "datetime.datetime" "security_score")
  end.

(** [response.__dict__] *)
Definition to_dict (r : CodeResponse) : list (string * pyval) :=
  [ ("code", code r); ("explanation", explanation r);
    ("security_context", security_context r);
    ("metadata", metadata r); ("timestamp", timestamp r) ].

(** [CodeResponse( **data)]: [data] has to be a mapping whose keys are
    exactly the five fields. *)
Definition CodeResponse_of (data : Json.value) : result CodeResponse :=
  match data with
  | Json.Object members =>
      match Dict.get "code" members, Dict.get "explanation" members,
            Dict.get "security_context" members, Dict.get "metadata" members,
            Dict.get "timestamp" members with
      | Some c, Some e, Some s, Some m, Some t =>
          if (length members =? 5)%nat
          then Ok {| code := Data c; explanation := Data e;
                     security_context := Data s; metadata := Data m;
                     timestamp := Data t |}
          else Raise (TypeError "__init__() got an unexpected keyword argument")
      | _, _, _, _, _ =>
          if forallb (fun kv => existsb (String.eqb (fst kv))
                                  ["code"; "explanation"; "security_context";
                                   "metadata"; "timestamp"]) members
          then Raise (TypeError "__init__() missing required positional arguments")
          else Raise (TypeError "__init__() got an unexpected keyword argument")
      end
  | _ => Raise (TypeError "argument after ** must be a mapping")
  end.

(** The encoder on a run-time value: instances are not serializable. *)
Definition encode_py (v : pyval) : result string :=
  match v with
  | Data d => Ok (Json.encode d)
  | SecurityContextObj _ =>
      Raise (TypeError "Object of type SecurityContext is not JSON serializable")
  | DatetimeObj _ =>
      Raise (TypeError "Object of type datetime is not JSON serializable")
  end.

(** [json.dump(d, f)] for a dict [d]: the text is written to [f] piece by
    piece, so what was produced before a value that cannot be serialized is
    in the file when [TypeError] is raised.  The result is the text written
    and the outcome. *)
Fixpoint dump_items (first : bool) (items : list (string * pyval)) : string * result unit :=
  match items with
  | [] => ("}", Ok tt)
  | (k, v) :: rest =>
      let head := (if first then "" else ", ") +:+ Json.encode_string k +:+ ": " in
      match encode_py v with
      | Ok text =>
          let (out, outcome) := dump_items false rest in
          (head +:+ text +:+ out, outcome)
      | Raise e => (head, Raise e)
      end
  end.

Definition json_dump (d : list (string * pyval)) : string * result unit :=
  match d with
  | [] => ("{}", Ok tt)
  | _ :: _ => let (out, outcome) := dump_items true d in ("{" +:+ out, outcome)
  end.

(** The reply of [ollama.chat], as far as the agent reads it: the entry
    [message] when there is one, and in it the entry [content] when there is
    one. *)
Record ChatMessage : Type := mkChatMessage { content : option string }.
Record ChatResponse : Type := mkChatResponse { message : option ChatMessage }.

(** The outcome of the interpreter's [compile(code, '<string>', 'exec')] on
    a string: a code object, [SyntaxError] (or one of its subclasses) when
    the text is not a program, or another exception: [ValueError] on a NUL
    character (CPython 3.11), [UnicodeEncodeError] on a lone surrogate,
    [RecursionError] or [MemoryError] on a text too deep for the compiler. *)
Inductive CompileOutcome : Type :=
| Compiled
| SyntaxError
| OtherError (e : exn).

(** ** [SecurityManager.perform_security_checks], [CacheManager], [AIAgent] *)

(** [CacheManager.get_cache_key] *)
Definition get_cache_key (prompt : string) : string := Sha256.hexdigest prompt.

(** [self.cache_path / f"{cache_key}.json"] *)
Definition cache_file_of (cache_path prompt : string) : string :=
  cache_path +:+ "/" +:+ get_cache_key prompt +:+ ".json".

(** [Path(CONFIG["cache_path"])] *)
Definition cache_dir : string := "cache/responses".

Definition set_files (fs : gmap string string) (w : World) : World :=
  {| files := fs; chat_calls := chat_calls w; clock_reads := clock_reads w;
     recursion_room := recursion_room w |}.

(** [path.exists()] *)
Definition file_exists (path : string) : M bool :=
  fun w => (Ok (bool_decide (is_Some (files w !! path))), w).

(** [open(path, 'r')] and [f.read()]. *)
Definition read_file (path : string) : M string :=
  fun w => match files w !! path with
           | Some content => (TextIO.read content, w)
           | None => (Raise (FileNotFoundError path), w)
           end.

(** The nesting that the interpreter allows to the decoder. *)
Definition room_left : M nat := fun w => (Ok (recursion_room w), w).

(** [json.load(f)]: [json.loads(f.read())]. *)
Definition json_load (path : string) : M Json.value :=
  text ← read_file path;
  room ← room_left;
  lift (Json.loads room text).

(** [open(path, 'w')] with [text] written before the file is closed. *)
Definition write_file (path text : string) : M unit :=
  fun w => (Ok tt, set_files (<[path := text]> (files w)) w).

(** [CacheManager.get_cached_response] *)
Definition get_cached_response (cache_path prompt : string) : M (option CodeResponse) :=
  let cache_file := cache_file_of cache_path prompt in
  found ← file_exists cache_file;
  if (found : bool) then
    data ← json_load cache_file;
    response ← lift (CodeResponse_of data);
    mret (Some response)
  else mret None.

(** [CacheManager.cache_response] *)
Definition cache_response (cache_path prompt : string) (response : CodeResponse) : M unit :=
  let cache_file := cache_file_of cache_path prompt in
  let (text, outcome) := json_dump (to_dict response) in
  _ ← write_file cache_file text;
  lift outcome.

Section Agent.

(** The interpreter's compiler, the clock and the model client are outside
    the repository: [compile_exec] is [compile(_, '<string>', 'exec')],
    [clock n] is what the [n]-th call of [datetime.now()] returns,
    [ollama_chat] is [ollama.chat], which replies or raises. *)
Variable compile_exec : string -> CompileOutcome.
Variable clock : nat -> datetime.
Variable ollama_chat : string -> list (string * string) -> result ChatResponse.

(** [datetime.now()] *)
Definition datetime_now : M datetime :=
  fun w => (Ok (clock (clock_reads w)),
            {| files := files w; chat_calls := chat_calls w;
               clock_reads := S (clock_reads w);
               recursion_room := recursion_room w |}).

(** [ollama.chat(model=..., messages=...)]; the request is recorded. *)
Definition chat (model : string) (messages : list (string * string)) : M ChatResponse :=
  fun w => (ollama_chat model messages,
            {| files := files w;
               chat_calls := chat_calls w ++ [(model, messages)];
               clock_reads := clock_reads w;
               recursion_room := recursion_room w |}).

(** [SecurityManager.validate_syntax]: only [SyntaxError] is caught. *)
Definition validate_syntax (code : string) : result bool :=
  match compile_exec code with
  | Compiled => Ok true
  | SyntaxError => Ok false
  | OtherError e => Raise e
  end.

(** [SecurityManager.perform_security_checks] *)
Definition perform_security_checks (code : string) : M (SecurityContext * string) :=
  now ← datetime_now;
  let security_context := SecurityContext_default now in
  let sanitized_code := sanitize_code code in
  valid_syntax ← lift (validate_syntax sanitized_code);
  let score := calculate_security_score sanitized_code in
  let security_context :=
    {| sanitized := true;
       validated := valid_syntax;
       security_score := score;
       vulnerabilities := vulnerabilities security_context;
       last_checked := last_checked security_context;
       security_level := security_level security_context |} in
  mret (update_security_level security_context, sanitized_code).

(** [response.get("message", {}).get("content", "")] *)
Definition message_content_of (response : ChatResponse) : string :=
  default "" (content (default {| content := None |} (message response))).

(** The part of [generate_response] that runs when the cache is not served:
    the model is asked, its reply is checked, and the response is built,
    cached and returned. *)
Definition generate_fresh (prompt : string) : M CodeResponse :=
  response ← chat config_model [("user", prompt)];
  let message_content := message_content_of response in
  if String.eqb message_content ""
  then raise (SecurityError "No valid content received from Ollama.")
  else
    '(security_context, sanitized_code) ← perform_security_checks message_content;
    now ← datetime_now;
    let code_response :=
      {| code := Data (Json.Str sanitized_code);
         explanation := Data (Json.Str "AI-generated secure response");
         security_context := SecurityContextObj security_context;
         metadata := Data (Json.Object [("model", Json.Str config_model)]);
         timestamp := DatetimeObj now |} in
    _ ← cache_response cache_dir prompt code_response;
    mret code_response.

(** [generate_response] from its second statement on, for the value that the
    lookup gave to [cached_response]:
    [if cached_response and cached_response.is_secure(): return cached_response],
    then the rest. *)
Definition serve_or_generate (prompt : string)
    (cached_response : option CodeResponse) : M CodeResponse :=
  hit ← match cached_response with
        | Some r => lift (is_secure r)
        | None => mret false
        end;
  match cached_response, hit with
  | Some r, true => mret r
  | _, _ => generate_fresh prompt
  end.

(** [AIAgent.generate_response] *)
Definition generate_response (prompt : string) : M CodeResponse :=
  cached_response ← get_cached_response cache_dir prompt;
  serve_or_generate prompt cached_response.

(** [AIAgent.refactor_code]; the template keeps the line breaks and the
    indentation of the source. *)
Definition refactor_prompt (code : string) : string :=
  let nl := String (ascii_of_nat 10) "" in
  nl +:+ "        Refactor the following code for better readability and security compliance:"
     +:+ nl +:+ nl +:+ "        " +:+ code +:+ nl +:+ "        ".

Definition refactor_code (code : string) : M CodeResponse :=
  generate_response (refactor_prompt code).

End Agent.

(** ** [agent_core.py]: [RequestMetrics], [AgentMetrics] *)

Module AgentCore.

Record RequestMetrics : Type := mkRequestMetrics {
  start_time : datetime;
  end_time : option datetime;
  duration : option Q;
  success : bool;
  error : option string
}.

Record AgentMetrics : Type := mkAgentMetrics {
  total_requests : Z;
  successful_requests : Z;
  failed_requests : Z;
  average_response_time : Q;
  last_error : option string;
  last_activity : option datetime;
  request_history : list RequestMetrics
}.

(** [AgentMetrics()] *)
Definition initial : AgentMetrics :=
  {| total_requests := 0; successful_requests := 0; failed_requests := 0;
     average_response_time := 0; last_error := None; last_activity := None;
     request_history := [] |}.

(** [AgentMetrics.add_request] *)
Definition add_request (self : AgentMetrics) (metrics : RequestMetrics) : AgentMetrics :=
  let request_history := request_history self ++ [metrics] in
  let total_requests := total_requests self + 1 in
  let last_activity := Some (default (start_time metrics) (end_time metrics)) in
  if success metrics then
    let successful_requests := successful_requests self + 1 in
    let average_response_time :=
      match duration metrics with
      | Some d =>
          if successful_requests =? 1 then d
          else ((average_response_time self * inject_Z (successful_requests - 1) + d)
                / inject_Z successful_requests)%Q
      | None => average_response_time self
      end in
    {| total_requests := total_requests;
       successful_requests := successful_requests;
       failed_requests := failed_requests self;
       average_response_time := average_response_time;
       last_error := last_error self;
       last_activity := last_activity;
       request_history := request_history |}
  else
    {| total_requests := total_requests;
       successful_requests := successful_requests self;
       failed_requests := failed_requests self + 1;
       average_response_time := average_response_time self;
       last_error := error metrics;
       last_activity := last_activity;
       request_history := request_history |}.

(** The metrics after a sequence of calls of [add_request] on fresh metrics. *)
Definition record_all (requests : list RequestMetrics) : AgentMetrics :=
  fold_left add_request requests initial.

(** The durations of the successful requests, in order. *)
Definition successful_durations (requests : list RequestMetrics) : list Q :=
  flat_map (fun m => if success m
                     then match duration m with Some d => [d] | None => [] end
                     else [])
           requests.

Definition Qsum (l : list Q) : Q := fold_right Qplus 0%Q l.

(** [mean(d1..dn)] *)
Definition mean (l : list Q) : Q := (Qsum l / inject_Z (Z.of_nat (length l)))%Q.

(** The invariant of the proofs: the counter of successes and the average
    of a state agree with the durations [ds] recorded so far. *)
Definition tracks (self : AgentMetrics) (ds : list Q) : Prop :=
  successful_requests self = Z.of_nat (length ds) /\
  (average_response_time self * inject_Z (successful_requests self) == Qsum ds)%Q.

End AgentCore.

(** ** Stand-ins for the collaborators and sample values, for the examples *)

Definition always_compiles (code : string) : CompileOutcome := Compiled.
Definition never_compiles (code : string) : CompileOutcome := SyntaxError.

(** The compiler of CPython 3.11 on a text that holds a NUL character:
    [ValueError]; [otherwise] says what it does on the other texts. *)
Definition NUL : string := String (ascii_of_nat 0) EmptyString.
Definition compile_refusing_nul (otherwise : string -> CompileOutcome)
    (code : string) : CompileOutcome :=
  if Py.contains NUL code
  then OtherError (ValueError "source code string cannot contain null bytes")
  else otherwise code.

(** A clock that always reads [t]. *)
Definition clock_at (t : datetime) (n : nat) : datetime := t.

(** A model client that replies [text] to every request. *)
Definition replies (text : string) (model : string)
    (messages : list (string * string)) : result ChatResponse :=
  Ok {| message := Some {| content := Some text |} |}.

(** No cache file, no request made, clock never read; the room of an
    interpreter with its default recursion limit, entered from the top. *)
Definition empty_world : World :=
  {| files := ∅; chat_calls := []; clock_reads := 0; recursion_room := 990 |}.

(** [c * n]: the character [c], [n] times. *)
Definition repeated (c : ascii) (n : nat) : string :=
  string_of_list_ascii (repeat c n).

(** The world with the single file [path]. *)
Definition world_with (path content : string) : World :=
  set_files {[ path := content ]} empty_world.

(** A response as [generate_response] builds them, judged secure at
    instant 0. *)
Definition sample_context : SecurityContext :=
  {| sanitized := true; validated := true; security_score := 100;
     vulnerabilities := []; last_checked := 0; security_level := HIGH |}.

Definition sample_response : CodeResponse :=
  {| code := Data (Json.Str "x = 1");
     explanation := Data (Json.Str "AI-generated secure response");
     security_context := SecurityContextObj sample_context;
     metadata := Data (Json.Object [("model", Json.Str config_model)]);
     timestamp := DatetimeObj 0 |}.

(** What [json.dump] has written of [sample_response] when it fails. *)
Definition sample_truncated : string :=
  "{" +:+ Json.encode_string "code" +:+ ": " +:+ Json.encode_string "x = 1"
      +:+ ", " +:+ Json.encode_string "explanation" +:+ ": "
      +:+ Json.encode_string "AI-generated secure response"
      +:+ ", " +:+ Json.encode_string "security_context" +:+ ": ".


(** A cache entry with the fields of a response that is secure and was
    checked at the instant of the call, written as plain data. *)
Definition sample_entry_context : Json.value :=
  Json.Object [("sanitized", Json.Bool true); ("validated", Json.Bool true);
               ("security_score", Json.Number "100.0");
               ("vulnerabilities", Json.Array []);
               ("last_checked", Json.Str "2024-01-01T00:00:00");
               ("security_level", Json.Str "high")].

Definition sample_entry : string :=
  Json.encode
    (Json.Object [("code", Json.Str "x = 1");
                  ("explanation", Json.Str "AI-generated secure response");
                  ("security_context", sample_entry_context);
                  ("metadata", Json.Object [("model", Json.Str config_model)]);
                  ("timestamp", Json.Str "2024-01-01T00:00:00")]).
(** ** Auxiliary predicates for further properties *)

(** Every character of [s] satisfies [p]. *)
Fixpoint string_forall (p : ascii -> bool) (s : string) : bool :=
  match s with
  | EmptyString => true
  | String c s' => p c && string_forall p s'
  end.

(** A digit or a letter from a to f. *)
Definition is_lower_hex (c : ascii) : bool :=
  let n := N_of_ascii c in
  (((48 <=? n) && (n <=? 57)) || ((97 <=? n) && (n <=? 102)))%N.

(** ** [agent_core.py]: [EnhancedPerformanceCallback], [get_performance_stats] *)

Module Monitoring.

(** [timedelta.total_seconds()] of a difference of instants. *)
Definition total_seconds (delta : Z) : Q := (inject_Z delta / 1000000)%Q.

(** The callback: the metrics it feeds and [_current_request]. *)
Record Callback : Type := mkCallback {
  metrics : AgentCore.AgentMetrics;
  current_request : option AgentCore.RequestMetrics
}.

(** [EnhancedPerformanceCallback(metrics)] *)
Definition new_callback (metrics : AgentCore.AgentMetrics) : Callback :=
  {| metrics := metrics; current_request := None |}.

(** [on_llm_start]; [now] is the reading of [datetime.now()]. *)
Definition on_llm_start (now : datetime) (self : Callback) : Callback :=
  {| metrics := metrics self;
     current_request :=
       Some {| AgentCore.start_time := now; AgentCore.end_time := None;
               AgentCore.duration := None; AgentCore.success := false;
               AgentCore.error := None |} |}.

(** [on_llm_end] *)
Definition on_llm_end (now : datetime) (self : Callback) : Callback :=
  match current_request self with
  | Some r =>
      let r' :=
        {| AgentCore.start_time := AgentCore.start_time r;
           AgentCore.end_time := Some now;
           AgentCore.duration := Some (total_seconds (now - AgentCore.start_time r));
           AgentCore.success := true;
           AgentCore.error := AgentCore.error r |} in
      {| metrics := AgentCore.add_request (metrics self) r';
         current_request := None |}
  | None => self
  end.

(** [on_llm_error]; [error] is [str(error)]. *)
Definition on_llm_error (now : datetime) (error : string) (self : Callback) : Callback :=
  match current_request self with
  | Some r =>
      let r' :=
        {| AgentCore.start_time := AgentCore.start_time r;
           AgentCore.end_time := Some now;
           AgentCore.duration := AgentCore.duration r;
           AgentCore.success := false;
           AgentCore.error := Some error |} in
      {| metrics := AgentCore.add_request (metrics self) r';
         current_request := None |}
  | None => self
  end.

(** The calls that the framework makes on the callback, one at a time, each
    with the instant that its [datetime.now()] reads. *)
Inductive event : Type :=
| LlmStart (now : datetime)
| LlmEnd (now : datetime)
| LlmError (now : datetime) (error : string).

Definition handle (self : Callback) (e : event) : Callback :=
  match e with
  | LlmStart now => on_llm_start now self
  | LlmEnd now => on_llm_end now self
  | LlmError now error => on_llm_error now error self
  end.

(** A callback on fresh metrics after a sequence of calls. *)
Definition run_events (events : list event) : Callback :=
  fold_left handle events (new_callback AgentCore.initial).

Definition event_time (e : event) : datetime :=
  match e with
  | LlmStart now | LlmEnd now | LlmError now _ => now
  end.

Definition is_start (e : event) : bool :=
  match e with LlmStart _ => true | _ => false end.

(** The instants of the events never go back. *)
Fixpoint clock_monotone (events : list event) : Prop :=
  match events with
  | [] => True
  | e :: rest =>
      Forall (fun e' => event_time e <= event_time e') rest /\ clock_monotone rest
  end.

(** A request as the callback records it: completed, with its elapsed time
    when it succeeded, with its error and no duration when it failed. *)
Definition recorded_well (r : AgentCore.RequestMetrics) : Prop :=
  exists finish,
    AgentCore.end_time r = Some finish /\
    if AgentCore.success r
    then AgentCore.duration r = Some (total_seconds (finish - AgentCore.start_time r))
         /\ AgentCore.error r = None
    else AgentCore.duration r = None /\ exists msg, AgentCore.error r = Some msg.

Definition is_failure (m : AgentCore.RequestMetrics) : bool :=
  negb (AgentCore.success m).

(** The invariant of a callback that was fed by its own handlers only: its
    metrics are those of their history, every recorded request is well
    recorded, and a pending request has neither duration nor error yet. *)
Definition callback_ok (cb : Callback) : Prop :=
  metrics cb = AgentCore.record_all (AgentCore.request_history (metrics cb)) /\
  Forall recorded_well (AgentCore.request_history (metrics cb)) /\
  match current_request cb with
  | Some r => AgentCore.duration r = None /\ AgentCore.error r = None
  | None => True
  end.

(** 1 when a request is pending, 0 otherwise. *)
Definition pending (cb : Callback) : Z :=
  match current_request cb with Some _ => 1 | None => 0 end.

(** Metrics whose recorded durations and average are not negative. *)
Definition nonnegative (m : AgentCore.AgentMetrics) : Prop :=
  0 <= AgentCore.successful_requests m /\
  (0 <= AgentCore.average_response_time m)%Q /\
  Forall (fun r => forall d, AgentCore.duration r = Some d -> (0 <= d)%Q)
         (AgentCore.request_history m).

(** One entry of [recent_requests]. *)
Record RequestReport : Type := mkRequestReport {
  timestamp : string;
  duration : option string;
  success : bool;
  error : option string
}.

(** The dictionary that [get_performance_stats] returns. *)
Record Stats : Type := mkStats {
  total_requests : Z;
  successful_requests : Z;
  failed_requests : Z;
  success_rate : Q;
  average_response_time : string;
  last_activity : option string;
  last_error : option string;
  recent_requests : list RequestReport
}.

(** [l[-n:]] *)
Definition last_n {A} (n : nat) (l : list A) : list A := skipn (length l - n) l.

Section Stats.

(** [strftime] is [d.strftime("%Y-%m-%d %H:%M:%S")], [format_2f] is the
    formatting [f"{x:.2f}"] of a float: both belong to the interpreter. *)
Variable strftime : datetime -> string.
Variable format_2f : Q -> string.

(** [x] is falsy as a float: it is zero. *)
Definition is_zero (x : Q) : bool := Qeq_bool x 0.

Definition report (req : AgentCore.RequestMetrics) : RequestReport :=
  {| timestamp := strftime (AgentCore.start_time req);
     duration :=
       match AgentCore.duration req with
       | Some d => if is_zero d then None else Some (format_2f d +:+ "s")
       | None => None
       end;
     success := AgentCore.success req;
     error := AgentCore.error req |}.

(** [AgentCore.get_performance_stats], on the metrics of the agent. *)
Definition get_performance_stats (m : AgentCore.AgentMetrics) : Stats :=
  {| total_requests := AgentCore.total_requests m;
     successful_requests := AgentCore.successful_requests m;
     failed_requests := AgentCore.failed_requests m;
     success_rate :=
       if 0 <? AgentCore.total_requests m
       then (inject_Z (AgentCore.successful_requests m)
             / inject_Z (AgentCore.total_requests m))%Q
       else 0%Q;
     average_response_time := format_2f (AgentCore.average_response_time m) +:+ "s";
     last_activity := option_map strftime (AgentCore.last_activity m);
     last_error := AgentCore.last_error m;
     recent_requests := map report (last_n 10 (AgentCore.request_history m)) |}.

End Stats.

End Monitoring.

(** ** [agent_core.py]: [CodeValidator], [_safe_run_python_code] *)

Module Validator.

(** What [validate_code] reads of a node of the syntax tree: the names of
    the aliases of an [ast.Import] or [ast.ImportFrom], the [attr] of an
    [ast.Attribute], and for an [ast.Call] the [id] of its [func] when that
    is an [ast.Name]; the other classes of nodes are not told apart. *)
Inductive kind : Type :=
| Import (names : list string)
| ImportFrom (names : list string)
| Attribute (attr : string)
| Call (func : option string)
| Other.

(** A node with its children, in the order of [ast.iter_child_nodes]. *)
Inductive node : Type := Node (k : kind) (children : list node).

Definition children_of (n : node) : list node :=
  match n with Node _ cs => cs end.

Fixpoint size (n : node) : nat :=
  match n with
  | Node _ cs => S (fold_right (fun c acc => size c + acc)%nat 0%nat cs)
  end.

(** The number of nodes below a list of trees. *)
Definition sizes (l : list node) : nat :=
  fold_right (fun c acc => size c + acc)%nat 0%nat l.

(** The nodes of a tree, the root first, then the subtrees from left to
    right. *)
Fixpoint all_nodes (n : node) : list node :=
  match n with
  | Node k cs => Node k cs :: flat_map all_nodes cs
  end.

(** The loop of [ast.walk]: the first node of the queue is taken out, its
    children are put at the end of the queue, and the node is yielded. *)
Fixpoint walk_queue (fuel : nat) (todo : list node) : list node :=
  match fuel with
  | O => []
  | S fuel' =>
      match todo with
      | [] => []
      | n :: rest => n :: walk_queue fuel' (rest ++ children_of n)
      end
  end.

(** [ast.walk(tree)] *)
Definition walk (tree : node) : list node := walk_queue (size tree) [tree].

Definition BLOCKED_IMPORTS : list string :=
  [ "os"; "subprocess"; "sys"; "builtins"; "shutil";
    "pickle"; "marshal"; "base64"; "codecs" ].

Definition BLOCKED_ATTRIBUTES : list string :=
  [ "eval"; "exec"; "compile"; "__import__"; "open";
    "file"; "execfile"; "input"; "raw_input" ].

(** [x in s] for a set of strings *)
Definition mem (x : string) (s : list string) : bool := existsb (String.eqb x) s.

(** [name.split('.')[0]] *)
Fixpoint first_component (name : string) : string :=
  match name with
  | EmptyString => EmptyString
  | String c rest =>
      if Ascii.eqb c "."%char then EmptyString else String c (first_component rest)
  end.

(** The body of the loop on one node: the message with which
    [validate_code] returns at this node, if it does. *)
Definition check_node (n : node) : option string :=
  match n with
  | Node (Import names) _ | Node (ImportFrom names) _ =>
      match List.find (fun name => mem (first_component name) BLOCKED_IMPORTS) names with
      | Some name => Some ("Blocked import: " +:+ name)
      | None => None
      end
  | Node (Attribute attr) _ =>
      if mem attr BLOCKED_ATTRIBUTES
      then Some ("Blocked attribute: " +:+ attr) else None
  | Node (Call (Some id)) _ =>
      if mem id BLOCKED_ATTRIBUTES
      then Some ("Blocked function call: " +:+ id) else None
  | Node (Call None) _ | Node Other _ => None
  end.

(** The first message that [check_node] gives along a list of nodes. *)
Fixpoint first_message (nodes : list node) : option string :=
  match nodes with
  | [] => None
  | n :: rest =>
      match check_node n with
      | Some msg => Some msg
      | None => first_message rest
      end
  end.

(** What [ast.parse(code)] does: it returns the tree, raises [SyntaxError]
    or raises another exception; [msg] is [str(e)]. *)
Inductive parse_outcome : Type :=
| Parsed (tree : node)
| ParseSyntaxError (msg : string)
| ParseOtherError (msg : string).

(** What running a snippet does: [run_python_code] returns a text, or an
    exception reaches [_safe_run_python_code]; [msg] is [str(e)]. *)
Inductive run_outcome : Type :=
| Ran (output : string)
| RunError (msg : string).

(** [f"{x}"] for an optional string *)
Definition format_optional (x : option string) : string :=
  match x with Some s => s | None => "None" end.

Section Validator.

(** The interpreter's [ast.parse] and the runner [run_python_code] of
    [tools/code_tools.py], which starts a process. *)
Variable ast_parse : string -> parse_outcome.
Variable run_python_code : string -> run_outcome.

(** [CodeValidator.validate_code] *)
Definition validate_code (code : string) : bool * option string :=
  match ast_parse code with
  | Parsed tree =>
      match first_message (walk tree) with
      | Some msg => (false, Some msg)
      | None => (true, None)
      end
  | ParseSyntaxError msg => (false, Some ("Invalid syntax: " +:+ msg))
  | ParseOtherError msg => (false, Some ("Validation error: " +:+ msg))
  end.

(** [AgentCore._safe_run_python_code]; the state is the list of the
    snippets handed to [run_python_code] so far. *)
Definition safe_run_python_code (code : string) (executed : list string)
  : string * list string :=
  let (is_safe, error_message) := validate_code code in
  if negb is_safe
  then ("⚠️ Code validation failed: " +:+ format_optional error_message, executed)
  else
    match run_python_code code with
    | Ran result => (result, executed ++ [code])
    | RunError msg => ("❌ Error executing code: " +:+ msg, executed ++ [code])
    end.

End Validator.

(** The tree of [import os; os.system('rm -rf /')], the snippet of the
    test in [agent_core.py]. *)
Definition sample_tree : node :=
  Node Other
    [ Node (Import ["os"]) [Node Other []];
      Node Other
        [ Node (Call None)
            [ Node (Attribute "system") [Node Other [Node Other []]; Node Other []];
              Node Other [] ] ] ].

End Validator.

(** ** More methods of [str]: [splitlines], [strip], [join] *)

Module Text.

(** The string made of the bytes [l]. *)
Definition bytes (l : list nat) : string :=
  string_of_list_ascii (map ascii_of_nat l).

(** The characters that [str.isspace] accepts, as the bytes of their
    encodings: the ASCII ones, then U+0085, U+00A0, U+1680, U+2000 to
    U+200A, U+2028, U+2029, U+202F, U+205F and U+3000. *)
Definition whitespace : list string :=
  map bytes
    [ [9]; [10]; [11]; [12]; [13]; [28]; [29]; [30]; [31]; [32];
      [194; 133]; [194; 160]; [225; 154; 128];
      [226; 128; 128]; [226; 128; 129]; [226; 128; 130]; [226; 128; 131];
      [226; 128; 132]; [226; 128; 133]; [226; 128; 134]; [226; 128; 135];
      [226; 128; 136]; [226; 128; 137]; [226; 128; 138];
      [226; 128; 168]; [226; 128; 169]; [226; 128; 175];
      [226; 129; 159]; [227; 128; 128] ]%nat.

(** [s] without the first of the prefixes [ps] that it starts with. *)
Fixpoint drop_any (ps : list string) (s : string) : option string :=
  match ps with
  | [] => None
  | p :: ps' =>
      match Json.strip_prefix p s with
      | Some r => Some r
      | None => drop_any ps' s
      end
  end.

Fixpoint lstrip_with (fuel : nat) (ps : list string) (s : string) : string :=
  match fuel with
  | O => s
  | S fuel' =>
      match drop_any ps s with
      | Some r => lstrip_with fuel' ps r
      | None => s
      end
  end.

Definition reverse (s : string) : string :=
  string_of_list_ascii (rev (list_ascii_of_string s)).

(** [s.lstrip()], [s.rstrip()], [s.strip()] *)
Definition lstrip (s : string) : string :=
  lstrip_with (String.length s) whitespace s.

Definition rstrip (s : string) : string :=
  reverse (lstrip_with (String.length s) (map reverse whitespace) (reverse s)).

Definition strip (s : string) : string := rstrip (lstrip s).

Definition byte_is (c : ascii) (n : nat) : bool := Nat.eqb (nat_of_ascii c) n.

(** The scan of [splitlines]: [line] is the line being read.  A line ends
    at LF, CR LF, CR, VT, FF, FS, GS, RS, U+0085, U+2028 or U+2029; what
    follows the last boundary is a line only when it is not empty. *)
Fixpoint splitlines_from (line : string) (s : string) {struct s} : list string :=
  match s with
  | EmptyString =>
      match line with
      | EmptyString => []
      | String _ _ => [line]
      end
  | String c s1 =>
      if byte_is c 13 then
        match s1 with
        | String c1 s2 =>
            if byte_is c1 10 then line :: splitlines_from EmptyString s2
            else line :: splitlines_from EmptyString s1
        | EmptyString => line :: splitlines_from EmptyString s1
        end
      else if byte_is c 10 || byte_is c 11 || byte_is c 12
              || byte_is c 28 || byte_is c 29 || byte_is c 30
      then line :: splitlines_from EmptyString s1
      else if byte_is c 194 then
        match s1 with
        | String c1 s2 =>
            if byte_is c1 133 then line :: splitlines_from EmptyString s2
            else splitlines_from (line +:+ String c EmptyString) s1
        | EmptyString => splitlines_from (line +:+ String c EmptyString) s1
        end
      else if byte_is c 226 then
        match s1 with
        | String c1 (String c2 s3) =>
            if byte_is c1 128 && (byte_is c2 168 || byte_is c2 169)
            then line :: splitlines_from EmptyString s3
            else splitlines_from (line +:+ String c EmptyString) s1
        | _ => splitlines_from (line +:+ String c EmptyString) s1
        end
      else splitlines_from (line +:+ String c EmptyString) s1
  end.

(** [s.splitlines()] *)
Definition splitlines (s : string) : list string := splitlines_from EmptyString s.

(** [type(v).__name__], as [join] and the attribute lookup name it. *)
Definition type_name (v : Json.value) : string := type_name v.

(** ["".join(items)]: every item has to be a [str]. *)
Fixpoint join (items : list Json.value) : result string :=
  match items with
  | [] => Ok EmptyString
  | Json.Str s :: rest =>
      match join rest with
      | Ok out => Ok (s +:+ out)
      | Raise e => Raise e
      end
  | v :: _ =>
      Raise (TypeError ("sequence item: expected str instance, "
                        +:+ type_name v +:+ " found"))
  end.

End Text.

(** ** [custom_llm.py]: the reply of the server put together *)

Module OllamaLLM.

(** [line_data.get("content", "")]: only a dict has [get]. *)
Definition get_content (line_data : Json.value) : result Json.value :=
  match line_data with
  | Json.Object members => Ok (default (Json.Str "") (Dict.get "content" members))
  | v => Raise (no_attribute (type_name v) "get")
  end.

(** [try: ... json.loads(text) ... except json.JSONDecodeError: fallback]:
    what is appended to [output_lines]; any other exception of the decoder
    ([ValueError], [RecursionError]) ends the loop.  [room] is the nesting
    the interpreter allows to the decoder at this call. *)
Definition item_of (room : nat) (text fallback : string) : result Json.value :=
  match Json.loads room text with
  | Ok line_data => get_content line_data
  | Raise (JSONDecodeError _) => Ok (Json.Str fallback)
  | Raise e => Raise e
  end.

(** The loop over the lines: [output_lines], or the exception that ends
    the loop. *)
Fixpoint collect (item : string -> result (option Json.value)) (lines : list string)
  : result (list Json.value) :=
  match lines with
  | [] => Ok []
  | line :: rest =>
      match item line with
      | Raise e => Raise e
      | Ok appended =>
          match collect item rest with
          | Raise e => Raise e
          | Ok items =>
              Ok (match appended with Some v => v :: items | None => items end)
          end
      end
  end.

Definition parse_with (item : string -> result (option Json.value)) (text : string)
  : result string :=
  match collect item (Text.splitlines text) with
  | Ok output_lines => Text.join output_lines
  | Raise e => Raise e
  end.

(** The body of the loop in [agent/custom_llm.py]: the line is stripped, an
    empty line is passed over, and a line that is not JSON is kept
    stripped. *)
Definition item_call (room : nat) (line : string) : result (option Json.value) :=
  let line := Text.strip line in
  if String.eqb line EmptyString then Ok None
  else match item_of room line line with
       | Ok v => Ok (Some v)
       | Raise e => Raise e
       end.

(** [OllamaLLM._call] of [agent/custom_llm.py] once the request has
    succeeded: from [response.text] to the returned string. *)
Definition call_output (room : nat) (response_text : string) : result string :=
  parse_with (item_call room) response_text.

(** The body of the loop in [agent/src/custom_llm.py]: the stripped line is
    decoded, and a line that is not JSON is kept as it is. *)
Definition item_parse_response (room : nat) (line : string)
  : result (option Json.value) :=
  match item_of room (Text.strip line) line with
  | Ok v => Ok (Some v)
  | Raise e => Raise e
  end.

(** [OllamaLLM._parse_response] of [agent/src/custom_llm.py] *)
Definition parse_response (room : nat) (response_text : string) : result string :=
  parse_with (item_parse_response room) response_text.

(** A decoded line that the loop and the final [join] accept: a dict whose
    [content], when it has one, is a [str]. *)
Definition accepted (v : Json.value) : Prop :=
  exists members,
    v = Json.Object members /\
    (Dict.get "content" members = None \/
     exists c, Dict.get "content" members = Some (Json.Str c)).

(** An item is a [str], or nothing was appended. *)
Definition is_text (appended : option Json.value) : Prop :=
  match appended with
  | Some v => exists s, v = Json.Str s
  | None => True
  end.

(** The line carries a piece of text: white space apart, it is a JSON
    object whose [content] is the string [piece]. *)
Definition carries (room : nat) (line piece : string) : Prop :=
  exists members,
    Json.loads room (Text.strip line) = Ok (Json.Object members) /\
    Dict.get "content" members = Some (Json.Str piece).

(** The concatenation of strings. *)
Definition concat (l : list string) : string := fold_right String.append EmptyString l.

End OllamaLLM.

(** ** Side conditions on the denylist, used by the proofs about redaction *)

(** One of the two strings is a prefix of the other. *)
Definition comparable (u q : string) : bool :=
  Py.has_prefix u q || Py.has_prefix q u.

(** No occurrence of [q] can start inside a copy of [x]: no non-empty suffix
    of [x] is comparable with [q]. *)
Fixpoint no_clash (x q : string) {struct x} : bool :=
  match x with
  | EmptyString => true
  | String _ x' => negb (comparable x q) && no_clash x' q
  end.

Fixpoint has_char (c : ascii) (s : string) {struct s} : bool :=
  match s with
  | EmptyString => false
  | String d s' => Ascii.eqb c d || has_char c s'
  end.

(** No character of [q] occurs in [m]. *)
Fixpoint chars_apart (q m : string) {struct q} : bool :=
  match q with
  | EmptyString => true
  | String c q' => negb (has_char c m) && chars_apart q' m
  end.

(** Redacting [old] neither creates nor destroys an occurrence of [q]. *)
Definition independent (old q : string) : bool :=
  no_clash old q && no_clash q old && chars_apart q marker_prefix.

Definition denylist_ok (patterns : list string) : bool :=
  forallb (fun old =>
             negb (String.eqb old "") &&
             forallb (fun q => String.eqb old q || independent old q) patterns)
          patterns.

(** The number of patterns of the denylist found in [code]. *)
Definition penalty_count (code : string) : nat :=
  length (List.filter (fun pattern => Py.contains pattern code) dangerous_patterns).

(* ================================================================== *)
(** * Properties *)

(** ** The models of [hashlib] and [json] on known values *)

Example sha256_empty :
  Sha256.hexdigest ""
  = "e3b0c44298fc1c149afbf4c8996fb92427ae41e4649b934ca495991b7852b855".
Proof. vm_compute. reflexivity. Qed.

Example sha256_abc :
  Sha256.hexdigest "abc"
  = "ba7816bf8f01cfea414140de5dae2223b00361a396177a9cb410ff61f20015ad".
Proof. vm_compute. reflexivity. Qed.

(** A message of 56 bytes needs a second block. *)
Example sha256_two_blocks :
  Sha256.hexdigest "aaaaaaaaaaaaaaaaaaaaaaaaaaaaaaaaaaaaaaaaaaaaaaaaaaaaaaaa"
  = "b35439a4ac6f0948b6d6f9e3c6af0f5f590ce20f1bde7090ef7970686ec6738a".
Proof. vm_compute. reflexivity. Qed.

Example json_loads_nested :
  Json.loads 3 "  [1, -2.5e3, true, null, {}, [[]]] "
  = Ok (Json.Array [Json.Number "1"; Json.Number "-2.5e3"; Json.Bool true;
                    Json.Null; Json.Object []; Json.Array [Json.Array []]]).
Proof. vm_compute. reflexivity. Qed.

Example json_loads_rejects :
  Json.loads 3 "" = Raise (JSONDecodeError "Expecting value") /\
  Json.loads 3 "[1,]" = Raise (JSONDecodeError "Expecting value") /\
  Json.loads 3 "01" = Raise (JSONDecodeError "Extra data") /\
  Json.loads 3 "{" = Raise (JSONDecodeError "Expecting value").
Proof. repeat split; vm_compute; reflexivity. Qed.

(** An integer of 4300 digits is converted, one more digit is refused
    whatever follows it, and a literal with a fraction has no limit. *)
Example json_loads_digits :
  let ones (n : nat) := repeated "1" n in
  let too_long : result Json.value :=
    Raise (ValueError "Exceeds the limit (4300 digits) for integer string conversion") in
  Json.loads 3 ("-" +:+ ones 4300%nat) = Ok (Json.Number ("-" +:+ ones 4300%nat)) /\
  Json.loads 3 (ones 4301%nat) = too_long /\
  Json.loads 3 ("[" +:+ ones 4301%nat) = too_long /\
  Json.loads 3 (ones 4301%nat +:+ ".") = too_long /\
  Json.loads 3 ("[}, " +:+ ones 4301%nat) = Raise (JSONDecodeError "Expecting value") /\
  Json.loads 3 (ones 4301%nat +:+ ".0") = Ok (Json.Number (ones 4301%nat +:+ ".0")).
Proof. cbv zeta. repeat split; vm_compute; reflexivity. Qed.

(** Three arrays, one inside the other, need a room of three, closed or
    not. *)
Example json_loads_depth :
  Json.loads 3 "[[[]]]" = Ok (Json.Array [Json.Array [Json.Array []]]) /\
  Json.loads 2 "[[[]]]" = Raise Json.too_deep /\
  Json.loads 2 "[[[" = Raise Json.too_deep /\
  Json.loads 3 "[[[" = Raise (JSONDecodeError "Expecting value") /\
  Json.loads 1 ("{" +:+ Json.encode_string "a" +:+ ": {}}") = Raise Json.too_deep /\
  Json.loads 0 "1" = Ok (Json.Number "1").
Proof. repeat split; vm_compute; reflexivity. Qed.

(** What is written is read back. *)
Example json_round_trip :
  let v := Json.Object [("model", Json.Str "llama2");
                        ("tags", Json.Array [Json.Str "a b"; Json.Null])] in
  Json.loads 2 (Json.encode v) = Ok v.
Proof. vm_compute. reflexivity. Qed.

(** Reading a text file: bytes that are no UTF-8 are refused, the line
    ends are translated. *)
Example text_read :
  TextIO.read (Text.bytes [97; 13; 10; 98; 13; 195; 169]%nat)
  = Ok (Text.bytes [97; 10; 98; 10; 195; 169]%nat) /\
  TextIO.read (Text.bytes [255]%nat) = Raise (UnicodeDecodeError
    "'utf-8' codec can't decode byte: invalid start byte") /\
  TextIO.read (Text.bytes [237; 160; 128]%nat) = Raise (UnicodeDecodeError
    "'utf-8' codec can't decode byte: invalid start byte") /\
  TextIO.read (Text.bytes [192; 128]%nat) = Raise (UnicodeDecodeError
    "'utf-8' codec can't decode byte: invalid start byte").
Proof. repeat split; vm_compute; reflexivity. Qed.

(** ** What the decoder and the reader of text files raise *)

Section DecoderFailures.

Lemma scan_number_raises (s r : string) (e : exn) :
  Json.scan_number s = Some (Raise e, r) -> exists msg, e = ValueError msg.
Proof.
  unfold Json.scan_number.
  destruct (Json.scan_int s) as [[i r0]|]; [| discriminate].
  destruct (Json.scan_frac r0) as [f r1]. destruct (Json.scan_exp r1) as [x r2].
  unfold Json.number_of.
  destruct (_ && _); intros [= <- _]. eauto.
Qed.

Lemma scan_constant_raises (s : string) (e : exn) :
  Json.scan_constant s = Raise e ->
  (exists msg, e = JSONDecodeError msg) \/ (exists msg, e = ValueError msg).
Proof.
  unfold Json.scan_constant.
  destruct (Json.strip_prefix "null" s); [discriminate |].
  destruct (Json.strip_prefix "true" s); [discriminate |].
  destruct (Json.strip_prefix "false" s); [discriminate |].
  destruct (Json.scan_number s) as [[[v|e'] r]|] eqn:Hn; [discriminate | |].
  - intros [= <-]. right. now apply scan_number_raises in Hn.
  - destruct (Json.strip_prefix "NaN" s); [discriminate |].
    destruct (Json.strip_prefix "Infinity" s); [discriminate |].
    destruct (Json.strip_prefix "-Infinity" s); [discriminate |].
    intros [= <-]. left. unfold Json.malformed. eauto.
Qed.

(** The three kinds of failure of the descent. *)
Lemma parse_raises (fuel : nat) :
  (forall room s e,
     Json.parse_value fuel room s = Raise e ->
     (exists msg, e = JSONDecodeError msg) \/ (exists msg, e = ValueError msg)
     \/ (exists msg, e = RecursionError msg)) /\
  (forall room acc s e,
     Json.parse_items fuel room acc s = Raise e ->
     (exists msg, e = JSONDecodeError msg) \/ (exists msg, e = ValueError msg)
     \/ (exists msg, e = RecursionError msg)) /\
  (forall room acc s e,
     Json.parse_members fuel room acc s = Raise e ->
     (exists msg, e = JSONDecodeError msg) \/ (exists msg, e = ValueError msg)
     \/ (exists msg, e = RecursionError msg)).
Proof.
  induction fuel as [|fuel (IHv & IHi & IHm)].
  - repeat split; intros; simplify_eq/=; unfold Json.malformed; eauto.
  - repeat split; intros; cbn [Json.parse_value Json.parse_items Json.parse_members] in *;
      repeat match goal with
             | H : context [match ?x with _ => _ end] |- _ =>
                 destruct x eqn:?; try discriminate
             end;
      try (match goal with
           | H : Raise _ = Raise _ |- _ =>
               injection H as <-; unfold Json.malformed, Json.too_deep; eauto
           end);
      eauto;
      match goal with
      | H : Json.scan_constant _ = Raise _ |- _ =>
          destruct (scan_constant_raises _ _ H) as [?|?]; eauto
      end.
Qed.

(** [json.loads] raises [JSONDecodeError], [ValueError] (an integer of too
    many digits) or [RecursionError] (a nesting too deep), nothing else. *)
Lemma loads_raises (room : nat) (s : string) (e : exn) :
  Json.loads room s = Raise e ->
  (exists msg, e = JSONDecodeError msg) \/ (exists msg, e = ValueError msg)
  \/ (exists msg, e = RecursionError msg).
Proof.
  unfold Json.loads.
  destruct (Json.parse_value _ room (Json.skip_ws s)) as [[v r]|e'] eqn:Hp.
  - destruct (Json.skip_ws r); intros [= <-]. eauto.
  - intros [= <-]. now apply (proj1 (parse_raises _)) in Hp.
Qed.

(** Reading a text file raises [UnicodeDecodeError] or nothing. *)
Lemma read_raises (content : string) (e : exn) :
  TextIO.read content = Raise e ->
  TextIO.utf8_valid content = false /\ exists msg, e = UnicodeDecodeError msg.
Proof.
  unfold TextIO.read. destruct (TextIO.utf8_valid content); [discriminate |].
  intros [= <-]. eauto.
Qed.

Lemma read_returns (content text : string) :
  TextIO.read content = Ok text ->
  TextIO.utf8_valid content = true /\ text = TextIO.universal_newlines content.
Proof.
  unfold TextIO.read. destruct (TextIO.utf8_valid content); [| discriminate].
  intros [= <-]. auto.
Qed.

End DecoderFailures.

(** ** The sanitizer and the score on the scenarios of the specification *)

(** Scenario A: no pattern of the denylist, nothing changes. *)
Example sanitize_scenario_A :
  sanitize_code "print('hello world')" = "print('hello world')" /\
  calculate_security_score "print('hello world')" = 100%Q.
Proof. split; reflexivity. Qed.

(** Scenario B: the marker names the pattern, which is found again. *)
Example sanitize_scenario_B :
  sanitize_code "os.system('rm -rf /')" = "# SECURITY REMOVED: os.system('rm -rf /')" /\
  calculate_security_score (sanitize_code "os.system('rm -rf /')") = 80%Q.
Proof. split; reflexivity. Qed.

(** Occurrences are replaced from left to right, without overlap. *)
Example replace_overlapping :
  Py.replace "aaaa" "aa" "b" = "bb" /\ Py.replace "aaa" "aa" "b" = "ba" /\
  Py.replace "ab" "" "-" = "-a-b-".
Proof. repeat split; reflexivity. Qed.

(** ** Facts about the string operations *)

Section StringFacts.

Local Open Scope nat_scope.
Local Arguments String.append !_ _ / : simpl nomatch.

Lemma append_empty_r (s : string) : s +:+ "" = s.
Proof. induction s as [|c s IH]; simpl; [reflexivity | now rewrite IH]. Qed.

Lemma append_assoc (a b c : string) : (a +:+ b) +:+ c = a +:+ b +:+ c.
Proof. induction a as [|x a IH]; simpl; [reflexivity | now rewrite IH]. Qed.

Lemma length_append (a b : string) :
  String.length (a +:+ b) = String.length a + String.length b.
Proof. induction a as [|x a IH]; simpl; [reflexivity | now rewrite IH]. Qed.

Lemma has_prefix_append (p r : string) : Py.has_prefix p (p +:+ r) = true.
Proof.
  induction p as [|a p IH]; simpl; [reflexivity |].
  now rewrite Ascii.eqb_refl, IH.
Qed.

Lemma has_prefix_split (p s : string) :
  Py.has_prefix p s = true -> exists r, s = p +:+ r.
Proof.
  revert s; induction p as [|a p IH]; intros s H; simpl in *.
  - now exists s.
  - destruct s as [|b s]; [discriminate |].
    apply andb_true_iff in H as [Hab Hp].
    apply Ascii.eqb_eq in Hab; subst b.
    destruct (IH _ Hp) as [r ->]. now exists r.
Qed.

(** A prefix of [u +:+ r] is a prefix of [u], or has [u] as a prefix. *)
Lemma has_prefix_of_append (q u r : string) :
  Py.has_prefix q (u +:+ r) = true ->
  Py.has_prefix q u = true \/ Py.has_prefix u q = true.
Proof.
  revert u; induction q as [|a q IH]; intros u H; simpl in *.
  - now left.
  - destruct u as [|b u]; simpl in *; [now right |].
    apply andb_true_iff in H as [Hab Hq].
    rewrite Hab. rewrite Ascii.eqb_sym, Hab. simpl.
    now apply IH.
Qed.

Lemma contains_cons (p : string) (c : ascii) (s : string) :
  Py.contains p s = true -> Py.contains p (String c s) = true.
Proof. intros H; simpl. rewrite H. apply orb_true_r. Qed.

Lemma contains_append_r (p a s : string) :
  Py.contains p s = true -> Py.contains p (a +:+ s) = true.
Proof.
  induction a as [|c a IH]; intros H; simpl; [exact H |].
  rewrite (IH H). apply orb_true_r.
Qed.

Lemma contains_of_prefix (p s : string) :
  Py.has_prefix p s = true -> Py.contains p s = true.
Proof. intros H. destruct s; simpl in *; rewrite H; reflexivity. Qed.

Lemma contains_nil (p : string) : p <> "" -> Py.contains p "" = false.
Proof. destruct p; [congruence | reflexivity]. Qed.

(** Whoever contains [a +:+ b] contains [b]. *)
Lemma has_prefix_append_inv (a b s : string) :
  Py.has_prefix (a +:+ b) s = true -> Py.contains b s = true.
Proof.
  intros H. destruct (has_prefix_split _ _ H) as [r ->].
  rewrite append_assoc. apply (contains_append_r b a).
  apply contains_of_prefix, has_prefix_append.
Qed.

Lemma contains_append_inv (a b s : string) :
  Py.contains (a +:+ b) s = true -> Py.contains b s = true.
Proof.
  induction s as [|c s IH]; intros H.
  - simpl in H. rewrite orb_false_r in H. now apply (has_prefix_append_inv a).
  - cbn [Py.contains] in H. apply orb_true_iff in H as [H|H].
    + now apply (has_prefix_append_inv a).
    + apply contains_cons, IH, H.
Qed.

(** *** The equations of [replace] for a non-empty [old] *)

Lemma replace_scan_skip (old new u r : string) :
  Py.replace_scan old new (String.length u) (u +:+ r) = Py.replace_scan old new 0 r.
Proof. induction u as [|c u IH]; simpl; [now destruct r | exact IH]. Qed.

Lemma replace_nil (old new : string) : old <> "" -> Py.replace "" old new = "".
Proof. destruct old; [congruence | reflexivity]. Qed.

Lemma replace_match (old new r : string) :
  old <> "" -> Py.replace (old +:+ r) old new = new +:+ Py.replace r old new.
Proof.
  destruct old as [|a old]; [congruence | intros _].
  unfold Py.replace. cbn [append Py.replace_scan].
  change (String a (old +:+ r)) with (String a old +:+ r).
  rewrite has_prefix_append. cbn [String.length Nat.pred].
  now rewrite replace_scan_skip.
Qed.

Lemma replace_step (old new : string) (c : ascii) (s : string) :
  Py.has_prefix old (String c s) = false ->
  Py.replace (String c s) old new = String c (Py.replace s old new).
Proof.
  destruct old as [|a old]; [discriminate | intros H].
  unfold Py.replace. cbn [Py.replace_scan]. now rewrite H.
Qed.

(** Induction along the scan of [replace]. *)
Lemma replace_ind (old new : string) (P : string -> string -> Prop) :
  old <> "" ->
  P "" "" ->
  (forall r, P r (Py.replace r old new) ->
             P (old +:+ r) (new +:+ Py.replace r old new)) ->
  (forall c s, Py.has_prefix old (String c s) = false ->
               P s (Py.replace s old new) ->
               P (String c s) (String c (Py.replace s old new))) ->
  forall s, P s (Py.replace s old new).
Proof.
  intros Hold Hnil Hmatch Hstep s.
  remember (String.length s) as n eqn:Hn.
  revert s Hn. induction n as [n IH] using lt_wf_ind. intros s Hn.
  destruct s as [|c s].
  - now rewrite replace_nil.
  - destruct (Py.has_prefix old (String c s)) eqn:Hp.
    + destruct (has_prefix_split _ _ Hp) as [r Hr]. rewrite Hr.
      rewrite replace_match by assumption. apply Hmatch.
      apply (IH (String.length r)); [| reflexivity].
      rewrite Hn, Hr, length_append. destruct old; [congruence | simpl; lia].
    + rewrite replace_step by assumption. apply Hstep; [assumption |].
      apply (IH (String.length s)); [subst n; simpl; lia | reflexivity].
Qed.

End StringFacts.

(** ** Redaction and the occurrences of the patterns *)

Section Redaction.

Local Arguments String.append !_ _ / : simpl nomatch.

Variables old q : string.
Hypothesis old_nonempty : old <> "".

Lemma comparable_of_prefix_append (u r : string) :
  Py.has_prefix q (u +:+ r) = true -> comparable u q = true.
Proof.
  intros H. unfold comparable.
  destruct (has_prefix_of_append _ _ _ H) as [-> | ->];
    [apply orb_true_r | reflexivity].
Qed.

(** An occurrence of [q] in [u +:+ r] lies in [r] when it cannot start in [u]. *)
Lemma contains_skip (u r : string) :
  no_clash u q = true -> Py.contains q (u +:+ r) = true -> Py.contains q r = true.
Proof.
  induction u as [|c u IH]; intros Hc H; [exact H |].
  cbn [no_clash] in Hc. apply andb_true_iff in Hc as [Hn Hc].
  change (String c u +:+ r) with (String c (u +:+ r)) in H.
  cbn [Py.contains] in H. apply orb_true_iff in H as [H | H].
  - change (String c (u +:+ r)) with (String c u +:+ r) in H.
    apply comparable_of_prefix_append in H. rewrite H in Hn. discriminate.
  - now apply IH.
Qed.

Lemma contains_skip_marker (m r : string) :
  chars_apart q m = true -> q <> "" ->
  Py.contains q (m +:+ r) = true -> Py.contains q r = true.
Proof.
  intros Hq Hne. destruct q as [|h q']; [congruence | clear Hne].
  cbn [chars_apart] in Hq. apply andb_true_iff in Hq as [Hh _].
  apply negb_true_iff in Hh.
  induction m as [|c m IH]; intros H; [exact H |].
  cbn [has_char] in Hh. apply orb_false_iff in Hh as [Hhc Hh].
  change (String c m +:+ r) with (String c (m +:+ r)) in H.
  cbn [Py.contains Py.has_prefix] in H. rewrite Hhc in H. simpl in H.
  now apply IH.
Qed.

(** A prefix that no occurrence of [old] can touch survives the replacement. *)
Lemma replace_keeps_prefix (new u s : string) :
  no_clash u old = true ->
  Py.has_prefix u s = true -> Py.has_prefix u (Py.replace s old new) = true.
Proof.
  revert s. induction u as [|a u IH]; intros s Hc H; [reflexivity |].
  destruct s as [|b s]; [discriminate |].
  assert (Hold : Py.has_prefix old (String b s) = false).
  { destruct (Py.has_prefix old (String b s)) eqn:Ho; [| reflexivity].
    destruct (has_prefix_split _ _ H) as [r Hr]. rewrite Hr in Ho.
    destruct (has_prefix_of_append _ _ _ Ho) as [H1 | H1];
      cbn [no_clash] in Hc; unfold comparable in Hc; rewrite H1 in Hc;
      rewrite ?orb_true_r in Hc; discriminate. }
  rewrite replace_step by assumption.
  cbn [Py.has_prefix] in *. apply andb_true_iff in H as [-> H]. simpl.
  cbn [no_clash] in Hc. apply andb_true_iff in Hc as [_ Hc]. now apply IH.
Qed.

(** Replacing [old] keeps the occurrences of a pattern it cannot overlap. *)
Lemma replace_keeps (new s : string) :
  no_clash old q = true -> no_clash q old = true ->
  Py.contains q s = true -> Py.contains q (Py.replace s old new) = true.
Proof.
  intros Hoq Hqo.
  apply (replace_ind old new
           (fun s t => Py.contains q s = true -> Py.contains q t = true));
    [assumption | trivial | |].
  - intros r IH H. apply contains_append_r, IH. now apply (contains_skip old).
  - intros c t Hp IH H. cbn [Py.contains] in H. apply orb_true_iff in H as [H | H].
    + rewrite <- (replace_step old new) by assumption.
      now apply contains_of_prefix, replace_keeps_prefix.
    + apply contains_cons, IH, H.
Qed.

(** A prefix of the result that shares no character with the marker is a
    prefix of the text that was scanned. *)
Lemma replace_reflects_prefix (u s : string) :
  chars_apart u marker_prefix = true ->
  Py.has_prefix u (Py.replace s old (marker old)) = true -> Py.has_prefix u s = true.
Proof.
  revert s. induction u as [|a u IH]; intros s Hc H; [reflexivity |].
  cbn [chars_apart] in Hc. apply andb_true_iff in Hc as [Ha Hc].
  destruct s as [|b s]; [now rewrite replace_nil in H |].
  destruct (Py.has_prefix old (String b s)) eqn:Ho.
  - destruct (has_prefix_split _ _ Ho) as [r Hr]. rewrite Hr in H.
    rewrite replace_match in H by assumption.
    unfold marker, marker_prefix in H. simpl in H.
    apply andb_true_iff in H as [Hab _]. apply Ascii.eqb_eq in Hab. subst a.
    discriminate.
  - rewrite replace_step in H by assumption.
    cbn [Py.has_prefix] in *. apply andb_true_iff in H as [-> H]. simpl.
    now apply IH.
Qed.

(** Replacing [old] by its marker creates no occurrence of another pattern. *)
Lemma replace_reflects (s : string) :
  no_clash old q = true -> chars_apart q marker_prefix = true -> q <> "" ->
  Py.contains q (Py.replace s old (marker old)) = true -> Py.contains q s = true.
Proof.
  intros Hoq Hq Hne.
  apply (replace_ind old (marker old)
           (fun s t => Py.contains q t = true -> Py.contains q s = true));
    [assumption | trivial | |].
  - intros r IH H. unfold marker in H. rewrite append_assoc in H.
    apply contains_skip_marker in H; [| assumption | assumption].
    apply contains_append_r, IH. now apply (contains_skip old).
  - intros c t Hp IH H. cbn [Py.contains] in H. apply orb_true_iff in H as [H | H].
    + rewrite <- (replace_step old (marker old)) in H by assumption.
      now apply contains_of_prefix, replace_reflects_prefix.
    + apply contains_cons, IH, H.
Qed.

(** Redaction leaves the redacted pattern itself in the text. *)
Lemma replace_leaves_marker (s : string) :
  Py.contains old s = true ->
  Py.contains (marker old) (Py.replace s old (marker old)) = true.
Proof.
  apply (replace_ind old (marker old)
           (fun s t => Py.contains old s = true ->
                       Py.contains (marker old) t = true));
    [assumption | now rewrite contains_nil | |].
  - intros r _ _. apply contains_of_prefix, has_prefix_append.
  - intros c t Hp IH H. cbn [Py.contains] in H. rewrite Hp in H.
    apply contains_cons, IH, H.
Qed.

Lemma replace_absent (new s : string) :
  Py.contains old s = false -> Py.replace s old new = s.
Proof.
  apply (replace_ind old new
           (fun s t => Py.contains old s = false -> t = s));
    [assumption | trivial | |].
  - intros r _ H. rewrite contains_of_prefix in H; [discriminate |].
    apply has_prefix_append.
  - intros c t Hp IH H. cbn [Py.contains] in H. rewrite Hp in H.
    now rewrite IH.
Qed.

Lemma replace_same (s : string) :
  Py.contains old (Py.replace s old (marker old)) = Py.contains old s.
Proof.
  destruct (Py.contains old s) eqn:H.
  - apply (contains_append_inv marker_prefix), replace_leaves_marker, H.
  - now rewrite replace_absent.
Qed.

End Redaction.

(** ** The denylist of [CONFIG] under redaction *)

Lemma denylist_checked : denylist_ok dangerous_patterns = true.
Proof. vm_compute. reflexivity. Qed.

Lemma denylist_nonempty (p : string) : In p dangerous_patterns -> p <> "".
Proof.
  intros Hp. pose proof denylist_checked as H. unfold denylist_ok in H.
  rewrite forallb_forall in H. specialize (H p Hp).
  apply andb_true_iff in H as [H _]. apply negb_true_iff in H.
  now apply String.eqb_neq in H.
Qed.

Lemma denylist_pair (old q : string) :
  In old dangerous_patterns -> In q dangerous_patterns ->
  old = q \/ independent old q = true.
Proof.
  intros Ho Hq. pose proof denylist_checked as H. unfold denylist_ok in H.
  rewrite forallb_forall in H. specialize (H old Ho).
  apply andb_true_iff in H as [_ H]. rewrite forallb_forall in H.
  specialize (H q Hq). apply orb_true_iff in H as [H | H]; [left | now right].
  now apply String.eqb_eq.
Qed.

(** One step of [sanitize_code] changes no answer of [pattern in code]. *)
Lemma redact_preserves (old q s : string) :
  In old dangerous_patterns -> In q dangerous_patterns ->
  Py.contains q (Py.replace s old (marker old)) = Py.contains q s.
Proof.
  intros Ho Hq. pose proof (denylist_nonempty _ Ho) as Hne.
  destruct (denylist_pair old q Ho Hq) as [<- | Hi].
  - now apply replace_same.
  - unfold independent in Hi.
    apply andb_true_iff in Hi as [Hi Hc]. apply andb_true_iff in Hi as [Hoq Hqo].
    apply eq_true_iff_eq. split.
    + apply replace_reflects; auto using denylist_nonempty.
    + now apply replace_keeps.
Qed.

Lemma sanitize_fold (l : list string) (q code : string) :
  (forall p, In p l -> In p dangerous_patterns) -> In q dangerous_patterns ->
  Py.contains q
    (fold_left (fun code pattern => Py.replace code pattern (marker pattern)) l code)
  = Py.contains q code.
Proof.
  revert code. induction l as [|p l IH]; intros code Hl Hq; [reflexivity |].
  cbn [fold_left]. rewrite IH; [| intros; apply Hl; now right | assumption].
  apply redact_preserves; [apply Hl; now left | assumption].
Qed.

Lemma sanitize_preserves (q code : string) :
  In q dangerous_patterns ->
  Py.contains q (sanitize_code code) = Py.contains q code.
Proof. intros Hq. unfold sanitize_code. now apply sanitize_fold. Qed.

Lemma score_ext (c1 c2 : string) :
  (forall p, In p dangerous_patterns -> Py.contains p c1 = Py.contains p c2) ->
  calculate_security_score c1 = calculate_security_score c2.
Proof.
  intros H. unfold calculate_security_score, dangerous_patterns.
  cbn [fold_left].
  rewrite !H by (unfold dangerous_patterns; simpl; tauto). reflexivity.
Qed.

Lemma penalty_count_ext (c1 c2 : string) :
  (forall p, In p dangerous_patterns -> Py.contains p c1 = Py.contains p c2) ->
  penalty_count c1 = penalty_count c2.
Proof.
  intros H. unfold penalty_count, dangerous_patterns.
  cbn [List.filter].
  rewrite !H by (unfold dangerous_patterns; simpl; tauto). reflexivity.
Qed.

(** ** The claims about the security pipeline *)

Lemma score_formula (code : string) :
  calculate_security_score code
  = Qmax 0 (100 - 20 * inject_Z (Z.of_nat (penalty_count code))).
Proof.
  unfold calculate_security_score, penalty_count, dangerous_patterns.
  cbn [fold_left List.filter].
  repeat match goal with
         | |- context [Py.contains ?p code] => destruct (Py.contains p code)
         end; reflexivity.
Qed.

(** C5. The scoring step returns [max(0, 100 - 20 * n)], where [n] is the
    number of denylisted patterns found as a substring of the text it is
    given: a fixed penalty of 20 per pattern found, floored at 0. *)
Theorem C5_score_formula (code : string) :
  calculate_security_score code
  = Qmax 0 (100 - 20 * inject_Z (Z.of_nat (penalty_count code))).
Proof. apply score_formula. Qed.

(** C7. A denylisted pattern that occurs in the raw input still occurs in the
    output of [sanitize_code] (the marker that replaces it spells it out), so
    the score of the sanitized text deducts 20 for every denylisted pattern
    that occurred in the raw input, redacted or not. *)
Theorem C7_redaction_keeps_patterns (raw : string) :
  (forall pattern, In pattern dangerous_patterns ->
     Py.contains pattern raw = true ->
     Py.contains pattern (Py.replace raw pattern (marker pattern)) = true /\
     Py.contains pattern (sanitize_code raw) = true) /\
  calculate_security_score (sanitize_code raw)
  = Qmax 0 (100 - 20 * inject_Z (Z.of_nat (penalty_count raw))).
Proof.
  split.
  - intros p Hp H. split.
    + now rewrite redact_preserves.
    + now rewrite sanitize_preserves.
  - rewrite score_formula, (penalty_count_ext (sanitize_code raw) raw);
      [reflexivity |].
    intros p Hp. now apply sanitize_preserves.
Qed.

(** ** Classification and the validation pipeline *)

Lemma Qle_bool_false (x y : Q) : Qle_bool x y = false -> (y < x)%Q.
Proof.
  intros H. apply Qnot_le_lt. intros Hle.
  apply Qle_bool_iff in Hle. congruence.
Qed.

Lemma is_empty_true {A} (l : list A) : is_empty l = true <-> l = [].
Proof. destruct l; simpl; split; congruence. Qed.

Lemma update_security_level_fields (c : SecurityContext) :
  let c' := update_security_level c in
  sanitized c' = sanitized c /\ validated c' = validated c /\
  security_score c' = security_score c /\
  vulnerabilities c' = vulnerabilities c /\ last_checked c' = last_checked c.
Proof.
  unfold update_security_level.
  destruct (Qle_bool 90 (security_score c) && is_empty (vulnerabilities c));
    [| destruct (Qle_bool 70 (security_score c))]; simpl; auto.
Qed.

Lemma update_security_level_idem (c : SecurityContext) :
  update_security_level (update_security_level c) = update_security_level c.
Proof.
  unfold update_security_level.
  destruct (Qle_bool 90 (security_score c)) eqn:E1;
    destruct (is_empty (vulnerabilities c)) eqn:E2;
    destruct (Qle_bool 70 (security_score c)) eqn:E3;
    cbn; rewrite ?E1, ?E2, ?E3; reflexivity.
Qed.

(** C4. [update_security_level] assigns HIGH iff the score is at least 90 and
    there is no vulnerability, MEDIUM iff the score is at least 70 and the
    level is not HIGH, LOW otherwise; hence HIGH implies score >= 90 and no
    vulnerability, MEDIUM implies 70 <= score < 90 or (score >= 90 with a
    vulnerability), LOW implies score < 70.  It holds for every score, inside
    [0,100] or not. *)
Theorem C4_classification (c : SecurityContext) :
  let s := security_score c in
  let v := vulnerabilities c in
  let level := security_level (update_security_level c) in
  (level = HIGH <-> (90 <= s)%Q /\ v = []) /\
  (level = MEDIUM <-> (70 <= s)%Q /\ ~ ((90 <= s)%Q /\ v = [])) /\
  (level = LOW <-> ~ (70 <= s)%Q) /\
  (level = MEDIUM -> ((70 <= s)%Q /\ (s < 90)%Q) \/ ((90 <= s)%Q /\ v <> [])) /\
  (level = LOW -> (s < 70)%Q).
Proof.
  cbv zeta. unfold update_security_level.
  assert (H9070 : (90 <= security_score c)%Q -> (70 <= security_score c)%Q).
  { intros H. apply Qle_trans with (y := 90%Q); [discriminate | exact H]. }
  destruct (Qle_bool 90 (security_score c)) eqn:H90;
    destruct (is_empty (vulnerabilities c)) eqn:Hv;
    destruct (Qle_bool 70 (security_score c)) eqn:H70; cbn [andb set_security_level security_level];
    try apply Qle_bool_iff in H90; try apply Qle_bool_iff in H70;
    try apply is_empty_true in Hv;
    try (apply Qle_bool_false in H90); try (apply Qle_bool_false in H70);
    try (assert (Hv' : vulnerabilities c <> [])
           by (intros E; apply is_empty_true in E; congruence));
    repeat split; intros; try discriminate; try tauto;
    try (exfalso; apply (Qlt_not_le _ _ H70); tauto);
    try (exfalso; apply (Qlt_not_le _ _ H90); tauto);
    try (left; tauto); try (right; tauto);
    try (intros [? ?]; first [ now apply (Qlt_not_le _ _ H90) | congruence ]);
    try (intro; now apply (Qlt_not_le _ _ H70)).
Qed.

(** The boundary scores of the specification, with and without a
    vulnerability. *)
Example classification_boundaries :
  let level s v :=
    security_level
      (update_security_level (mkSecurityContext true true s v 0 LOW)) in
  map (fun s => level s []) [0; 69; 70; 89; 90; 100]%Q
    = [LOW; LOW; MEDIUM; MEDIUM; HIGH; HIGH] /\
  map (fun s => level s ["eval("]) [0; 69; 70; 89; 90; 100]%Q
    = [LOW; LOW; MEDIUM; MEDIUM; MEDIUM; MEDIUM].
Proof. split; reflexivity. Qed.

Ltac run_monad :=
  unfold mbind, M_bind, mret, M_ret, bind, ret, lift, raise in *.

Section Pipeline.

Variable compile_exec : string -> CompileOutcome.
Variable clock : nat -> datetime.

Local Abbreviation checks := (perform_security_checks compile_exec clock).

(** The world after [perform_security_checks]: the clock was read once. *)
Lemma perform_security_checks_world (code : string) (w : World) :
  snd (checks code w)
  = {| files := files w; chat_calls := chat_calls w;
       clock_reads := S (clock_reads w); recursion_room := recursion_room w |}.
Proof.
  unfold perform_security_checks, datetime_now, validate_syntax. run_monad.
  destruct (compile_exec (sanitize_code code)); reflexivity.
Qed.

(** An exception of the compiler that is no [SyntaxError] goes through. *)
Lemma perform_security_checks_raises (code : string) (w : World) (e : exn) :
  compile_exec (sanitize_code code) = OtherError e ->
  fst (checks code w) = Raise e.
Proof.
  intros H. unfold perform_security_checks, datetime_now, validate_syntax.
  run_monad. now rewrite H.
Qed.

(** What [perform_security_checks] returns, field by field, when
    [validate_syntax] returns. *)
Lemma perform_security_checks_result (code : string) (w : World) (valid : bool) :
  validate_syntax compile_exec (sanitize_code code) = Ok valid ->
  exists ctx,
    fst (checks code w) = Ok (ctx, sanitize_code code) /\
    sanitized ctx = true /\
    validated ctx = valid /\
    security_score ctx = calculate_security_score (sanitize_code code) /\
    vulnerabilities ctx = [] /\
    last_checked ctx = clock (clock_reads w) /\
    ctx = update_security_level ctx.
Proof.
  intros Hv. unfold perform_security_checks, datetime_now. run_monad.
  rewrite Hv. cbn [fst].
  eexists. split; [reflexivity |].
  match goal with
  | |- context [update_security_level ?c] =>
      destruct (update_security_level_fields c) as (H1 & H2 & H3 & H4 & H5);
      set (c0 := c) in *
  end.
  cbv zeta in *. rewrite H1, H2, H3, H4, H5.
  repeat split. symmetry. apply update_security_level_idem.
Qed.

(** [perform_security_checks] returns, or raises what the compiler raised. *)
Lemma perform_security_checks_cases (code : string) (w : World) :
  (exists valid, validate_syntax compile_exec (sanitize_code code) = Ok valid /\
                 (valid = true <-> compile_exec (sanitize_code code) = Compiled) /\
                 (valid = false <-> compile_exec (sanitize_code code) = SyntaxError)) \/
  (exists e, compile_exec (sanitize_code code) = OtherError e /\
             fst (checks code w) = Raise e).
Proof.
  destruct (compile_exec (sanitize_code code)) as [| |e] eqn:Hc.
  - left. exists true. unfold validate_syntax. rewrite Hc.
    repeat split; congruence.
  - left. exists false. unfold validate_syntax. rewrite Hc.
    repeat split; congruence.
  - right. exists e. split; [reflexivity |].
    now apply perform_security_checks_raises.
Qed.

(** A context is returned exactly when the compiler raises nothing but
    [SyntaxError]. *)
Lemma perform_security_checks_returns (code : string) (w : World) :
  (exists ctx, fst (checks code w) = Ok (ctx, sanitize_code code))
  <-> (forall e, compile_exec (sanitize_code code) <> OtherError e).
Proof.
  destruct (perform_security_checks_cases code w)
    as [(valid & Hv & Ht & Hf) | (e & Hc & Hr)].
  - destruct (perform_security_checks_result code w valid Hv) as (ctx & Hrun & _).
    split; [| intros _; now exists ctx].
    intros _ e He. destruct valid.
    + destruct Ht as [Ht _]. rewrite Ht in He by reflexivity. discriminate.
    + destruct Hf as [Hf _]. rewrite Hf in He by reflexivity. discriminate.
  - split.
    + intros [ctx Hctx]. rewrite Hr in Hctx. discriminate.
    + intros H. now destruct (H e).
Qed.

(** The context of a call that returned. *)
Lemma perform_security_checks_returned (code : string) (w : World)
    (ctx : SecurityContext) (sanitized_code : string) :
  fst (checks code w) = Ok (ctx, sanitized_code) ->
  sanitized_code = sanitize_code code /\
  sanitized ctx = true /\
  (validated ctx = true <-> compile_exec (sanitize_code code) = Compiled) /\
  (validated ctx = false <-> compile_exec (sanitize_code code) = SyntaxError) /\
  security_score ctx = calculate_security_score (sanitize_code code) /\
  vulnerabilities ctx = [] /\
  last_checked ctx = clock (clock_reads w) /\
  ctx = update_security_level ctx.
Proof.
  intros Hrun.
  destruct (perform_security_checks_cases code w)
    as [(valid & Hv & Ht & Hf) | (e & Hc & Hr)]; [| congruence].
  destruct (perform_security_checks_result code w valid Hv)
    as (ctx' & Hrun' & Hs & Hval & Hscore & Hvul & Hlast & Hfix).
  rewrite Hrun in Hrun'. injection Hrun' as <- ->. subst valid.
  repeat split; try assumption; try apply Ht; try apply Hf.
Qed.

(** C6. Every context that [perform_security_checks] returns has an empty
    list of vulnerabilities, whatever the input: on it HIGH is decided by
    the score alone, and [is_secure] by the score and the level alone.  A
    context is returned for every input on which the compiler raises
    nothing but [SyntaxError]. *)
Theorem C6_pipeline_no_vulnerabilities (code : string) (w : World) :
  let out := perform_security_checks compile_exec clock code w in
  (forall ctx sanitized_code,
     fst out = Ok (ctx, sanitized_code) ->
     vulnerabilities ctx = [] /\
     (security_level ctx = HIGH <-> (90 <= security_score ctx)%Q) /\
     (forall r, security_context r = SecurityContextObj ctx ->
                is_secure r
                = Ok (Qle_bool min_acceptable_score (security_score ctx)
                      && negb (SecurityLevel_eqb (security_level ctx) LOW)))) /\
  ((exists ctx, fst out = Ok (ctx, sanitize_code code))
   <-> (forall e, compile_exec (sanitize_code code) <> OtherError e)).
Proof.
  cbv zeta. split; [| apply perform_security_checks_returns].
  intros ctx sanitized_code Hrun.
  destruct (perform_security_checks_returned code w ctx sanitized_code Hrun)
    as (_ & _ & _ & _ & _ & Hv & _ & Hfix).
  split; [exact Hv |]. split.
  - rewrite Hfix at 1. unfold update_security_level. rewrite Hv. simpl.
    rewrite andb_true_r.
    destruct (Qle_bool 90 (security_score ctx)) eqn:H90.
    + apply Qle_bool_iff in H90. simpl. tauto.
    + apply Qle_bool_false in H90.
      destruct (Qle_bool 70 (security_score ctx)); simpl;
        (split; [discriminate | intros H; now apply Qlt_not_le in H90]).
  - intros r Hr. unfold is_secure, context_is_secure. rewrite Hr, Hv. simpl.
    now rewrite andb_true_r.
Qed.

(** C8 (amended). [perform_security_checks] raises exactly what the
    compiler raises on the sanitized text other than [SyntaxError], after
    the clock was read and with no file touched.  On every other input it
    returns the sanitized code and a context whose fields are all set, and
    a text that does not parse is reported by [validated = false]. *)
Theorem C8_validate_raises_with_compiler (code : string) (w : World) :
  let out := perform_security_checks compile_exec clock code w in
  files (snd out) = files w /\ chat_calls (snd out) = chat_calls w /\
  clock_reads (snd out) = S (clock_reads w) /\
  (forall e, fst out = Raise e <-> compile_exec (sanitize_code code) = OtherError e) /\
  ((exists ctx, fst out = Ok (ctx, sanitize_code code))
   <-> compile_exec (sanitize_code code) = Compiled
       \/ compile_exec (sanitize_code code) = SyntaxError) /\
  (forall ctx sanitized_code,
     fst out = Ok (ctx, sanitized_code) ->
     sanitized_code = sanitize_code code /\
     sanitized ctx = true /\
     (validated ctx = true <-> compile_exec (sanitize_code code) = Compiled) /\
     (validated ctx = false <-> compile_exec (sanitize_code code) = SyntaxError) /\
     security_score ctx = calculate_security_score (sanitize_code code) /\
     vulnerabilities ctx = [] /\
     last_checked ctx = clock (clock_reads w) /\
     security_level ctx = security_level (update_security_level ctx)).
Proof.
  cbv zeta. rewrite perform_security_checks_world. cbn [files chat_calls clock_reads].
  do 3 (split; [reflexivity |]).
  pose proof (perform_security_checks_returns code w) as Hret.
  split; [| split].
  - intros e. split.
    + intros Hr.
      destruct (compile_exec (sanitize_code code)) as [| |e'] eqn:Hc.
      * destruct Hret as [_ Hret]. destruct Hret as [ctx Hctx]; [discriminate |].
        congruence.
      * destruct Hret as [_ Hret]. destruct Hret as [ctx Hctx]; [discriminate |].
        congruence.
      * rewrite (perform_security_checks_raises code w e' Hc) in Hr. congruence.
    + apply perform_security_checks_raises.
  - rewrite Hret. destruct (compile_exec (sanitize_code code)) as [| |e'].
    + split; [now left | discriminate].
    + split; [now right | discriminate].
    + split; [intros H; now destruct (H e') | intros [H | H]; discriminate].
  - intros ctx sanitized_code Hrun.
    destruct (perform_security_checks_returned code w ctx sanitized_code Hrun)
      as (H1 & H2 & H3 & H4 & H5 & H6 & H7 & H8).
    repeat split; try assumption; try apply H3; try apply H4.
    now rewrite <- H8.
Qed.

End Pipeline.

(** C8, as stated, fails: on a text with a NUL character the compiler
    raises [ValueError], which [validate_syntax] does not catch, and
    [perform_security_checks] raises it instead of returning a context. *)
Lemma C8_nul_character_raises :
  compile_refusing_nul always_compiles (sanitize_code NUL)
  = OtherError (ValueError "source code string cannot contain null bytes") /\
  fst (perform_security_checks (compile_refusing_nul always_compiles) (clock_at 0)
         NUL empty_world)
  = Raise (ValueError "source code string cannot contain null bytes").
Proof. split; vm_compute; reflexivity. Qed.

(** The three outcomes of the compiler on the pipeline: a text that
    compiles, one that is refused as a program, and one on which the
    compiler raises. *)
Example pipeline_outcomes :
  let validated_by compile_exec code :=
    match fst (perform_security_checks compile_exec (clock_at 0) code empty_world) with
    | Ok (ctx, _) => Ok (validated ctx, security_level ctx, vulnerabilities ctx)
    | Raise e => Raise e
    end in
  validated_by always_compiles "x = 1" = Ok (true, HIGH, []) /\
  validated_by never_compiles "x = " = Ok (false, HIGH, []) /\
  validated_by always_compiles "eval(x)" = Ok (true, MEDIUM, []) /\
  validated_by (compile_refusing_nul never_compiles) "x = " = Ok (false, HIGH, []) /\
  validated_by (compile_refusing_nul always_compiles) ("x = 1" +:+ NUL)
  = Raise (ValueError "source code string cannot contain null bytes").
Proof. cbv zeta. repeat split; vm_compute; reflexivity. Qed.


(** ** The running average of [AgentMetrics] *)

Section Metrics.

Import AgentCore.

Lemma Qsum_app (l1 l2 : list Q) : (Qsum (l1 ++ l2) == Qsum l1 + Qsum l2)%Q.
Proof.
  induction l1 as [|x l1 IH]; simpl.
  - now rewrite Qplus_0_l.
  - rewrite IH. now rewrite Qplus_assoc.
Qed.

Lemma successful_durations_cons (m : RequestMetrics) (l : list RequestMetrics) :
  successful_durations (m :: l) = successful_durations [m] ++ successful_durations l.
Proof. unfold successful_durations. cbn [flat_map]. now rewrite app_nil_r. Qed.

Lemma inject_Z_nonzero (n : Z) : n <> 0 -> ~ (inject_Z n == 0)%Q.
Proof. intros Hn H. apply Hn. unfold Qeq, inject_Z in H. simpl in H. lia. Qed.

(** The incremental update, whatever the branch taken:
    [avg' = (avg * (n - 1) + duration) / n] for the new count [n]. *)
Lemma add_request_average (self : AgentMetrics) (m : RequestMetrics) (d : Q) :
  success m = true -> duration m = Some d -> successful_requests self + 1 <> 0 ->
  let n := successful_requests self + 1 in
  successful_requests (add_request self m) = n /\
  (average_response_time (add_request self m)
   == (average_response_time self * inject_Z (n - 1) + d) / inject_Z n)%Q.
Proof.
  intros Hs Hd Hn. cbv zeta. unfold add_request. rewrite Hs, Hd. cbn.
  split; [reflexivity |].
  destruct (successful_requests self + 1 =? 1) eqn:E; [| reflexivity].
  apply Z.eqb_eq in E. rewrite E.
  change (inject_Z (1 - 1)) with 0%Q. change (inject_Z 1) with 1%Q. field.
Qed.

Lemma add_request_tracks (self : AgentMetrics) (m : RequestMetrics) (ds : list Q) :
  tracks self ds ->
  (success m = true -> duration m <> None) ->
  tracks (add_request self m) (ds ++ successful_durations [m]).
Proof.
  intros [Hn Havg] Hm. unfold successful_durations. cbn [flat_map].
  destruct (success m) eqn:Hs.
  - destruct (duration m) as [d|] eqn:Hd; [| now destruct Hm].
    assert (Hnz : successful_requests self + 1 <> 0) by lia.
    destruct (add_request_average self m d Hs Hd Hnz) as [Hn' Havg'].
    cbv zeta in Havg'. rewrite app_nil_r. split.
    + rewrite Hn', Hn, length_app. simpl. lia.
    + rewrite Hn', Havg', Qsum_app. simpl.
      replace (successful_requests self + 1 - 1) with (successful_requests self) by lia.
      rewrite <- Havg. field. now apply inject_Z_nonzero.
  - rewrite !app_nil_r. unfold add_request. rewrite Hs. exact (conj Hn Havg).
Qed.

Lemma fold_add_request_tracks (requests : list RequestMetrics)
    (self : AgentMetrics) (ds : list Q) :
  tracks self ds ->
  (forall m, In m requests -> success m = true -> duration m <> None) ->
  tracks (fold_left add_request requests self) (ds ++ successful_durations requests).
Proof.
  revert self ds. induction requests as [|m requests IH]; intros self ds Ht Hall.
  - simpl. now rewrite app_nil_r.
  - cbn [fold_left].
    rewrite successful_durations_cons, app_assoc. apply IH.
    + apply add_request_tracks; [assumption | apply Hall; now left].
    + intros m' Hin. apply Hall. now right.
Qed.

End Metrics.

(** C10. After any sequence of [add_request] on fresh metrics in which the
    successful requests carry their durations d1..dn (n >= 1), with failed
    requests anywhere in between, [average_response_time] is the mean of
    d1..dn and [successful_requests] is n.  Durations and average are
    rationals: the equality is the exact one that the floating-point
    computation approximates. *)
Theorem C10_average_is_mean (requests : list AgentCore.RequestMetrics) :
  (forall m, In m requests ->
             AgentCore.success m = true -> AgentCore.duration m <> None) ->
  AgentCore.successful_durations requests <> [] ->
  (AgentCore.average_response_time (AgentCore.record_all requests)
   == AgentCore.mean (AgentCore.successful_durations requests))%Q /\
  AgentCore.successful_requests (AgentCore.record_all requests)
  = Z.of_nat (length (AgentCore.successful_durations requests)).
Proof.
  intros Hall Hne.
  destruct (fold_add_request_tracks requests AgentCore.initial [])
    as [Hn Havg]; [split; reflexivity | assumption |].
  cbn [app] in *. fold (AgentCore.record_all requests) in *.
  split; [| exact Hn].
  unfold AgentCore.mean. rewrite <- Havg, Hn. field.
  apply inject_Z_nonzero.
  destruct (AgentCore.successful_durations requests); [congruence | simpl; lia].
Qed.

(** Two successes of 2 s and 4 s around a failure: the average is 3 s. *)
Lemma C10_average_is_mean_witness :
  let ok d := AgentCore.mkRequestMetrics 0 (Some (seconds 1)) (Some d) true None in
  let ko := AgentCore.mkRequestMetrics 0 (Some (seconds 1)) None false (Some "timeout") in
  let requests := [ok 2%Q; ko; ok 4%Q] in
  (AgentCore.average_response_time (AgentCore.record_all requests)
   == AgentCore.mean (AgentCore.successful_durations requests))%Q /\
  AgentCore.successful_requests (AgentCore.record_all requests)
  = Z.of_nat (length (AgentCore.successful_durations requests)).
Proof.
  cbv zeta. apply C10_average_is_mean.
  - intros m [<- | [<- | [<- | []]]]; simpl; congruence.
  - simpl. discriminate.
Defined.

Example metrics_sample :
  let ok d := AgentCore.mkRequestMetrics 0 (Some (seconds 1)) (Some d) true None in
  let ko := AgentCore.mkRequestMetrics 0 (Some (seconds 1)) None false (Some "timeout") in
  let m := AgentCore.record_all [ok 2%Q; ko; ok 4%Q] in
  (AgentCore.average_response_time m == 3)%Q /\
  AgentCore.total_requests m = 3 /\ AgentCore.successful_requests m = 2 /\
  AgentCore.failed_requests m = 1 /\ AgentCore.last_error m = Some "timeout".
Proof. cbv zeta. repeat split. Qed.

(** ** The cache and the agent *)

Lemma CodeResponse_of_is_data (data : Json.value) (r : CodeResponse) :
  CodeResponse_of data = Ok r -> exists v, security_context r = Data v.
Proof.
  unfold CodeResponse_of. destruct data as [| | | | |members]; try discriminate.
  destruct (Dict.get "code" members), (Dict.get "explanation" members),
    (Dict.get "security_context" members) as [s|], (Dict.get "metadata" members),
    (Dict.get "timestamp" members);
    repeat match goal with
           | |- context [if ?b then _ else _] => destruct b
           end; try discriminate.
  intros [= <-]. now exists s.
Qed.

Lemma CodeResponse_of_raises (data : Json.value) (e : exn) :
  CodeResponse_of data = Raise e -> exists msg, e = TypeError msg.
Proof.
  unfold CodeResponse_of. destruct data as [| | | | |members];
    try (intros [= <-]; eauto).
  destruct (Dict.get "code" members), (Dict.get "explanation" members),
    (Dict.get "security_context" members), (Dict.get "metadata" members),
    (Dict.get "timestamp" members);
    repeat match goal with
           | |- context [if ?b then _ else _] => destruct b
           end; try discriminate; intros [= <-]; eauto.
Qed.

Lemma is_secure_of_data_raises (r : CodeResponse) (v : Json.value) :
  security_context r = Data v -> exists msg, is_secure r = Raise (AttributeError msg).
Proof. intros H. unfold is_secure, no_attribute. rewrite H. eauto. Qed.

(** What [get_cached_response] does, case by case. *)
Lemma get_cached_response_cases (cache_path prompt : string) (w : World) :
  get_cached_response cache_path prompt w
  = (match files w !! cache_file_of cache_path prompt with
     | None => Ok None
     | Some content =>
         match TextIO.read content with
         | Raise e => Raise e
         | Ok text =>
             match Json.loads (recursion_room w) text with
             | Raise e => Raise e
             | Ok data =>
                 match CodeResponse_of data with
                 | Raise e => Raise e
                 | Ok r => Ok (Some r)
                 end
             end
         end
     end, w).
Proof.
  unfold get_cached_response, file_exists, json_load, read_file, room_left. run_monad.
  destruct (files w !! cache_file_of cache_path prompt) as [content|] eqn:Hf.
  - rewrite bool_decide_eq_true_2 by eauto. rewrite Hf.
    destruct (TextIO.read content) as [text|e]; [| reflexivity].
    destruct (Json.loads (recursion_room w) text) as [data|e]; [| reflexivity].
    destruct (CodeResponse_of data); reflexivity.
  - rewrite bool_decide_eq_false_2; [reflexivity |].
    intros [x Hx]. discriminate.
Qed.

(** The exceptions of [get_cached_response]. *)
Lemma get_cached_response_raises (cache_path prompt : string) (w : World) (e : exn) :
  fst (get_cached_response cache_path prompt w) = Raise e ->
  (exists msg, e = UnicodeDecodeError msg) \/ (exists msg, e = JSONDecodeError msg)
  \/ (exists msg, e = ValueError msg) \/ (exists msg, e = RecursionError msg)
  \/ (exists msg, e = TypeError msg).
Proof.
  rewrite get_cached_response_cases. cbn [fst].
  destruct (files w !! cache_file_of cache_path prompt) as [content|]; [| discriminate].
  destruct (TextIO.read content) as [text|e'] eqn:Hread.
  - destruct (Json.loads (recursion_room w) text) as [data|e'] eqn:Hl.
    + destruct (CodeResponse_of data) as [r|e'] eqn:Hr; [discriminate |].
      intros [= <-]. apply CodeResponse_of_raises in Hr. tauto.
    + intros [= <-]. apply loads_raises in Hl. tauto.
  - intros [= <-]. apply read_raises in Hread. tauto.
Qed.

(** [json.dump] stops at the security context. *)
Lemma json_dump_raises (r : CodeResponse) (c : SecurityContext) :
  security_context r = SecurityContextObj c ->
  exists text msg, json_dump (to_dict r) = (text, Raise (TypeError msg)).
Proof.
  intros H. unfold json_dump, to_dict. cbn [dump_items]. rewrite H.
  destruct (code r), (explanation r); cbn; eauto.
Qed.

Lemma cache_response_raises (cache_path prompt : string) (r : CodeResponse)
    (c : SecurityContext) (w : World) :
  security_context r = SecurityContextObj c ->
  exists text msg,
    cache_response cache_path prompt r w
    = (Raise (TypeError msg),
       set_files (<[cache_file_of cache_path prompt := text]> (files w)) w).
Proof.
  intros H. destruct (json_dump_raises r c H) as (text & msg & Hd).
  exists text, msg. unfold cache_response. rewrite Hd. reflexivity.
Qed.

Section AgentFacts.

Variable compile_exec : string -> CompileOutcome.
Variable clock : nat -> datetime.
Variable ollama_chat : string -> list (string * string) -> result ChatResponse.

Local Abbreviation fresh := (generate_fresh compile_exec clock ollama_chat).
Local Abbreviation generate := (generate_response compile_exec clock ollama_chat).

(** The model client is asked exactly once by [generate_fresh]. *)
Lemma generate_fresh_calls (prompt : string) (w : World) :
  chat_calls (snd (fresh prompt w))
  = chat_calls w ++ [(config_model, [("user", prompt)])].
Proof.
  unfold generate_fresh, chat, perform_security_checks, datetime_now,
    validate_syntax, cache_response, write_file, set_files.
  run_monad. cbn [fst snd].
  destruct (ollama_chat config_model [("user", prompt)]) as [response|e];
    [| reflexivity].
  destruct (String.eqb (message_content_of response) ""); [reflexivity |].
  destruct (compile_exec (sanitize_code (message_content_of response)));
    reflexivity.
Qed.

(** The client raised: its exception goes through. *)
Lemma generate_fresh_client_error (prompt : string) (w : World) (e : exn) :
  ollama_chat config_model [("user", prompt)] = Raise e ->
  fst (fresh prompt w) = Raise e /\ files (snd (fresh prompt w)) = files w.
Proof.
  intros Hc. unfold generate_fresh, chat. run_monad. now rewrite Hc.
Qed.

(** An empty reply: [SecurityError], and no file is touched. *)
Lemma generate_fresh_empty (prompt : string) (w : World) (response : ChatResponse) :
  ollama_chat config_model [("user", prompt)] = Ok response ->
  message_content_of response = "" ->
  fresh prompt w
  = (Raise (SecurityError "No valid content received from Ollama."),
     {| files := files w;
        chat_calls := chat_calls w ++ [(config_model, [("user", prompt)])];
        clock_reads := clock_reads w;
        recursion_room := recursion_room w |}).
Proof.
  intros Hc He. unfold generate_fresh, chat. run_monad. now rewrite Hc, He.
Qed.

(** A reply with content on which the compiler raises: the exception goes
    through, after the clock was read once, and no file is touched. *)
Lemma generate_fresh_compiler_error (prompt : string) (w : World)
    (response : ChatResponse) (e : exn) :
  ollama_chat config_model [("user", prompt)] = Ok response ->
  message_content_of response <> "" ->
  compile_exec (sanitize_code (message_content_of response)) = OtherError e ->
  fresh prompt w
  = (Raise e,
     {| files := files w;
        chat_calls := chat_calls w ++ [(config_model, [("user", prompt)])];
        clock_reads := S (clock_reads w);
        recursion_room := recursion_room w |}).
Proof.
  intros Hc He Hx. unfold generate_fresh, chat, perform_security_checks,
    datetime_now, validate_syntax.
  run_monad. rewrite Hc. apply String.eqb_neq in He. rewrite He.
  cbn beta iota. rewrite Hx. reflexivity.
Qed.

(** A reply with content that the compiler accepts or refuses as a
    program: the response is built, and writing it to the cache raises
    [TypeError]; nothing is returned. *)
Lemma generate_fresh_content (prompt : string) (w : World) (response : ChatResponse) :
  ollama_chat config_model [("user", prompt)] = Ok response ->
  message_content_of response <> "" ->
  (forall e, compile_exec (sanitize_code (message_content_of response))
             <> OtherError e) ->
  exists w',
    fresh prompt w
    = (Raise (TypeError "Object of type SecurityContext is not JSON serializable"), w')
    /\ is_Some (files w' !! cache_file_of cache_dir prompt).
Proof.
  intros Hc He Hx. unfold generate_fresh, chat, perform_security_checks, datetime_now,
    validate_syntax, cache_response, write_file, set_files.
  run_monad. rewrite Hc. apply String.eqb_neq in He. rewrite He.
  cbn beta iota.
  destruct (compile_exec (sanitize_code (message_content_of response))) as [| |e] eqn:Hcomp;
    [| | now destruct (Hx e)];
    cbn; (eexists; split; [reflexivity |]); cbn; rewrite lookup_insert_eq; eauto.
Qed.

(** An entry that exists is never served: reading it, rebuilding the
    response or asking whether it is secure raises, and the world is left
    as it was. *)
Lemma cached_entry_never_served (prompt : string) (w : World) (content : string) :
  files w !! cache_file_of cache_dir prompt = Some content ->
  exists e,
    generate prompt w = (Raise e, w) /\
    (fst (get_cached_response cache_dir prompt w) = Raise e \/
     exists r v msg,
       fst (get_cached_response cache_dir prompt w) = Ok (Some r) /\
       security_context r = Data v /\
       is_secure r = Raise e /\ e = AttributeError msg).
Proof.
  intros Hf. pose proof (get_cached_response_cases cache_dir prompt w) as Hg.
  rewrite Hf in Hg. unfold generate_response. run_monad. rewrite Hg. cbn [fst].
  destruct (TextIO.read content) as [text|e]; [| exists e; auto].
  destruct (Json.loads (recursion_room w) text) as [data|e]; [| exists e; auto].
  destruct (CodeResponse_of data) as [r|e] eqn:Hr; [| exists e; auto].
  destruct (CodeResponse_of_is_data _ _ Hr) as [v Hv].
  destruct (is_secure_of_data_raises _ _ Hv) as [msg He].
  exists (AttributeError msg). split.
  - unfold serve_or_generate. run_monad. now rewrite He.
  - right. exists r, v, msg. auto.
Qed.

(** Without a file for the prompt, [generate_response] is [generate_fresh]. *)
Lemma generate_response_miss (prompt : string) (w : World) :
  files w !! cache_file_of cache_dir prompt = None ->
  generate prompt w = fresh prompt w.
Proof.
  intros Hf. pose proof (get_cached_response_cases cache_dir prompt w) as Hg.
  rewrite Hf in Hg. unfold generate_response, serve_or_generate. run_monad.
  now rewrite Hg.
Qed.

End AgentFacts.

(** C1. The code at failing inputs.  A cache entry that holds the fields of
    a secure response checked a moment ago is rebuilt by
    [get_cached_response] with the decoded mapping as its
    [security_context], so [is_secure()] raises [AttributeError] and the
    entry is not returned.  And in the scenario of two calls with the same
    prompt, the first answered by a secure reply, the first call raises when
    it writes the cache and the second when it reads the truncated file:
    the cached response is never served. *)
Lemma C1_cached_entry_not_served :
  let generate :=
    generate_response always_compiles (clock_at 0) (replies "x = 1") "p" in
  let w := world_with (cache_file_of cache_dir "p") sample_entry in
  (exists r,
     get_cached_response cache_dir "p" w = (Ok (Some r), w) /\
     security_context r = Data sample_entry_context) /\
  generate w
  = (Raise (AttributeError "'dict' object has no attribute 'security_score'"), w) /\
  let first := generate empty_world in
  let second := generate (snd first) in
  fst first = Raise (TypeError "Object of type SecurityContext is not JSON serializable") /\
  files (snd first) !! cache_file_of cache_dir "p" = Some sample_truncated /\
  fst second = Raise (JSONDecodeError "Expecting value") /\
  chat_calls (snd second) = [(config_model, [("user", "p")])].
Proof.
  cbv zeta. split; [| repeat split; vm_compute; reflexivity].
  eexists. split; vm_compute; reflexivity.
Qed.

(** C2. The code at a failing input: writing a response as
    [generate_response] builds them raises [TypeError], leaves a truncated
    file, and reading the entry back raises as well. *)
Lemma C2_put_then_get_raises :
  let put := cache_response cache_dir "p" sample_response empty_world in
  fst put = Raise (TypeError "Object of type SecurityContext is not JSON serializable") /\
  files (snd put) !! cache_file_of cache_dir "p" = Some sample_truncated /\
  fst (get_cached_response cache_dir "p" (snd put))
  = Raise (JSONDecodeError "Expecting value").
Proof. cbv zeta. repeat split; vm_compute; reflexivity. Qed.

(** C3. The code at a failing input.  An empty reply raises the validation
    failure and writes nothing; but a reply with content, here one whose
    response fails [is_secure()] (two patterns, score 60, level LOW), is not
    returned either: [TypeError] is raised when it is written to the cache. *)
Lemma C3_insecure_reply_raises :
  let run text :=
    generate_response always_compiles (clock_at 0) (replies text) "p" empty_world in
  let insecure := "eval(open('f').read())" in
  fst (run "") = Raise (SecurityError "No valid content received from Ollama.") /\
  files (snd (run "")) = ∅ /\
  fst (run insecure)
  = Raise (TypeError "Object of type SecurityContext is not JSON serializable") /\
  match fst (perform_security_checks always_compiles (clock_at 0) insecure empty_world) with
  | Ok (ctx, _) => context_is_secure ctx
  | Raise _ => true
  end = false.
Proof. cbv zeta. repeat split; vm_compute; reflexivity. Qed.

(** C9, as stated, fails: an entry that is not JSON, and one whose bytes
    are no text, make [get_cached_response] raise. *)
Lemma C9_corrupt_entry_raises :
  let file := cache_file_of cache_dir "p" in
  let w := world_with file "{" in
  let w' := world_with file (Text.bytes [255; 254]%nat) in
  get_cached_response cache_dir "p" w = (Raise (JSONDecodeError "Expecting value"), w) /\
  get_cached_response cache_dir "p" w'
  = (Raise (UnicodeDecodeError "'utf-8' codec can't decode byte: invalid start byte"), w').
Proof. cbv zeta. split; vm_compute; reflexivity. Qed.

(** C9 (amended). [get_cached_response] returns [None] exactly when there
    is no file for the key of the prompt.  When the file exists, it is read
    as text, decoded and rebuilt, and the first of these steps that fails
    makes the call raise: [UnicodeDecodeError] for bytes that are no text,
    [JSONDecodeError], [ValueError] or [RecursionError] from the decoder,
    [TypeError] from the constructor; the response is returned when none
    fails.  The world is left as it was in every case. *)
Theorem C9_get_propagates_failures (cache_path prompt : string) (w : World) :
  let file := files w !! cache_file_of cache_path prompt in
  let out := get_cached_response cache_path prompt w in
  snd out = w /\
  (fst out = Ok None <-> file = None) /\
  (forall content,
     file = Some content -> TextIO.utf8_valid content = false ->
     exists msg, fst out = Raise (UnicodeDecodeError msg)) /\
  (forall content text e,
     file = Some content -> TextIO.read content = Ok text ->
     Json.loads (recursion_room w) text = Raise e -> fst out = Raise e) /\
  (forall content text data e,
     file = Some content -> TextIO.read content = Ok text ->
     Json.loads (recursion_room w) text = Ok data ->
     CodeResponse_of data = Raise e -> fst out = Raise e) /\
  (forall content text data r,
     file = Some content -> TextIO.read content = Ok text ->
     Json.loads (recursion_room w) text = Ok data ->
     CodeResponse_of data = Ok r -> fst out = Ok (Some r)) /\
  (forall e,
     fst out = Raise e ->
     (exists msg, e = UnicodeDecodeError msg) \/ (exists msg, e = JSONDecodeError msg)
     \/ (exists msg, e = ValueError msg) \/ (exists msg, e = RecursionError msg)
     \/ (exists msg, e = TypeError msg)).
Proof.
  cbv zeta. pose proof (get_cached_response_raises cache_path prompt w) as Hkinds.
  rewrite get_cached_response_cases in *. cbn [fst snd] in *.
  split; [reflexivity |].
  destruct (files w !! cache_file_of cache_path prompt) as [content|];
    [| repeat split; intros; congruence].
  unfold TextIO.read in Hkinds |- *.
  destruct (TextIO.utf8_valid content) eqn:Hvalid.
  - destruct (Json.loads (recursion_room w) (TextIO.universal_newlines content))
      as [data|e] eqn:Hl.
    + destruct (CodeResponse_of data) as [r|e] eqn:Hr;
        (split; [split; discriminate |]);
        (split; [intros; simplify_eq |]);
        repeat split; intros; simplify_eq;
        rewrite ?Hvalid in *; simplify_eq; try congruence; auto.
    + (split; [split; discriminate |]);
        (split; [intros; simplify_eq |]);
        repeat split; intros; simplify_eq;
        rewrite ?Hvalid in *; simplify_eq; try congruence; auto.
  - (split; [split; discriminate |]).
    split; [intros; eauto |].
    repeat split; intros; simplify_eq;
      rewrite ?Hvalid in *; simplify_eq; try congruence; auto.
Qed.
(** * Further properties of [ai_agent.py] *)

(** ** What [generate_response] does to the world *)

Section AgentOutcome.

Variable compile_exec : string -> CompileOutcome.
Variable clock : nat -> datetime.
Variable ollama_chat : string -> list (string * string) -> result ChatResponse.

Local Abbreviation generate := (generate_response compile_exec clock ollama_chat).

(** Without an entry, what ends [generate_response] is decided by the
    client and the compiler. *)
Lemma generate_response_miss_raises (prompt : string) (w : World) :
  files w !! cache_file_of cache_dir prompt = None ->
  fst (generate prompt w)
  = Raise
      match ollama_chat config_model [("user", prompt)] with
      | Raise e => e
      | Ok response =>
          if String.eqb (message_content_of response) ""
          then SecurityError "No valid content received from Ollama."
          else
            match compile_exec (sanitize_code (message_content_of response)) with
            | OtherError e => e
            | _ => TypeError "Object of type SecurityContext is not JSON serializable"
            end
      end.
Proof.
  intros Hf. rewrite generate_response_miss by assumption.
  destruct (ollama_chat config_model [("user", prompt)]) as [response|e] eqn:Hc.
  - destruct (String.eqb_spec (message_content_of response) "") as [He|He].
    + now rewrite (generate_fresh_empty _ _ _ prompt w response Hc He).
    + destruct (compile_exec (sanitize_code (message_content_of response)))
        as [| |e] eqn:Hx.
      * destruct (generate_fresh_content compile_exec clock _ prompt w response Hc He)
          as (w' & Hg & _); [congruence | now rewrite Hg].
      * destruct (generate_fresh_content compile_exec clock _ prompt w response Hc He)
          as (w' & Hg & _); [congruence | now rewrite Hg].
      * now rewrite (generate_fresh_compiler_error _ _ _ prompt w response e Hc He Hx).
  - now destruct (generate_fresh_client_error compile_exec clock _ prompt w e Hc).
Qed.

(** X1. [generate_response] never returns a response: whatever the cache
    directory holds, whatever the model client answers and whatever the
    prompt, the call ends with an exception.  With an entry for the prompt
    it is the exception of the lookup or the [AttributeError] of
    [is_secure()], and the world is left as it was.  Without one it is the
    exception of the client when it raised, [SecurityError] on an empty
    reply, the exception of the compiler when it raised something else than
    [SyntaxError], and otherwise the [TypeError] of the cache write. *)
Theorem X1_generate_response_never_returns (prompt : string) (w : World) :
  exists e,
    fst (generate prompt w) = Raise e /\
    match files w !! cache_file_of cache_dir prompt with
    | Some _ =>
        snd (generate prompt w) = w /\
        (fst (get_cached_response cache_dir prompt w) = Raise e \/
         exists r msg,
           fst (get_cached_response cache_dir prompt w) = Ok (Some r) /\
           is_secure r = Raise e /\ e = AttributeError msg)
    | None =>
        match ollama_chat config_model [("user", prompt)] with
        | Raise e' => e = e'
        | Ok response =>
            if String.eqb (message_content_of response) ""
            then e = SecurityError "No valid content received from Ollama."
            else
              match compile_exec (sanitize_code (message_content_of response)) with
              | OtherError e' => e = e'
              | _ => e = TypeError "Object of type SecurityContext is not JSON serializable"
              end
        end
    end.
Proof.
  destruct (files w !! cache_file_of cache_dir prompt) as [content|] eqn:Hf.
  - destruct (cached_entry_never_served compile_exec clock ollama_chat prompt w content Hf)
      as (e & He & Hwhy).
    exists e. rewrite He. cbn [fst snd]. repeat split.
    destruct Hwhy as [Hl | (r & v & msg & Hl & _ & Hs & Hm)]; [now left |].
    right. exists r, msg. auto.
  - eexists. split; [now apply generate_response_miss_raises |].
    destruct (ollama_chat config_model [("user", prompt)]) as [response|e];
      [| reflexivity].
    destruct (String.eqb (message_content_of response) ""); [reflexivity |].
    destruct (compile_exec (sanitize_code (message_content_of response)));
      reflexivity.
Qed.

(** X2. When a cache file exists for the prompt, [generate_response] raises
    and leaves the world as it was (no file written, the model client not
    asked).  What it raises is decided by the first step that fails:
    [UnicodeDecodeError] when the bytes of the file are no UTF-8 text;
    the exception of the decoder ([JSONDecodeError], or [ValueError] for an
    integer of more than 4300 digits, or [RecursionError] for a nesting
    that is too deep) when the text is not decoded; [TypeError] when the
    value is not a mapping with exactly the five fields; and otherwise the
    [AttributeError] of [is_secure()] on the rebuilt response, whose
    [security_context] is plain data. *)
Theorem X2_existing_entry_raises (prompt : string) (w : World) (content : string) :
  files w !! cache_file_of cache_dir prompt = Some content ->
  exists e,
    generate prompt w = (Raise e, w) /\
    (TextIO.read content = Raise e /\ TextIO.utf8_valid content = false /\
       (exists msg, e = UnicodeDecodeError msg)
     \/
     exists text,
       TextIO.read content = Ok text /\
       (Json.loads (recursion_room w) text = Raise e /\
          ((exists msg, e = JSONDecodeError msg) \/ (exists msg, e = ValueError msg)
           \/ (exists msg, e = RecursionError msg))
        \/
        exists data,
          Json.loads (recursion_room w) text = Ok data /\
          (CodeResponse_of data = Raise e /\ (exists msg, e = TypeError msg)
           \/
           exists r v,
             CodeResponse_of data = Ok r /\ security_context r = Data v /\
             is_secure r = Raise e /\ (exists msg, e = AttributeError msg)))).
Proof.
  intros Hf. pose proof (get_cached_response_cases cache_dir prompt w) as Hg.
  rewrite Hf in Hg. unfold generate_response. run_monad. rewrite Hg.
  destruct (TextIO.read content) as [text|e] eqn:Hread.
  - destruct (Json.loads (recursion_room w) text) as [data|e] eqn:Hl.
    + destruct (CodeResponse_of data) as [r|e] eqn:Hr.
      * destruct (CodeResponse_of_is_data _ _ Hr) as [v Hv].
        destruct (is_secure_of_data_raises _ _ Hv) as [msg He].
        exists (AttributeError msg).
        split; [unfold serve_or_generate; run_monad; now rewrite He |].
        right. exists text. split; [reflexivity |].
        right. exists data. split; [assumption |].
        right. exists r, v. eauto.
      * exists e. split; [reflexivity |].
        right. exists text. split; [reflexivity |].
        right. exists data. split; [assumption |].
        left. split; [assumption |]. now apply CodeResponse_of_raises in Hr.
    + exists e. split; [reflexivity |].
      right. exists text. split; [reflexivity |].
      left. split; [assumption |]. now apply loads_raises in Hl.
  - exists e. split; [reflexivity |]. left.
    apply read_raises in Hread. tauto.
Qed.

(** X3. [generate_response] asks the model client at most once, with the
    configured model and the prompt as the only message, and changes at most
    one file: the one named after the key of the prompt. *)
Theorem X3_generate_response_frame (prompt : string) (w : World) :
  let w' := snd (generate prompt w) in
  (chat_calls w' = chat_calls w \/
   chat_calls w' = chat_calls w ++ [(config_model, [("user", prompt)])]) /\
  (files w' = files w \/
   exists text, files w' = <[cache_file_of cache_dir prompt := text]> (files w)) /\
  (clock_reads w <= clock_reads w')%nat.
Proof.
  cbv zeta.
  destruct (files w !! cache_file_of cache_dir prompt) as [text|] eqn:Hf.
  - destruct (cached_entry_never_served compile_exec clock ollama_chat prompt w text Hf)
      as (e & He & _).
    rewrite He. cbn. auto.
  - rewrite generate_response_miss by assumption.
    unfold generate_fresh, chat, perform_security_checks, datetime_now,
      validate_syntax, cache_response, write_file, set_files.
    run_monad.
    destruct (ollama_chat config_model [("user", prompt)]) as [response|e];
      [| cbn; auto].
    destruct (String.eqb (message_content_of response) ""); [cbn; auto |].
    cbn beta iota.
    destruct (compile_exec (sanitize_code (message_content_of response)));
      cbn; (split; [auto |]); (split; [eauto | lia]).
Qed.

End AgentOutcome.

(** An entry of two thousand arrays, one inside the other, as a cache
    file: the decoder raises [RecursionError], which goes through
    [generate_response]. *)
Lemma X2_existing_entry_raises_witness :
  let content := repeated "[" 2000 in
  let w := world_with (cache_file_of cache_dir "q") content in
  exists e,
    generate_response always_compiles (clock_at 0) (replies "x = 1") "q" w = (Raise e, w) /\
    (TextIO.read content = Raise e /\ TextIO.utf8_valid content = false /\
       (exists msg, e = UnicodeDecodeError msg)
     \/
     exists text,
       TextIO.read content = Ok text /\
       (Json.loads (recursion_room w) text = Raise e /\
          ((exists msg, e = JSONDecodeError msg) \/ (exists msg, e = ValueError msg)
           \/ (exists msg, e = RecursionError msg))
        \/
        exists data,
          Json.loads (recursion_room w) text = Ok data /\
          (CodeResponse_of data = Raise e /\ (exists msg, e = TypeError msg)
           \/
           exists r v,
             CodeResponse_of data = Ok r /\ security_context r = Data v /\
             is_secure r = Raise e /\ (exists msg, e = AttributeError msg)))).
Proof.
  cbv zeta. apply X2_existing_entry_raises.
  vm_compute. reflexivity.
Defined.

(** Each step of the lookup failing in turn: bytes that are no text, an
    integer of too many digits, a nesting too deep, a text that is not
    JSON, a value that is no mapping, and an entry that is rebuilt. *)
Example existing_entry_failures :
  let run content :=
    fst (generate_response always_compiles (clock_at 0) (replies "x = 1") "q"
           (world_with (cache_file_of cache_dir "q") content)) in
  run (Text.bytes [255]%nat)
  = Raise (UnicodeDecodeError "'utf-8' codec can't decode byte: invalid start byte") /\
  run (repeated "1" 4301)
  = Raise (ValueError "Exceeds the limit (4300 digits) for integer string conversion") /\
  run (repeated "[" 2000) = Raise Json.too_deep /\
  run "[1, 2" = Raise (JSONDecodeError "Expecting value") /\
  run "[1, 2]" = Raise (TypeError "argument after ** must be a mapping") /\
  run sample_entry
  = Raise (AttributeError "'dict' object has no attribute 'security_score'").
Proof. cbv zeta. repeat split; vm_compute; reflexivity. Qed.

(** ** The verdict of the pipeline, by the number of patterns found *)

Lemma penalty_count_le (code : string) : (penalty_count code <= 8)%nat.
Proof.
  unfold penalty_count, dangerous_patterns. cbn [List.filter].
  repeat match goal with
         | |- context [Py.contains ?p code] => destruct (Py.contains p code)
         end; simpl; lia.
Qed.

Lemma filter_length_zero {A} (f : A -> bool) (l : list A) :
  length (List.filter f l) = 0%nat <-> forall x, In x l -> f x = false.
Proof.
  induction l as [|a l IH]; simpl.
  - split; [intros _ x [] | reflexivity].
  - destruct (f a) eqn:Ha; simpl.
    + split; [discriminate |]. intros H. rewrite H in Ha by now left. discriminate.
    + rewrite IH. split.
      * intros H x [<- | Hx]; auto.
      * intros H x Hx. apply H. now right.
Qed.

Lemma penalty_count_zero (code : string) :
  penalty_count code = 0%nat <->
  forall p, In p dangerous_patterns -> Py.contains p code = false.
Proof. unfold penalty_count. apply filter_length_zero. Qed.

Section Verdict.

Variable compile_exec : string -> CompileOutcome.
Variable clock : nat -> datetime.

(** X4. The verdict on a reply depends only on how many patterns of the
    denylist occur in the raw reply: in every context that
    [perform_security_checks] returns, the level is HIGH for none, MEDIUM
    for exactly one and LOW for two or more; the context passes the test of
    [is_secure] iff at most one pattern occurs; the score lies in [0,100].
    A context is returned unless the compiler raises something else than
    [SyntaxError]. *)
Theorem X4_verdict_by_pattern_count (code : string) (w : World) :
  let out := perform_security_checks compile_exec clock code w in
  let n := penalty_count code in
  (forall ctx sanitized_code,
     fst out = Ok (ctx, sanitized_code) ->
     (security_level ctx = HIGH <-> n = 0%nat) /\
     (security_level ctx = MEDIUM <-> n = 1%nat) /\
     (security_level ctx = LOW <-> (2 <= n)%nat) /\
     (context_is_secure ctx = true <-> (n <= 1)%nat) /\
     (0 <= security_score ctx)%Q /\ (security_score ctx <= 100)%Q) /\
  ((exists ctx, fst out = Ok (ctx, sanitize_code code))
   <-> (forall e, compile_exec (sanitize_code code) <> OtherError e)).
Proof.
  cbv zeta. split; [| apply perform_security_checks_returns].
  intros ctx sanitized_code Hrun.
  destruct (perform_security_checks_returned compile_exec clock code w ctx
              sanitized_code Hrun)
    as (_ & _ & _ & _ & Hscore & Hv & _ & Hfix).
  rewrite score_formula, (penalty_count_ext (sanitize_code code) code) in Hscore
    by (intros p Hp; now apply sanitize_preserves).
  assert (Hlev : security_level ctx
                 = if Qle_bool 90 (security_score ctx) then HIGH
                   else if Qle_bool 70 (security_score ctx) then MEDIUM else LOW).
  { rewrite Hfix at 1. unfold update_security_level. rewrite Hv.
    cbn [is_empty]. rewrite andb_true_r.
    destruct (Qle_bool 90 (security_score ctx)); [reflexivity |].
    destruct (Qle_bool 70 (security_score ctx)); reflexivity. }
  unfold context_is_secure. rewrite Hv, Hlev, Hscore. cbn [is_empty].
  pose proof (penalty_count_le code) as Hle.
  destruct (penalty_count code) as [|[|[|[|[|[|[|[|[|n]]]]]]]]]; try lia;
    repeat split; intros; try lia;
    try (vm_compute; first [reflexivity | discriminate]);
    try (exfalso; vm_compute in *; discriminate).
Qed.

(** X7. A context that [perform_security_checks] returns is valid
    ([is_valid]) at an instant iff the sanitized code compiled and less than
    24 hours have passed since the check read the clock.  A context is
    returned unless the compiler raises something else than
    [SyntaxError]. *)
Theorem X7_freshness_window (code : string) (w : World) (now : datetime) :
  let out := perform_security_checks compile_exec clock code w in
  (forall ctx sanitized_code,
     fst out = Ok (ctx, sanitized_code) ->
     (is_valid now ctx = true <->
      compile_exec (sanitize_code code) = Compiled /\
      now - clock (clock_reads w) < 86400 * 1000000)) /\
  ((exists ctx, fst out = Ok (ctx, sanitize_code code))
   <-> (forall e, compile_exec (sanitize_code code) <> OtherError e)).
Proof.
  cbv zeta. split; [| apply perform_security_checks_returns].
  intros ctx sanitized_code Hrun.
  destruct (perform_security_checks_returned compile_exec clock code w ctx
              sanitized_code Hrun)
    as (_ & _ & Hval & _ & _ & _ & Hlast & _).
  unfold is_valid, seconds. rewrite Hlast, andb_true_iff, Z.ltb_lt.
  now rewrite Hval.
Qed.

End Verdict.

(** ** The sanitizer never shortens, and what it leaves unchanged *)

Section Growth.

Local Arguments String.append !_ _ / : simpl nomatch.

Lemma replace_length (old new s : string) :
  old <> "" -> (String.length old <= String.length new)%nat ->
  (String.length s <= String.length (Py.replace s old new))%nat.
Proof.
  intros Hold Hlen.
  apply (replace_ind old new
           (fun s t => (String.length s <= String.length t)%nat));
    [assumption | reflexivity | |].
  - intros r IH. rewrite !length_append. lia.
  - intros c t _ IH. simpl. lia.
Qed.

Lemma replace_length_lt (old new s : string) :
  old <> "" -> (String.length old < String.length new)%nat ->
  Py.contains old s = true ->
  (String.length s < String.length (Py.replace s old new))%nat.
Proof.
  intros Hold Hlen.
  apply (replace_ind old new
           (fun s t => Py.contains old s = true ->
                       (String.length s < String.length t)%nat));
    [assumption | now rewrite contains_nil | |].
  - intros r _ _. rewrite !length_append.
    pose proof (replace_length old new r Hold). lia.
  - intros c t Hp IH H. cbn [Py.contains] in H. rewrite Hp in H.
    simpl. apply IH in H. lia.
Qed.

Lemma marker_longer (p : string) :
  (String.length p < String.length (marker p))%nat.
Proof. unfold marker, marker_prefix. rewrite length_append. simpl. lia. Qed.

Lemma sanitize_fold_length (l : list string) (code : string) :
  (forall p, In p l -> In p dangerous_patterns) ->
  let out := fold_left (fun code pattern => Py.replace code pattern (marker pattern))
                       l code in
  (String.length code <= String.length out)%nat /\
  ((exists p, In p l /\ Py.contains p code = true) ->
   (String.length code < String.length out)%nat).
Proof.
  revert code. induction l as [|q l IH]; intros code Hl; cbv zeta.
  - split; [reflexivity | intros (p & [] & _)].
  - cbn [fold_left].
    assert (Hq : In q dangerous_patterns) by (apply Hl; now left).
    assert (Hne : q <> "") by now apply denylist_nonempty.
    pose proof (replace_length q (marker q) code Hne
                  (Nat.lt_le_incl _ _ (marker_longer q))) as Hstep.
    destruct (IH (Py.replace code q (marker q))
                 (fun p Hp => Hl p (or_intror Hp))) as [Hmono Hstrict].
    split; [lia |]. intros (p & [<- | Hp] & Hc).
    + pose proof (replace_length_lt q (marker q) code Hne (marker_longer q) Hc). lia.
    + assert (Hlt : (String.length (Py.replace code q (marker q))
                     < String.length
                         (fold_left (fun code pattern =>
                                       Py.replace code pattern (marker pattern))
                                    l (Py.replace code q (marker q))))%nat).
      { apply Hstrict. exists p. split; [assumption |].
        rewrite redact_preserves; [assumption | assumption | apply Hl; now right]. }
      lia.
Qed.

Lemma sanitize_fold_absent (l : list string) (code : string) :
  (forall p, In p l -> Py.contains p code = false) ->
  fold_left (fun code pattern => Py.replace code pattern (marker pattern)) l code = code.
Proof.
  induction l as [|q l IH]; intros H; [reflexivity |].
  cbn [fold_left].
  destruct (string_dec q "") as [-> | Hne].
  - specialize (H "" (or_introl eq_refl)). now destruct code.
  - rewrite (replace_absent q Hne) by (apply H; now left).
    apply IH. intros p Hp. apply H. now right.
Qed.

End Growth.

Lemma penalty_count_pos (code : string) :
  penalty_count code <> 0%nat ->
  exists p, In p dangerous_patterns /\ Py.contains p code = true.
Proof.
  intros Hn.
  destruct (existsb (fun p => Py.contains p code) dangerous_patterns) eqn:He.
  - apply existsb_exists in He. exact He.
  - exfalso. apply Hn, penalty_count_zero. intros p Hp.
    destruct (Py.contains p code) eqn:Hc; [| reflexivity].
    assert (existsb (fun p => Py.contains p code) dangerous_patterns = true)
      by (apply existsb_exists; eauto).
    congruence.
Qed.

Lemma sanitize_grows (code : string) :
  (String.length code <= String.length (sanitize_code code))%nat /\
  (penalty_count code <> 0%nat ->
   (String.length code < String.length (sanitize_code code))%nat).
Proof.
  destruct (sanitize_fold_length dangerous_patterns code (fun p Hp => Hp))
    as [Hmono Hstrict].
  split; [exact Hmono |]. intros Hn. apply Hstrict. now apply penalty_count_pos.
Qed.

Lemma sanitize_unchanged_iff (code : string) :
  sanitize_code code = code <-> penalty_count code = 0%nat.
Proof.
  split.
  - intros Heq. destruct (Nat.eq_dec (penalty_count code) 0%nat) as [|Hn]; [assumption |].
    destruct (sanitize_grows code) as [_ Hlt]. specialize (Hlt Hn).
    rewrite Heq in Hlt. lia.
  - intros Hz. apply sanitize_fold_absent. now apply penalty_count_zero.
Qed.

(** X5. [sanitize_code] never shortens its input, and it returns its input
    unchanged iff no pattern of the denylist occurs in it; otherwise the
    output is strictly longer.  A second pass changes the output of the
    first whenever the first changed anything: the sanitizer is idempotent
    only on texts it leaves alone. *)
Theorem X5_sanitize_fixed_points (code : string) :
  (String.length code <= String.length (sanitize_code code))%nat /\
  (sanitize_code code = code <-> penalty_count code = 0%nat) /\
  (penalty_count code <> 0%nat ->
   (String.length code < String.length (sanitize_code code))%nat) /\
  (sanitize_code (sanitize_code code) = sanitize_code code <-> sanitize_code code = code).
Proof.
  destruct (sanitize_grows code) as [Hmono Hlt].
  split; [exact Hmono |]. split; [apply sanitize_unchanged_iff |].
  split; [exact Hlt |]. split.
  - intros H. apply sanitize_unchanged_iff. apply sanitize_unchanged_iff in H.
    rewrite (penalty_count_ext (sanitize_code code) code) in H; [assumption |].
    intros p Hp. now apply sanitize_preserves.
  - intros H. now rewrite !H.
Qed.

(** ** The cache key *)

Lemma hex_length (k : nat) (n : Z) : String.length (Sha256.hex k n) = k.
Proof.
  revert n. induction k as [|k IH]; intros n; [reflexivity |].
  cbn [Sha256.hex]. rewrite length_append, IH. simpl. lia.
Qed.

Lemma string_forall_append (p : ascii -> bool) (a b : string) :
  string_forall p (a +:+ b) = string_forall p a && string_forall p b.
Proof.
  induction a as [|c a IH]; [reflexivity |].
  change (String c a +:+ b) with (String c (a +:+ b)).
  cbn [string_forall]. now rewrite IH, andb_assoc.
Qed.

Lemma hex_digit_is_hex (n : Z) : 0 <= n < 16 -> is_lower_hex (Sha256.hex_digit n) = true.
Proof.
  intros H.
  assert (Hall : forallb (fun k => is_lower_hex (Sha256.hex_digit (Z.of_nat k)))
                         (List.seq 0 16) = true) by (vm_compute; reflexivity).
  rewrite forallb_forall in Hall. specialize (Hall (Z.to_nat n)).
  rewrite Z2Nat.id in Hall by lia. apply Hall, in_seq. lia.
Qed.

Lemma hex_is_hex (k : nat) (n : Z) : string_forall is_lower_hex (Sha256.hex k n) = true.
Proof.
  revert n. induction k as [|k IH]; intros n; [reflexivity |].
  cbn [Sha256.hex]. rewrite string_forall_append, IH. cbn [string_forall andb].
  rewrite hex_digit_is_hex; [reflexivity |]. apply Z.mod_pos_bound. lia.
Qed.

Lemma compress_length (h block : list Z) : length (Sha256.compress h block) = 8%nat.
Proof. reflexivity. Qed.

Lemma digest_words_length (s : string) : length (Sha256.digest_words s) = 8%nat.
Proof.
  unfold Sha256.digest_words.
  generalize (Sha256.blocks
                (length (Sha256.words (length (Sha256.pad (Sha256.bytes_of s)))
                                      (Sha256.pad (Sha256.bytes_of s))))
                (Sha256.words (length (Sha256.pad (Sha256.bytes_of s)))
                              (Sha256.pad (Sha256.bytes_of s)))).
  intros bs. assert (H : length Sha256.H0 = 8%nat) by reflexivity.
  revert H. generalize Sha256.H0. induction bs as [|b bs IH]; intros h Hh.
  - exact Hh.
  - cbn [fold_left]. apply IH, compress_length.
Qed.

Lemma hexdigest_shape (ws : list Z) :
  let out := fold_right (fun w out => Sha256.hex 8 w +:+ out) EmptyString ws in
  String.length out = (8 * length ws)%nat /\ string_forall is_lower_hex out = true.
Proof.
  induction ws as [|w ws [IHl IHf]]; cbv zeta; [split; reflexivity |].
  cbn [fold_right]. rewrite length_append, hex_length, string_forall_append, hex_is_hex.
  cbv zeta in *. rewrite IHl. split; [simpl; lia | exact IHf].
Qed.

(** X6. The cache key of every prompt is made of 64 characters, each a
    digit or a letter from a to f: the name of a cache file holds no path
    separator and no dot besides the one of its extension. *)
Theorem X6_cache_key_shape (prompt : string) :
  String.length (get_cache_key prompt) = 64%nat /\
  string_forall is_lower_hex (get_cache_key prompt) = true /\
  cache_file_of cache_dir prompt = "cache/responses/" +:+ get_cache_key prompt +:+ ".json".
Proof.
  unfold get_cache_key, Sha256.hexdigest.
  destruct (hexdigest_shape (Sha256.digest_words prompt)) as [Hl Hf].
  cbv zeta in *. rewrite digest_words_length in Hl.
  repeat split; assumption || reflexivity.
Qed.

(** * Further properties of [agent_core.py] *)

(** ** Counters, history and last values of [AgentMetrics] *)

Section MetricsMore.

Import AgentCore.

Lemma record_all_snoc (requests : list RequestMetrics) (m : RequestMetrics) :
  record_all (requests ++ [m]) = add_request (record_all requests) m.
Proof. unfold record_all. now rewrite fold_left_app. Qed.

Lemma add_request_counts (self : AgentMetrics) (m : RequestMetrics) :
  let self' := add_request self m in
  total_requests self' = total_requests self + 1 /\
  successful_requests self' = successful_requests self + (if success m then 1 else 0) /\
  failed_requests self' = failed_requests self + (if success m then 0 else 1) /\
  request_history self' = request_history self ++ [m] /\
  last_error self' = (if success m then last_error self else error m) /\
  last_activity self' = Some (default (start_time m) (end_time m)).
Proof.
  cbv zeta. unfold add_request. destruct (success m); cbn;
    repeat split; try reflexivity; lia.
Qed.

Lemma record_all_counts (requests : list RequestMetrics) :
  let m := record_all requests in
  total_requests m = Z.of_nat (length requests) /\
  successful_requests m = Z.of_nat (length (List.filter success requests)) /\
  failed_requests m = Z.of_nat (length (List.filter Monitoring.is_failure requests)) /\
  request_history m = requests.
Proof.
  cbv zeta. induction requests as [|m requests IH] using rev_ind.
  - repeat split.
  - destruct IH as (Ht & Hs & Hf & Hh).
    rewrite record_all_snoc.
    destruct (add_request_counts (record_all requests) m) as (Ht' & Hs' & Hf' & Hh' & _).
    cbv zeta in *. rewrite Ht', Hs', Hf', Hh', Ht, Hs, Hf, Hh.
    rewrite !List.filter_app, !length_app. unfold Monitoring.is_failure. cbn [List.filter].
    destruct (success m); cbn; repeat split; lia.
Qed.

End MetricsMore.

Lemma filter_split_length {A} (f : A -> bool) (l : list A) :
  length l
  = (length (List.filter f l) + length (List.filter (fun x => negb (f x)) l))%nat.
Proof.
  induction l as [|a l IH]; [reflexivity |].
  cbn [List.filter length]. destruct (f a); cbn [negb length]; lia.
Qed.

(** X8. After any sequence of [add_request] on fresh metrics,
    [total_requests] is the number of requests, [successful_requests] and
    [failed_requests] are the numbers of successful and failed ones, so that
    [total_requests = successful_requests + failed_requests]; and
    [request_history] is the sequence of the requests, in the order of the
    calls. *)
Theorem X8_counters_and_history (requests : list AgentCore.RequestMetrics) :
  let m := AgentCore.record_all requests in
  AgentCore.total_requests m = Z.of_nat (length requests) /\
  AgentCore.successful_requests m
  = Z.of_nat (length (List.filter AgentCore.success requests)) /\
  AgentCore.failed_requests m
  = Z.of_nat (length (List.filter Monitoring.is_failure requests)) /\
  AgentCore.total_requests m
  = AgentCore.successful_requests m + AgentCore.failed_requests m /\
  AgentCore.request_history m = requests.
Proof.
  cbv zeta. destruct (record_all_counts requests) as (Ht & Hs & Hf & Hh).
  cbv zeta in *. rewrite Ht, Hs, Hf, Hh. repeat split.
  pose proof (filter_split_length AgentCore.success requests) as Hsplit.
  unfold Monitoring.is_failure. lia.
Qed.

(** X9. [last_error] is the error of the last failed request, whether that
    request carried a message or not, and [None] when no request failed: a
    later success does not clear it.  [last_activity] is the end of the last
    request, or its start when it has no end. *)
Theorem X9_last_error_and_activity (requests : list AgentCore.RequestMetrics) :
  let m := AgentCore.record_all requests in
  AgentCore.last_error m
  = match List.find Monitoring.is_failure (rev requests) with
    | Some r => AgentCore.error r
    | None => None
    end /\
  AgentCore.last_activity m
  = match rev requests with
    | r :: _ => Some (default (AgentCore.start_time r) (AgentCore.end_time r))
    | [] => None
    end.
Proof.
  cbv zeta. induction requests as [|r requests [IHe IHa]] using rev_ind.
  - split; reflexivity.
  - rewrite record_all_snoc, rev_app_distr. cbn [rev app List.find].
    destruct (add_request_counts (AgentCore.record_all requests) r)
      as (_ & _ & _ & _ & He & Ha).
    cbv zeta in *. rewrite He, Ha, IHe. unfold Monitoring.is_failure.
    destruct (AgentCore.success r); split; reflexivity.
Qed.

(** ** The callback *)

Section CallbackFacts.

Import AgentCore Monitoring.

Lemma record_all_history_snoc (m : AgentMetrics) (r : RequestMetrics) :
  m = record_all (request_history m) ->
  add_request m r = record_all (request_history (add_request m r)).
Proof.
  intros Hm. destruct (add_request_counts m r) as (_ & _ & _ & Hh & _).
  cbv zeta in Hh. rewrite Hh, record_all_snoc, <- Hm. reflexivity.
Qed.

Lemma handle_ok (cb : Callback) (e : event) : callback_ok cb -> callback_ok (handle cb e).
Proof.
  intros (Hm & Hall & Hcur). destruct e as [now | now | now msg]; cbn [handle].
  - unfold on_llm_start, callback_ok. cbn. auto.
  - unfold on_llm_end. destruct (current_request cb) as [r|] eqn:Hc;
      [| unfold callback_ok; rewrite Hc; auto].
    destruct Hcur as [_ Herr]. unfold callback_ok. cbn [metrics current_request].
    split; [now apply record_all_history_snoc |]. split; [| exact I].
    destruct (add_request_counts (metrics cb)
                {| start_time := start_time r; end_time := Some now;
                   AgentCore.duration := Some (total_seconds (now - start_time r));
                   AgentCore.success := true; AgentCore.error := AgentCore.error r |})
      as (_ & _ & _ & Hh & _).
    cbv zeta in Hh. rewrite Hh. apply Forall_app. split; [assumption |].
    constructor; [| constructor]. exists now. cbn. auto.
  - unfold on_llm_error. destruct (current_request cb) as [r|] eqn:Hc;
      [| unfold callback_ok; rewrite Hc; auto].
    destruct Hcur as [Hdur _]. unfold callback_ok. cbn [metrics current_request].
    split; [now apply record_all_history_snoc |]. split; [| exact I].
    destruct (add_request_counts (metrics cb)
                {| start_time := start_time r; end_time := Some now;
                   AgentCore.duration := AgentCore.duration r;
                   AgentCore.success := false; AgentCore.error := Some msg |})
      as (_ & _ & _ & Hh & _).
    cbv zeta in Hh. rewrite Hh. apply Forall_app. split; [assumption |].
    constructor; [| constructor]. exists now. cbn. eauto.
Qed.

Lemma fold_handle_ok (events : list event) (cb : Callback) :
  callback_ok cb -> callback_ok (fold_left handle events cb).
Proof.
  revert cb. induction events as [|e events IH]; intros cb H; [exact H |].
  cbn [fold_left]. apply IH, handle_ok, H.
Qed.

Lemma run_events_ok (events : list event) : callback_ok (run_events events).
Proof. apply fold_handle_ok. repeat split. constructor. Qed.

Lemma recorded_well_has_duration (r : RequestMetrics) :
  recorded_well r -> AgentCore.success r = true -> AgentCore.duration r <> None.
Proof.
  intros (finish & _ & H) Hs. rewrite Hs in H. destruct H as [-> _]. discriminate.
Qed.

(** The average of metrics built by [record_all] from requests whose
    successes carry their durations. *)
Lemma record_all_average (requests : list RequestMetrics) :
  (forall m, In m requests -> AgentCore.success m = true -> AgentCore.duration m <> None) ->
  AgentCore.successful_requests (record_all requests)
  = Z.of_nat (length (successful_durations requests)) /\
  (successful_durations requests <> [] ->
   (AgentCore.average_response_time (record_all requests)
    == mean (successful_durations requests))%Q).
Proof.
  intros Hall.
  destruct (fold_add_request_tracks requests initial [])
    as [Hn Havg]; [split; reflexivity | assumption |].
  cbn [app] in *. fold (record_all requests) in *.
  split; [exact Hn |]. intros Hne.
  unfold mean. rewrite <- Havg, Hn. field.
  apply inject_Z_nonzero.
  destruct (successful_durations requests); [congruence | simpl; lia].
Qed.

End CallbackFacts.

(** X10. Whatever the sequence of calls of [on_llm_start], [on_llm_end] and
    [on_llm_error] on a callback over fresh metrics, every request in the
    history is completed: a successful one carries as duration the seconds
    between its start and its end and no error, a failed one carries its
    error and no duration.  Hence, as soon as one request succeeded,
    [average_response_time] is the mean of the durations of the successful
    requests. *)
Theorem X10_callback_records_durations (events : list Monitoring.event) :
  let m := Monitoring.metrics (Monitoring.run_events events) in
  let history := AgentCore.request_history m in
  Forall Monitoring.recorded_well history /\
  (1 <= AgentCore.successful_requests m ->
   (AgentCore.average_response_time m
    == AgentCore.mean (AgentCore.successful_durations history))%Q) /\
  AgentCore.successful_requests m
  = Z.of_nat (length (AgentCore.successful_durations history)).
Proof.
  cbv zeta. destruct (run_events_ok events) as (Hm & Hall & _).
  split; [exact Hall |].
  destruct (record_all_average
              (AgentCore.request_history (Monitoring.metrics (Monitoring.run_events events))))
    as [Hn Havg].
  { intros r Hr. apply recorded_well_has_duration.
    rewrite Forall_forall in Hall. apply Hall.
    now apply list_elem_of_In. }
  rewrite <- Hm in Hn, Havg. split; [| exact Hn].
  intros Hpos. apply Havg. intros Hnil. rewrite Hnil in Hn. simpl in Hn. lia.
Qed.

Section CallbackCounting.

Import AgentCore Monitoring.

Lemma add_request_total (m : AgentMetrics) (r : RequestMetrics) :
  AgentCore.total_requests (add_request m r) = AgentCore.total_requests m + 1.
Proof. unfold add_request. now destruct (AgentCore.success r). Qed.

Lemma handle_count (cb : Callback) (e : event) :
  AgentCore.total_requests (metrics (handle cb e)) + pending (handle cb e)
  <= AgentCore.total_requests (metrics cb) + pending cb + (if is_start e then 1 else 0)
  /\ AgentCore.total_requests (metrics cb) <= AgentCore.total_requests (metrics (handle cb e)).
Proof.
  unfold pending.
  destruct e as [now | now | now msg]; cbn [handle is_start];
    unfold on_llm_start, on_llm_end, on_llm_error;
    destruct (current_request cb) as [r|] eqn:Hc; cbn [metrics current_request];
    rewrite ?add_request_total, ?Hc; lia.
Qed.

Lemma fold_handle_count (events : list event) (cb : Callback) :
  AgentCore.total_requests (metrics (fold_left handle events cb))
  + pending (fold_left handle events cb)
  <= AgentCore.total_requests (metrics cb) + pending cb
     + Z.of_nat (length (List.filter is_start events)).
Proof.
  revert cb. induction events as [|e events IH]; intros cb; [cbn; lia |].
  cbn [fold_left List.filter]. specialize (IH (handle cb e)).
  destruct (handle_count cb e) as [H _].
  destruct (is_start e); cbn [length] in *; lia.
Qed.

End CallbackCounting.

(** X11. A callback records at most one request per call of [on_llm_start]:
    the number of recorded requests, plus one when a request is pending, never
    exceeds the number of starts.  In particular [on_llm_end] and
    [on_llm_error] without a pending request record nothing, and a start that
    follows a start makes the first request disappear. *)
Theorem X11_one_record_per_start (events : list Monitoring.event) :
  let cb := Monitoring.run_events events in
  AgentCore.total_requests (Monitoring.metrics cb) + Monitoring.pending cb
  <= Z.of_nat (length (List.filter Monitoring.is_start events)) /\
  (forall now error,
     Monitoring.current_request cb = None ->
     Monitoring.on_llm_end now cb = cb /\ Monitoring.on_llm_error now error cb = cb) /\
  (forall t1 t2,
     Monitoring.on_llm_start t2 (Monitoring.on_llm_start t1 cb)
     = Monitoring.on_llm_start t2 cb).
Proof.
  cbv zeta. split; [| split].
  - pose proof (fold_handle_count events (Monitoring.new_callback AgentCore.initial)) as H.
    cbn in H. exact H.
  - intros now error Hc. unfold Monitoring.on_llm_end, Monitoring.on_llm_error.
    now rewrite Hc.
  - reflexivity.
Qed.

Section CallbackClock.

Import AgentCore Monitoring.

Lemma total_seconds_nonneg (delta : Z) : 0 <= delta -> (0 <= total_seconds delta)%Q.
Proof.
  intros H. unfold total_seconds. apply Qle_shift_div_l; [reflexivity |].
  rewrite Qmult_0_l. unfold Qle. simpl. lia.
Qed.

Lemma add_request_nonnegative (m : AgentMetrics) (r : RequestMetrics) :
  nonnegative m ->
  (forall d, AgentCore.duration r = Some d -> (0 <= d)%Q) ->
  nonnegative (add_request m r).
Proof.
  intros (Hn & Havg & Hall) Hd.
  destruct (add_request_counts m r) as (_ & Hs & _ & Hh & _). cbv zeta in *.
  split; [rewrite Hs; destruct (AgentCore.success r); lia |].
  split; [| rewrite Hh; apply Forall_app; split; [assumption | repeat constructor; assumption]].
  unfold add_request. destruct (AgentCore.success r); [| exact Havg].
  cbn [AgentCore.average_response_time].
  destruct (AgentCore.duration r) as [d|]; [| exact Havg].
  specialize (Hd d eq_refl).
  destruct (AgentCore.successful_requests m + 1 =? 1); [exact Hd |].
  apply Qle_shift_div_l.
  - unfold Qlt. simpl. lia.
  - rewrite Qmult_0_l.
    replace 0%Q with (0 + 0)%Q by reflexivity.
    apply Qplus_le_compat; [| exact Hd].
    apply Qmult_le_0_compat; [exact Havg |]. unfold Qle. simpl. lia.
Qed.

Lemma fold_handle_nonnegative (events : list event) (cb : Callback) :
  clock_monotone events ->
  match current_request cb with
  | Some r => AgentCore.duration r = None /\
              Forall (fun e => start_time r <= event_time e) events
  | None => True
  end ->
  nonnegative (metrics cb) ->
  nonnegative (metrics (fold_left handle events cb)).
Proof.
  revert cb. induction events as [|e events IH]; intros cb Hmono Hcur Hnn; [exact Hnn |].
  cbn [fold_left]. destruct Hmono as [Hhead Hmono].
  apply IH; [exact Hmono | |].
  - destruct e as [now | now | now msg]; cbn [handle];
      unfold on_llm_start, on_llm_end, on_llm_error;
      destruct (current_request cb) as [r|] eqn:Hc;
      cbn [current_request]; rewrite ?Hc; try exact I;
      (split; [reflexivity | exact Hhead]).
  - destruct e as [now | now | now msg]; cbn [handle];
      unfold on_llm_start, on_llm_end, on_llm_error;
      destruct (current_request cb) as [r|] eqn:Hc;
      cbn [metrics]; try exact Hnn;
      destruct Hcur as [Hdur Hle]; apply add_request_nonnegative; try exact Hnn;
      cbn [AgentCore.duration].
    + intros d [= <-]. apply total_seconds_nonneg.
      apply Forall_inv in Hle. cbn [event_time] in Hle. lia.
    + rewrite Hdur. discriminate.
Qed.

End CallbackClock.

(** X12. When the clock never goes back between the calls, every duration
    that the callback records is non-negative, and so is
    [average_response_time]. *)
Theorem X12_monotone_clock_durations (events : list Monitoring.event) :
  Monitoring.clock_monotone events ->
  let m := Monitoring.metrics (Monitoring.run_events events) in
  Forall (fun r => forall d, AgentCore.duration r = Some d -> (0 <= d)%Q)
         (AgentCore.request_history m) /\
  (0 <= AgentCore.average_response_time m)%Q.
Proof.
  intros Hmono. cbv zeta.
  destruct (fold_handle_nonnegative events (Monitoring.new_callback AgentCore.initial))
    as (_ & Havg & Hall); [exact Hmono | exact I | | now split].
  repeat split; [reflexivity | discriminate | constructor].
Qed.

(** Three requests between instants 0 and 9 seconds, the second one failing. *)
Lemma X12_monotone_clock_durations_witness :
  let events :=
    [ Monitoring.LlmStart 0; Monitoring.LlmEnd (seconds 2);
      Monitoring.LlmStart (seconds 3); Monitoring.LlmError (seconds 4) "timeout";
      Monitoring.LlmStart (seconds 5); Monitoring.LlmEnd (seconds 9) ] in
  let m := Monitoring.metrics (Monitoring.run_events events) in
  Forall (fun r => forall d, AgentCore.duration r = Some d -> (0 <= d)%Q)
         (AgentCore.request_history m) /\
  (0 <= AgentCore.average_response_time m)%Q.
Proof.
  cbv zeta. apply X12_monotone_clock_durations.
  simpl. repeat (split || constructor); unfold seconds; simpl; lia.
Defined.

Example callback_sample :
  let events :=
    [ Monitoring.LlmEnd 0; Monitoring.LlmStart 0; Monitoring.LlmStart (seconds 1);
      Monitoring.LlmEnd (seconds 3); Monitoring.LlmEnd (seconds 4);
      Monitoring.LlmStart (seconds 5); Monitoring.LlmError (seconds 6) "boom" ] in
  let m := Monitoring.metrics (Monitoring.run_events events) in
  AgentCore.total_requests m = 2 /\ AgentCore.successful_requests m = 1 /\
  (AgentCore.average_response_time m == 2)%Q /\
  AgentCore.last_error m = Some "boom".
Proof. cbv zeta. repeat split. Qed.

(** ** The report of [get_performance_stats] *)

Section StatsFacts.

Variable strftime : datetime -> string.
Variable format_2f : Q -> string.

(** X13. The report on metrics fed by [add_request] alone: [success_rate]
    is 0 when nothing was recorded (no division takes place) and the share
    of the successful requests otherwise, always between 0 and 1;
    [recent_requests] describes the last ten requests, or all of them when
    there are fewer, in the order of their recording. *)
Theorem X13_performance_stats (requests : list AgentCore.RequestMetrics) :
  let st := Monitoring.get_performance_stats strftime format_2f
              (AgentCore.record_all requests) in
  let successes := length (List.filter AgentCore.success requests) in
  Monitoring.total_requests st = Z.of_nat (length requests) /\
  (requests = [] -> Monitoring.success_rate st = 0%Q) /\
  (requests <> [] ->
   (Monitoring.success_rate st
    == inject_Z (Z.of_nat successes) / inject_Z (Z.of_nat (length requests)))%Q) /\
  (0 <= Monitoring.success_rate st)%Q /\ (Monitoring.success_rate st <= 1)%Q /\
  Monitoring.recent_requests st
  = map (Monitoring.report strftime format_2f)
        (skipn (length requests - 10) requests) /\
  length (Monitoring.recent_requests st) = Nat.min 10 (length requests).
Proof.
  cbv zeta. destruct (record_all_counts requests) as (Ht & Hs & _ & Hh).
  cbv zeta in *. unfold Monitoring.get_performance_stats.
  cbn [Monitoring.total_requests Monitoring.success_rate Monitoring.recent_requests].
  rewrite Ht, Hs, Hh. unfold Monitoring.last_n.
  pose proof (filter_split_length AgentCore.success requests) as Hsplit.
  split; [reflexivity |]. split; [now intros -> |]. split.
  - intros Hne. destruct requests; [congruence |]. reflexivity.
  - destruct requests as [|r requests].
    + repeat split; discriminate.
    + set (l := r :: requests) in *.
      assert (Hlen : (0 < length l)%nat) by (subst l; simpl; lia).
      assert (Hpos : (0 < inject_Z (Z.of_nat (length l)))%Q)
        by (unfold Qlt, inject_Z; cbn [Qnum Qden]; lia).
      replace (0 <? Z.of_nat (length l)) with true
        by (symmetry; apply Z.ltb_lt; lia).
      split; [| split; [| split]].
      * apply Qle_shift_div_l; [exact Hpos |]. rewrite Qmult_0_l.
        unfold Qle, inject_Z. cbn [Qnum Qden]. lia.
      * apply Qle_shift_div_r; [exact Hpos |]. rewrite Qmult_1_l.
        unfold Qle, inject_Z. cbn [Qnum Qden]. lia.
      * reflexivity.
      * rewrite length_map, length_skipn. lia.
Qed.

End StatsFacts.

(** ** [CodeValidator]: the walk reaches every node *)

Section ValidatorFacts.

Import Validator.

Lemma sizes_app (a b : list node) : sizes (a ++ b) = (sizes a + sizes b)%nat.
Proof. induction a as [|n a IH]; simpl; [reflexivity | rewrite IH; lia]. Qed.

Lemma size_node (n : node) : size n = S (sizes (children_of n)).
Proof. destruct n. reflexivity. Qed.

Lemma all_nodes_node (n : node) :
  all_nodes n = n :: flat_map all_nodes (children_of n).
Proof. destruct n. reflexivity. Qed.

(** With enough fuel, the queue is emptied and every node below it is
    yielded once. *)
Lemma walk_queue_permutation (fuel : nat) (todo : list node) :
  (sizes todo <= fuel)%nat ->
  Permutation (walk_queue fuel todo) (flat_map all_nodes todo).
Proof.
  revert todo. induction fuel as [|fuel IH]; intros todo Hfuel.
  - destruct todo as [|n todo]; [constructor |].
    simpl in Hfuel. rewrite size_node in Hfuel. lia.
  - destruct todo as [|n rest]; [constructor |].
    cbn [walk_queue flat_map]. rewrite all_nodes_node. cbn [app].
    apply perm_skip.
    rewrite (IH (rest ++ children_of n)).
    + rewrite flat_map_app. apply Permutation_app_comm.
    + rewrite sizes_app. simpl in Hfuel. rewrite size_node in Hfuel. lia.
Qed.

Lemma walk_permutation (tree : node) : Permutation (walk tree) (all_nodes tree).
Proof.
  unfold walk. rewrite walk_queue_permutation.
  - simpl. now rewrite app_nil_r.
  - simpl. lia.
Qed.

Lemma first_message_none (nodes : list node) :
  first_message nodes = None <-> Forall (fun n => check_node n = None) nodes.
Proof.
  induction nodes as [|n nodes IH]; simpl.
  - split; [constructor | reflexivity].
  - destruct (check_node n) eqn:Hn.
    + split; [discriminate | intros H; inversion H; congruence].
    + rewrite IH. split; [now constructor | intros H; now inversion H].
Qed.

Lemma first_message_some (nodes : list node) (msg : string) :
  first_message nodes = Some msg -> exists n, In n nodes /\ check_node n = Some msg.
Proof.
  induction nodes as [|n nodes IH]; simpl; [discriminate |].
  destruct (check_node n) eqn:Hn.
  - intros [= <-]. exists n. auto.
  - intros H. destruct (IH H) as (n' & Hin & Hc). exists n'. auto.
Qed.

Lemma walk_clean_iff (tree : node) :
  first_message (walk tree) = None <->
  Forall (fun n => check_node n = None) (all_nodes tree).
Proof.
  rewrite first_message_none, !Forall_forall. split; intros H n Hn; apply H.
  - apply list_elem_of_In. apply list_elem_of_In in Hn.
    eapply Permutation_in; [symmetry; apply walk_permutation | exact Hn].
  - apply list_elem_of_In. apply list_elem_of_In in Hn.
    eapply Permutation_in; [apply walk_permutation | exact Hn].
Qed.

Variable ast_parse : string -> parse_outcome.
Variable run_python_code : string -> run_outcome.

Lemma validate_code_cases (code : string) :
  match ast_parse code with
  | Parsed tree =>
      (Forall (fun n => check_node n = None) (all_nodes tree) /\
       validate_code ast_parse code = (true, None)) \/
      (exists n msg, In n (all_nodes tree) /\ check_node n = Some msg /\
                     validate_code ast_parse code = (false, Some msg))
  | ParseSyntaxError msg =>
      validate_code ast_parse code = (false, Some ("Invalid syntax: " +:+ msg))
  | ParseOtherError msg =>
      validate_code ast_parse code = (false, Some ("Validation error: " +:+ msg))
  end.
Proof.
  unfold validate_code. destruct (ast_parse code) as [tree|msg|msg]; try reflexivity.
  destruct (first_message (walk tree)) as [msg|] eqn:Hm.
  - right. destruct (first_message_some _ _ Hm) as (n & Hin & Hc).
    exists n, msg. repeat split; [| exact Hc].
    eapply Permutation_in; [apply walk_permutation | exact Hin].
  - left. split; [now apply walk_clean_iff | reflexivity].
Qed.

End ValidatorFacts.

(** X14. [validate_code] declares a snippet safe iff it parses and no node
    of its syntax tree, at any depth, is a blocked import, a blocked
    attribute or a call of a blocked name; a verdict of unsafe always comes
    with a message, a verdict of safe never, and after a successful parse the
    message is the one of a node of the tree. *)
Theorem X14_validate_code_verdict (ast_parse : string -> Validator.parse_outcome)
    (code : string) :
  let verdict := Validator.validate_code ast_parse code in
  (fst verdict = true <->
   exists tree, ast_parse code = Validator.Parsed tree /\
     Forall (fun n => Validator.check_node n = None) (Validator.all_nodes tree)) /\
  (fst verdict = true <-> snd verdict = None) /\
  (forall tree,
     ast_parse code = Validator.Parsed tree -> fst verdict = false ->
     exists n, In n (Validator.all_nodes tree) /\ Validator.check_node n = snd verdict).
Proof.
  cbv zeta. pose proof (validate_code_cases ast_parse code) as H.
  destruct (ast_parse code) as [tree|msg|msg].
  - destruct H as [[Hall ->] | (n & msg & Hin & Hc & ->)]; cbn [fst snd].
    + repeat split; try discriminate; eauto.
    + split; [| split].
      * split; [discriminate |]. intros (tree' & [= <-] & Hall).
        rewrite Forall_forall in Hall.
        rewrite (Hall n) in Hc by now apply list_elem_of_In. discriminate.
      * split; discriminate.
      * intros tree' [= <-] _. exists n. auto.
  - rewrite H. cbn [fst snd]. repeat split; try discriminate.
    intros (tree & Ht & _). discriminate.
  - rewrite H. cbn [fst snd]. repeat split; try discriminate.
    intros (tree & Ht & _). discriminate.
Qed.

(** X15. [_safe_run_python_code] hands a snippet to [run_python_code] only
    when [validate_code] finds it safe: a snippet that does not parse, or
    whose tree holds a blocked node, is never run and is answered by the
    warning with the message; a safe snippet is run once and answered by its
    output, or by the error text when running raised. *)
Theorem X15_unsafe_code_never_runs (ast_parse : string -> Validator.parse_outcome)
    (run_python_code : string -> Validator.run_outcome)
    (code : string) (executed : list string) :
  let out := Validator.safe_run_python_code ast_parse run_python_code code executed in
  ((forall tree, ast_parse code = Validator.Parsed tree ->
      exists n, In n (Validator.all_nodes tree) /\ Validator.check_node n <> None) ->
   snd out = executed /\
   exists msg, fst out = "⚠️ Code validation failed: " +:+ msg /\
               snd (Validator.validate_code ast_parse code) = Some msg) /\
  ((exists tree, ast_parse code = Validator.Parsed tree /\
      Forall (fun n => Validator.check_node n = None) (Validator.all_nodes tree)) ->
   snd out = executed ++ [code] /\
   fst out = match run_python_code code with
             | Validator.Ran result => result
             | Validator.RunError msg => "❌ Error executing code: " +:+ msg
             end).
Proof.
  cbv zeta. unfold Validator.safe_run_python_code.
  pose proof (validate_code_cases ast_parse code) as H.
  destruct (ast_parse code) as [tree|msg|msg].
  - destruct H as [[Hall ->] | (n & msg & Hin & Hc & ->)]; cbn [fst snd negb].
    + split.
      * intros Hblocked. destruct (Hblocked tree eq_refl) as (n & Hin & Hn).
        rewrite Forall_forall in Hall. exfalso. apply Hn, Hall.
        now apply list_elem_of_In.
      * intros _. destruct (run_python_code code); split; reflexivity.
    + split.
      * intros _. split; [reflexivity |]. exists msg. split; reflexivity.
      * intros (tree' & [= <-] & Hall). rewrite Forall_forall in Hall.
        rewrite (Hall n) in Hc by now apply list_elem_of_In. discriminate.
  - rewrite H. cbn [fst snd negb]. split.
    + intros _. split; [reflexivity |]. eexists. split; reflexivity.
    + intros (tree & Ht & _). discriminate.
  - rewrite H. cbn [fst snd negb]. split.
    + intros _. split; [reflexivity |]. eexists. split; reflexivity.
    + intros (tree & Ht & _). discriminate.
Qed.

(** The snippet of the test of [agent_core.py] is refused for its import,
    which the walk meets before the attribute. *)
Example validate_sample_tree :
  Validator.validate_code (fun _ => Validator.Parsed Validator.sample_tree)
    "import os; os.system('rm -rf /')"
  = (false, Some "Blocked import: os").
Proof. reflexivity. Qed.

(** ** The order of the walk *)

Section WalkOrder.

Import Validator.

Lemma first_message_app (a b : list node) :
  first_message (a ++ b)
  = match first_message a with
    | Some msg => Some msg
    | None => first_message b
    end.
Proof.
  induction a as [|n a IH]; [reflexivity |].
  cbn [app first_message]. destruct (check_node n); [reflexivity | exact IH].
Qed.

(** Once the nodes of [level] are at the head of the queue, they are
    yielded in order, and their children are queued behind what was
    waiting. *)
Lemma walk_queue_level (level waiting : list node) (fuel : nat) :
  walk_queue (length level + fuel) (level ++ waiting)
  = level ++ walk_queue fuel (waiting ++ flat_map children_of level).
Proof.
  revert waiting. induction level as [|n level IH]; intros waiting.
  - cbn. now rewrite app_nil_r.
  - cbn [length Nat.add app walk_queue flat_map].
    rewrite <- app_assoc, IH, <- app_assoc. reflexivity.
Qed.

Lemma sizes_level (level : list node) :
  sizes level = (length level + sizes (flat_map children_of level))%nat.
Proof.
  induction level as [|n level IH]; [reflexivity |].
  cbn [sizes fold_right length flat_map]. fold (sizes level).
  rewrite sizes_app, size_node, IH. lia.
Qed.

End WalkOrder.

(** X20. [ast.walk] goes level by level: the walk of a list of trees yields
    their roots from left to right, then walks the list of all their
    children.  So [validate_code] reports the first blocked node in level
    order: a blocked node is reported before any blocked node that lies
    deeper in the tree. *)
Theorem X20_walk_is_level_order (level : list Validator.node) :
  let below := flat_map Validator.children_of level in
  let walk_of l := Validator.walk_queue (Validator.sizes l) l in
  walk_of level = level ++ walk_of below /\
  Validator.first_message (walk_of level)
  = match Validator.first_message level with
    | Some msg => Some msg
    | None => Validator.first_message (walk_of below)
    end /\
  (forall tree, Validator.walk tree = walk_of [tree]).
Proof.
  cbv zeta.
  assert (H : Validator.walk_queue (Validator.sizes level) level
              = level ++ Validator.walk_queue
                           (Validator.sizes (flat_map Validator.children_of level))
                           (flat_map Validator.children_of level)).
  { pose proof (walk_queue_level level []
                  (Validator.sizes (flat_map Validator.children_of level))) as Hq.
    rewrite app_nil_r in Hq. cbn [app] in Hq.
    rewrite <- Hq. f_equal. apply sizes_level. }
  split; [exact H |]. split.
  - rewrite H at 1. apply first_message_app.
  - intros tree. unfold Validator.walk. cbn. now rewrite Nat.add_0_r.
Qed.

(** A blocked call at depth 1 is reported, not the blocked attribute that
    comes first in the text but lies deeper. *)
Example walk_prefers_shallow :
  let deep := Validator.Node Validator.Other
                [Validator.Node (Validator.Attribute "open") []] in
  let shallow := Validator.Node (Validator.Call (Some "eval")) [] in
  Validator.first_message
    (Validator.walk (Validator.Node Validator.Other [deep; shallow]))
  = Some "Blocked function call: eval".
Proof. reflexivity. Qed.

(** * Properties of [custom_llm.py] *)

Section LlmFacts.

Import OllamaLLM.

Local Arguments String.append !_ _ / : simpl nomatch.

Variable room : nat.

Lemma exn_decode_cases (e : exn) :
  (exists msg, e = JSONDecodeError msg) \/ (forall msg, e <> JSONDecodeError msg).
Proof. destruct e; eauto; right; discriminate. Qed.

Lemma item_of_decoded (text fallback : string) (v : Json.value) :
  Json.loads room text = Ok v -> item_of room text fallback = get_content v.
Proof. intros H. unfold item_of. now rewrite H. Qed.

Lemma item_of_fallback (text fallback msg : string) :
  Json.loads room text = Raise (JSONDecodeError msg) ->
  item_of room text fallback = Ok (Json.Str fallback).
Proof. intros H. unfold item_of. now rewrite H. Qed.

(** An exception of the decoder that the handler does not catch. *)
Lemma item_of_uncaught (text fallback : string) (e : exn) :
  Json.loads room text = Raise e -> (forall msg, e <> JSONDecodeError msg) ->
  item_of room text fallback = Raise e.
Proof.
  intros H Hne. unfold item_of. rewrite H.
  destruct e; try reflexivity. now destruct (Hne msg).
Qed.

Lemma loads_empty : Json.loads room "" = Raise Json.malformed.
Proof. reflexivity. Qed.

Lemma loads_nonempty (text : string) (v : Json.value) :
  Json.loads room text = Ok v -> String.eqb text "" = false.
Proof. intros H. destruct text; [discriminate | reflexivity]. Qed.

Lemma uncaught_nonempty (text : string) (e : exn) :
  Json.loads room text = Raise e -> (forall msg, e <> JSONDecodeError msg) ->
  String.eqb text "" = false.
Proof.
  intros H Hne. destruct text; [| reflexivity].
  rewrite loads_empty in H. injection H as <-. now destruct (Hne "Expecting value").
Qed.

Lemma uncaught_kinds (text : string) (e : exn) :
  Json.loads room text = Raise e -> (forall msg, e <> JSONDecodeError msg) ->
  (exists msg, e = ValueError msg) \/ (exists msg, e = RecursionError msg).
Proof.
  intros H Hne. destruct (loads_raises _ _ _ H) as [[msg ->] | H']; [| exact H'].
  now destruct (Hne msg).
Qed.

Lemma get_content_text (v : Json.value) :
  (exists w, get_content v = Ok w /\ exists s, w = Json.Str s) <-> accepted v.
Proof.
  unfold accepted. split.
  - intros (w & Hw & s & ->). destruct v as [| | | | |members]; try discriminate.
    exists members. split; [reflexivity |]. cbn in Hw.
    destruct (Dict.get "content" members) as [c|]; [right | now left].
    cbn in Hw. injection Hw as ->. eauto.
  - intros (members & -> & [Hn | (c & Hc)]); cbn; rewrite ?Hn, ?Hc; cbn; eauto.
Qed.

Lemma get_content_raises (v : Json.value) (e : exn) :
  get_content v = Raise e -> exists msg, e = AttributeError msg.
Proof.
  destruct v; cbn; try discriminate; intros [= <-]; unfold no_attribute; eauto.
Qed.

(** What the two loops do with a line, by what the decoder does with it. *)
Lemma item_decoded (line : string) (v : Json.value) :
  Json.loads room (Text.strip line) = Ok v ->
  let appended := match get_content v with
                  | Ok w => Ok (Some w)
                  | Raise e => Raise e
                  end in
  item_call room line = appended /\ item_parse_response room line = appended.
Proof.
  intros Hl. unfold item_call, item_parse_response.
  now rewrite (loads_nonempty _ _ Hl), !(item_of_decoded _ _ _ Hl).
Qed.

Lemma item_plain (line msg : string) :
  Json.loads room (Text.strip line) = Raise (JSONDecodeError msg) ->
  item_call room line = (if String.eqb (Text.strip line) "" then Ok None
                         else Ok (Some (Json.Str (Text.strip line)))) /\
  item_parse_response room line = Ok (Some (Json.Str line)).
Proof.
  intros Hl. unfold item_call, item_parse_response.
  rewrite !(item_of_fallback _ _ _ Hl). now destruct (String.eqb (Text.strip line) "").
Qed.

Lemma item_uncaught (line : string) (e : exn) :
  Json.loads room (Text.strip line) = Raise e ->
  (forall msg, e <> JSONDecodeError msg) ->
  item_call room line = Raise e /\ item_parse_response room line = Raise e.
Proof.
  intros Hl Hne. unfold item_call, item_parse_response.
  now rewrite (uncaught_nonempty _ _ Hl Hne), !(item_of_uncaught _ _ _ Hl Hne).
Qed.

Lemma line_cases (line : string) :
  (exists v, Json.loads room (Text.strip line) = Ok v) \/
  (exists msg, Json.loads room (Text.strip line) = Raise (JSONDecodeError msg)) \/
  (exists e, Json.loads room (Text.strip line) = Raise e /\
             forall msg, e <> JSONDecodeError msg).
Proof.
  destruct (Json.loads room (Text.strip line)) as [v|e]; [eauto |].
  destruct (exn_decode_cases e) as [[msg ->] | Hne]; eauto.
Qed.

(** A line that lets the loop go on with a string: what it decodes to is
    accepted, and the decoder raises nothing but [JSONDecodeError] on it. *)
Lemma item_text (line : string) :
  let fine :=
    (forall v, Json.loads room (Text.strip line) = Ok v -> accepted v) /\
    (forall e, Json.loads room (Text.strip line) = Raise e ->
               exists msg, e = JSONDecodeError msg) in
  ((exists a, item_parse_response room line = Ok a /\ is_text a) <-> fine) /\
  ((exists a, item_call room line = Ok a /\ is_text a) <-> fine).
Proof.
  cbv zeta.
  destruct (line_cases line) as [[v Hl] | [[msg Hl] | (e & Hl & Hne)]].
  - destruct (item_decoded line v Hl) as [-> ->]. rewrite Hl.
    assert (H : (exists a, match get_content v with
                           | Ok w => Ok (Some w)
                           | Raise e => Raise e
                           end = Ok a /\ is_text a) <-> accepted v).
    { rewrite <- get_content_text. split.
      - intros (a & Ha & Ht). destruct (get_content v) as [w|]; [| discriminate].
        injection Ha as <-. exists w. split; [reflexivity | exact Ht].
      - intros (w & -> & Hs). exists (Some w). split; [reflexivity | exact Hs]. }
    split; rewrite H; (split; [intros Ha; split; [now intros ? [= <-] | discriminate]
                              | intros [Ha _]; now apply Ha]).
  - destruct (item_plain line msg Hl) as [-> ->]. rewrite Hl.
    split; (split; [intros _; split; [discriminate | intros ? [= <-]; eauto] |]);
      intros _.
    + exists (Some (Json.Str line)). split; [reflexivity | cbn; eauto].
    + destruct (String.eqb (Text.strip line) ""); eexists;
        (split; [reflexivity | cbn; eauto]).
  - destruct (item_uncaught line e Hl Hne) as [-> ->]. rewrite Hl.
    split; (split; [intros (a & Ha & _); discriminate |]);
      intros [_ H]; destruct (H e eq_refl) as [msg ->]; now destruct (Hne msg).
Qed.

(** What the body of a loop raises: the [AttributeError] of [get], or what
    the decoder raised and the handler did not catch. *)
Lemma item_raises (line : string) (e : exn) :
  item_parse_response room line = Raise e \/ item_call room line = Raise e ->
  (exists msg, e = AttributeError msg) \/
  (Json.loads room (Text.strip line) = Raise e /\
   ((exists msg, e = ValueError msg) \/ (exists msg, e = RecursionError msg))).
Proof.
  destruct (line_cases line) as [[v Hl] | [[msg Hl] | (e' & Hl & Hne)]].
  - destruct (item_decoded line v Hl) as [-> ->].
    destruct (get_content v) eqn:Hg; [intros [H | H]; discriminate |].
    intros H. left. apply (get_content_raises v). destruct H as [H | H]; congruence.
  - destruct (item_plain line msg Hl) as [-> ->].
    destruct (String.eqb (Text.strip line) ""); intros [H | H]; discriminate.
  - destruct (item_uncaught line e' Hl Hne) as [-> ->].
    intros H. assert (e' = e) as -> by (destruct H; congruence).
    right. split; [exact Hl | now apply (uncaught_kinds _ _ Hl)].
Qed.

Lemma join_ok_iff (items : list Json.value) :
  (exists s, Text.join items = Ok s) <-> Forall (fun v => exists s, v = Json.Str s) items.
Proof.
  induction items as [|v items IH]; cbn.
  - split; [constructor | eauto].
  - split.
    + intros [s Hs]. destruct v; try discriminate.
      constructor; [eauto |]. apply IH.
      destruct (Text.join items); [eauto | discriminate].
    + intros H. inversion H as [|? ? [s ->] Hrest]; subst.
      apply IH in Hrest as [out ->]. eauto.
Qed.

Lemma join_raises (items : list Json.value) (e : exn) :
  Text.join items = Raise e -> exists msg, e = TypeError msg.
Proof.
  induction items as [|v items IH]; cbn; [discriminate |].
  destruct v; try (intros [= <-]; eauto).
  destruct (Text.join items); [discriminate |]. intros [= <-]. now apply IH.
Qed.

Lemma join_texts (l : list string) : Text.join (map Json.Str l) = Ok (concat l).
Proof. induction l as [|s l IH]; cbn; [reflexivity | now rewrite IH]. Qed.

Section Loop.

Variable item : string -> result (option Json.value).
Variable fine : string -> Prop.
Variable raised : string -> exn -> Prop.
Hypothesis item_fine :
  forall line, (exists a, item line = Ok a /\ is_text a) <-> fine line.
Hypothesis item_raised :
  forall line e, item line = Raise e -> raised line e.

Lemma collect_texts (lines : list string) :
  (exists items, collect item lines = Ok items /\
                 Forall (fun v => exists s, v = Json.Str s) items)
  <-> Forall fine lines.
Proof.
  induction lines as [|line lines IH]; cbn.
  - split; [constructor | intros _; exists []; split; [reflexivity | constructor]].
  - split.
    + intros (items & Hc & Hall).
      destruct (item line) as [a|] eqn:Ha; [| discriminate].
      destruct (collect item lines) as [items'|] eqn:Hc'; [| discriminate].
      injection Hc as <-. constructor.
      * apply item_fine. exists a. split; [exact Ha |].
        destruct a; [inversion Hall; assumption | exact I].
      * apply IH. exists items'. split; [reflexivity |].
        destruct a; [now inversion Hall | assumption].
    + intros H. inversion H as [|? ? Hline Hrest]; subst.
      apply item_fine in Hline as (a & -> & Ht).
      apply IH in Hrest as (items & -> & Hall).
      eexists. split; [reflexivity |].
      destruct a; [constructor; assumption | assumption].
Qed.

Lemma collect_raises (lines : list string) (e : exn) :
  collect item lines = Raise e -> exists line, In line lines /\ raised line e.
Proof.
  induction lines as [|line lines IH]; cbn; [discriminate |].
  destruct (item line) as [a|e'] eqn:Ha.
  - destruct (collect item lines); [discriminate |]. intros [= <-].
    destruct (IH eq_refl) as (l & Hin & Hr). eauto.
  - intros [= <-]. exists line. split; [now left | now apply item_raised].
Qed.

Lemma parse_with_outcome (text : string) :
  ((exists s, parse_with item text = Ok s) <-> Forall fine (Text.splitlines text)) /\
  (forall e, parse_with item text = Raise e ->
             (exists msg, e = TypeError msg) \/
             (exists line, In line (Text.splitlines text) /\ raised line e)).
Proof.
  unfold parse_with. split.
  - rewrite <- collect_texts. split.
    + intros [s Hs]. destruct (collect item (Text.splitlines text)) as [items|];
        [| discriminate].
      exists items. split; [reflexivity |]. apply join_ok_iff. eauto.
    + intros (items & -> & Hall). now apply join_ok_iff.
  - intros e. destruct (collect item (Text.splitlines text)) as [items|e'] eqn:Hc.
    + intros H. left. now apply (join_raises items).
    + intros [= <-]. right. now apply (collect_raises _ _ Hc).
Qed.

End Loop.

Lemma collect_streamed (lines pieces : list string) :
  Forall2 (OllamaLLM.carries room) lines pieces ->
  collect (item_call room) lines = Ok (map Json.Str pieces) /\
  collect (item_parse_response room) lines = Ok (map Json.Str pieces).
Proof.
  induction 1 as [|line piece lines pieces (members & Hl & Hc) _ [IH1 IH2]];
    [split; reflexivity |].
  cbn [collect map]. rewrite IH1, IH2.
  destruct (item_decoded line _ Hl) as [-> ->].
  cbn. rewrite Hc. split; reflexivity.
Qed.

Lemma collect_plain (lines : list string) :
  Forall (fun line => exists msg,
            Json.loads room (Text.strip line) = Raise (JSONDecodeError msg)) lines ->
  collect (item_parse_response room) lines = Ok (map Json.Str lines) /\
  exists items, collect (item_call room) lines = Ok items /\
                Text.join items = Ok (concat (map Text.strip lines)).
Proof.
  induction 1 as [|line lines [msg He] _ [IH1 (items & IH2 & IHj)]].
  - split; [reflexivity |]. exists []. split; reflexivity.
  - cbn [collect map]. rewrite IH1, IH2.
    destruct (item_plain line msg He) as [-> ->].
    split; [reflexivity |].
    destruct (String.eqb_spec (Text.strip line) "") as [Hs | Hs].
    + exists items. split; [reflexivity |]. cbn. now rewrite Hs.
    + eexists. split; [reflexivity |]. cbn. now rewrite IHj.
Qed.



End LlmFacts.

(** X16. When every line of the reply of the server is, white space apart,
    a JSON object that the decoder returns and whose [content] is a string,
    both versions of the parser return these strings put end to end. *)
Theorem X16_streamed_reply (room : nat) (response_text : string)
    (pieces : list string) :
  Forall2 (OllamaLLM.carries room) (Text.splitlines response_text) pieces ->
  OllamaLLM.call_output room response_text = Ok (OllamaLLM.concat pieces) /\
  OllamaLLM.parse_response room response_text = Ok (OllamaLLM.concat pieces).
Proof.
  intros H. destruct (collect_streamed room _ _ H) as [H1 H2].
  unfold OllamaLLM.call_output, OllamaLLM.parse_response, OllamaLLM.parse_with.
  rewrite H1, H2, join_texts. split; reflexivity.
Qed.

(** Two lines, the second one followed by a blank. *)
Lemma X16_streamed_reply_witness :
  let q := String Json.quote "" in
  let nl := String (ascii_of_nat 10) "" in
  let line c := "{" +:+ q +:+ "content" +:+ q +:+ ": " +:+ q +:+ c +:+ q +:+ "}" in
  let text := line "Hel" +:+ nl +:+ line "lo" +:+ " " +:+ nl in
  OllamaLLM.call_output 1 text = Ok (OllamaLLM.concat ["Hel"; "lo"]) /\
  OllamaLLM.parse_response 1 text = Ok (OllamaLLM.concat ["Hel"; "lo"]).
Proof.
  cbv zeta. apply X16_streamed_reply.
  change (Forall2 (OllamaLLM.carries 1)
            (Text.splitlines
               ("{" +:+ String Json.quote "" +:+ "content" +:+ String Json.quote ""
                +:+ ": " +:+ String Json.quote "" +:+ "Hel" +:+ String Json.quote ""
                +:+ "}" +:+ String (ascii_of_nat 10) ""
                +:+ "{" +:+ String Json.quote "" +:+ "content" +:+ String Json.quote ""
                +:+ ": " +:+ String Json.quote "" +:+ "lo" +:+ String Json.quote ""
                +:+ "}" +:+ " " +:+ String (ascii_of_nat 10) ""))
            ["Hel"; "lo"]).
  vm_compute Text.splitlines.
  repeat constructor; eexists; split; vm_compute; reflexivity.
Defined.

(** X17. When the decoder raises [JSONDecodeError] on every line of the
    reply (no line is JSON), the parser of [agent/src/custom_llm.py]
    returns the lines as they are, put end to end (the reply without its
    line boundaries), and the one of [agent/custom_llm.py] returns them
    stripped of the white space around each. *)
Theorem X17_plain_reply (room : nat) (response_text : string) :
  Forall (fun line => exists msg,
            Json.loads room (Text.strip line) = Raise (JSONDecodeError msg))
         (Text.splitlines response_text) ->
  OllamaLLM.parse_response room response_text
  = Ok (OllamaLLM.concat (Text.splitlines response_text)) /\
  OllamaLLM.call_output room response_text
  = Ok (OllamaLLM.concat (map Text.strip (Text.splitlines response_text))).
Proof.
  intros H. destruct (collect_plain room _ H) as [H1 (items & H2 & Hj)].
  unfold OllamaLLM.call_output, OllamaLLM.parse_response, OllamaLLM.parse_with.
  rewrite H1, H2, join_texts. split; [reflexivity | exact Hj].
Qed.

Lemma X17_plain_reply_witness :
  let nl := String (ascii_of_nat 10) "" in
  let text := " model is loading " +:+ nl +:+ nl +:+ "try again" in
  OllamaLLM.parse_response 1 text = Ok (OllamaLLM.concat (Text.splitlines text)) /\
  OllamaLLM.call_output 1 text
  = Ok (OllamaLLM.concat (map Text.strip (Text.splitlines text))).
Proof.
  cbv zeta. apply X17_plain_reply.
  vm_compute Text.splitlines.
  repeat constructor; eexists; vm_compute; reflexivity.
Defined.

(** X18. Both versions of the parser return a string iff, on every line,
    the decoder returns an object whose [content], when present, is a
    string, or raises [JSONDecodeError].  Otherwise they raise:
    [AttributeError] (a line that is JSON but no object), [TypeError] (a
    [content] that is no string), or what the decoder raised on a line and
    the handler does not catch, [ValueError] (an integer of more than 4300
    digits) or [RecursionError] (a nesting too deep).  A reply with a stray
    number, list or null is not passed through. *)
Theorem X18_parser_raises_iff (room : nat) (response_text : string) :
  let fine line :=
    (forall v, Json.loads room (Text.strip line) = Ok v -> OllamaLLM.accepted v) /\
    (forall e, Json.loads room (Text.strip line) = Raise e ->
               exists msg, e = JSONDecodeError msg) in
  ((exists s, OllamaLLM.parse_response room response_text = Ok s)
   <-> Forall fine (Text.splitlines response_text)) /\
  ((exists s, OllamaLLM.call_output room response_text = Ok s)
   <-> Forall fine (Text.splitlines response_text)) /\
  (forall e,
     OllamaLLM.parse_response room response_text = Raise e \/
     OllamaLLM.call_output room response_text = Raise e ->
     (exists msg, e = AttributeError msg) \/ (exists msg, e = TypeError msg) \/
     (exists line,
        In line (Text.splitlines response_text) /\
        Json.loads room (Text.strip line) = Raise e /\
        ((exists msg, e = ValueError msg) \/ (exists msg, e = RecursionError msg)))).
Proof.
  cbv zeta.
  set (raised := fun (line : string) (e : exn) =>
         (exists msg, e = AttributeError msg) \/
         (Json.loads room (Text.strip line) = Raise e /\
          ((exists msg, e = ValueError msg) \/ (exists msg, e = RecursionError msg)))).
  destruct (parse_with_outcome (OllamaLLM.item_parse_response room) _ raised
              (fun line => proj1 (item_text room line))
              (fun line e H => item_raises room line e (or_introl H)) response_text)
    as [Hp Hpe].
  destruct (parse_with_outcome (OllamaLLM.item_call room) _ raised
              (fun line => proj2 (item_text room line))
              (fun line e H => item_raises room line e (or_intror H)) response_text)
    as [Hc Hce].
  split; [exact Hp |]. split; [exact Hc |].
  assert (Hshape : forall e,
            (exists msg, e = TypeError msg) \/
            (exists line, In line (Text.splitlines response_text) /\ raised line e) ->
            (exists msg, e = AttributeError msg) \/ (exists msg, e = TypeError msg) \/
            (exists line,
               In line (Text.splitlines response_text) /\
               Json.loads room (Text.strip line) = Raise e /\
               ((exists msg, e = ValueError msg) \/ (exists msg, e = RecursionError msg)))).
  { intros e [Ht | (line & Hin & [Ha | [Hl Hk]])]; [tauto | tauto |].
    right. right. exists line. auto. }
  intros e [H | H]; apply Hshape; [now apply Hpe | now apply Hce].
Qed.



(** The versions differ on a line of plain text with white space around
    it. *)
Example parsers_differ :
  OllamaLLM.call_output 1 " hello " = Ok "hello" /\
  OllamaLLM.parse_response 1 " hello " = Ok " hello ".
Proof. split; vm_compute; reflexivity. Qed.

(** What the handler does not catch ends both parsers: an integer of 4301
    digits beside the content, and a nesting past the room. *)
Example parsers_uncaught :
  let q := String Json.quote "" in
  let long := "{" +:+ q +:+ "content" +:+ q +:+ ": " +:+ q +:+ "a" +:+ q +:+ ", "
              +:+ q +:+ "n" +:+ q +:+ ": " +:+ repeated "1" 4301 +:+ "}" in
  let too_long :=
    Raise (ValueError "Exceeds the limit (4300 digits) for integer string conversion") in
  OllamaLLM.call_output 1 long = too_long /\
  OllamaLLM.parse_response 1 long = too_long /\
  OllamaLLM.call_output 2 "[[[" = Raise Json.too_deep /\
  OllamaLLM.parse_response 2 "[[[" = Raise Json.too_deep /\
  OllamaLLM.parse_response 3 "[[[" = Ok "[[[".
Proof. cbv zeta. repeat split; vm_compute; reflexivity. Qed.
